(** * PodNet: node lifecycle, interface registry and table provisioning

    A shallow embedding of the interface registry of [Node], of the
    VRF / bridge-domain model and the routing-configuration accumulator of
    [DockerRouter], and of the forwarding-table provisioner and the start
    sequence of [DockerP4Router] (all in [mininet/node.py]), followed by the
    properties of these operations. *)

From stdpp Require Import base decidable option list sorting strings pretty gmap.
From Stdlib Require Import ZArith Lia Sorted.

Open Scope Z_scope.
Open Scope string_scope.
Open Scope list_scope.
Open Scope stdpp_scope.

(** ** Python dictionaries

    A Python [dict] iterates in insertion order: assigning to a key that is
    present keeps its position and replaces the value, assigning to a new key
    appends it, and [del] removes the entry.  The provisioner iterates over
    [items()], so this order is part of the model: a dictionary is the list
    of its items, oldest first. *)
Module PyDict.
Section Dict.
Context {K V : Type} `{EqDecision K}.

Definition t := list (K * V).

Definition empty : t := [].

(** [d.get(k)], also the model of [d[k]] where [None] is the [KeyError]. *)
Fixpoint get (k : K) (d : t) : option V :=
  match d with
  | [] => None
  | (k', v) :: d' => if decide (k' = k) then Some v else get k d'
  end.

(** [d[k] = v] *)
Fixpoint set (k : K) (v : V) (d : t) : t :=
  match d with
  | [] => [(k, v)]
  | (k', v') :: d' =>
      if decide (k' = k) then (k', v) :: d' else (k', v') :: set k v d'
  end.

(** [del d[k]] when the key is present; without it the list is unchanged
    and the caller decides what the missing key means. *)
Fixpoint del (k : K) (d : t) : t :=
  match d with
  | [] => []
  | (k', v') :: d' => if decide (k' = k) then d' else (k', v') :: del k d'
  end.

Definition items (d : t) : list (K * V) := d.
Definition keys (d : t) : list K := map fst d.
Definition values (d : t) : list V := map snd d.
Definition len (d : t) : nat := length d.
End Dict.
Global Arguments t : clear implicits.
End PyDict.

(** ** Interfaces

    The class [Intf] lives in [mininet/link.py], which is not part of the
    sources at hand.  The registry only needs the identity of the object (a
    Python object without [__eq__] hashes and compares by identity) and its
    [name]. *)
Record Intf := mkIntf { intf_id : nat; intf_name : string }.

Global Instance Intf_eq_dec : EqDecision Intf.
Proof. solve_decision. Defined.

(** ** [class Node]: the interface registry *)
Module Node.

Record t := mk {
  portBase : Z;
  intfs : PyDict.t Z Intf;          (* port numbers to interfaces *)
  ports : PyDict.t nat Z;           (* interfaces (by identity) to port numbers *)
  nameToIntf : PyDict.t string Intf (* interface names to interfaces *)
}.

(** [Node.__init__]; [portBase] is the class attribute, 0 for [Node] and
    its container subclasses, 1 for [Switch]. *)
Definition init (base : Z) : t :=
  {| portBase := base; intfs := PyDict.empty; ports := PyDict.empty;
     nameToIntf := PyDict.empty |}.

(** Python's [max] over a sequence whose first element is [v]. *)
Definition py_max (v : Z) (vs : list Z) : Z := fold_left Z.max vs v.

Definition newPort (n : t) : Z :=
  match PyDict.values (ports n) with
  | v :: vs => py_max v vs + 1
  | [] => portBase n
  end.

(** [addIntf( intf, port=None )].  Moving the interface into the namespace
    ([moveIntfFn]) acts on the kernel only and leaves the registry alone. *)
Definition addIntf (intf : Intf) (port : option Z) (n : t) : t :=
  let port := match port with None => newPort n | Some p => p end in
  {| portBase := portBase n;
     intfs := PyDict.set port intf (intfs n);
     ports := PyDict.set (intf_id intf) port (ports n);
     nameToIntf := PyDict.set (intf_name intf) intf (nameToIntf n) |}.

(** [delIntf( intf )]; [None] is the [KeyError] of a [del] on a missing
    key. *)
Definition delIntf (intf : Intf) (n : t) : option t :=
  match PyDict.get (intf_id intf) (ports n) with
  | Some port =>
      _ ← PyDict.get port (intfs n);
      _ ← PyDict.get (intf_name intf) (nameToIntf n);
      Some {| portBase := portBase n;
              intfs := PyDict.del port (intfs n);
              ports := PyDict.del (intf_id intf) (ports n);
              nameToIntf := PyDict.del (intf_name intf) (nameToIntf n) |}
  | None => Some n
  end.

(** The port a caller reads back for an interface, [self.ports[intf]]. *)
Definition portOf (intf : Intf) (n : t) : option Z :=
  PyDict.get (intf_id intf) (ports n).

(** A sequence of [addIntf] calls that omit the port, with the port each
    call assigned, in call order. *)
Fixpoint addIntfs (l : list Intf) (n : t) : t * list (option Z) :=
  match l with
  | [] => (n, [])
  | i :: l' =>
      let n1 := addIntf i None n in
      let '(n2, ps) := addIntfs l' n1 in
      (n2, portOf i n1 :: ps)
  end.

(** Python's [min] over a sequence whose first element is [v]. *)
Definition py_min (v : Z) (vs : list Z) : Z := fold_left Z.min vs v.

(** [defaultIntf()]: the interface of the lowest port; without interfaces a
    warning is logged and Python's [None] is returned. *)
Definition defaultIntf (n : t) : option Intf :=
  match PyDict.keys (intfs n) with
  | p :: ps => PyDict.get (py_min p ps) (intfs n)
  | [] => None
  end.

(** What a caller passes to [intf( intf=None )]: nothing, a name, or an
    interface object. *)
Inductive intf_arg := ArgNone | ArgName (name : string) | ArgIntf (i : Intf).

(** [intf( intf=None )].  The outer [None] is the [KeyError] of
    [self.nameToIntf[ intf ]], the inner one is Python's [None]. *)
Definition intf (a : intf_arg) (n : t) : option (option Intf) :=
  match a with
  | ArgNone => Some (defaultIntf n)
  | ArgName name =>
      if decide (name = "") then Some (defaultIntf n)
      else i ← PyDict.get name (nameToIntf n); Some (Some i)
  | ArgIntf i => Some (Some i)
  end.

(** [intfList()]: [[ self.intfs[ p ] for p in sorted( self.intfs.keys() ) ]];
    [None] is a [KeyError]. *)
Definition intfList (n : t) : option (list Intf) :=
  mapM (fun p => PyDict.get p (intfs n))
       (merge_sort Z.le (PyDict.keys (intfs n))).
End Node.

(** ** Python values and their formatting *)

(** The arguments the callers pass where the code tests [!= None] and
    [isinstance(_, str)]: nothing, a string or an integer. *)
Inductive pyval := VNone | VStr (s : string) | VInt (n : Z).

Global Instance pyval_eq_dec : EqDecision pyval.
Proof. solve_decision. Defined.

(** The line feed that ends every [file.write] of the provisioner, and the
    double quote of the [echo -e] commands. *)
Definition nl : string := String (Ascii.ascii_of_nat 10) "".
Definition dq : string := String (Ascii.ascii_of_nat 34) "".

(** [str(n)] and ["{}".format(n)] for an integer. *)
Definition str_int (n : Z) : string := pretty n.

(** ["{}".format(v)] *)
Definition fmt (v : pyval) : string :=
  match v with
  | VNone => "None"
  | VStr s => s
  | VInt n => str_int n
  end.

Definition fmt_opt (o : option Z) : string :=
  match o with
  | None => "None"
  | Some n => str_int n
  end.

(** [needle in hay] on strings. *)
Fixpoint str_in (needle hay : string) : bool :=
  String.prefix needle hay ||
  match hay with
  | EmptyString => false
  | String _ hay' => str_in needle hay'
  end.

(** Modelled from the spec: the mutable attributes of an [Intf] object, whose
    class ([mininet/link.py]) is not part of the sources: the MAC and IP
    address set by [setMAC] and [setIP], the VRF tag read by [VRF()] and
    written by [setVRF], "defaulting to `default`", and the optional
    bridge-domain index read by [BDI()] and written by [setBDI], "assigned
    when attached to an overlay". *)
Record IntfAttrs := mkAttrs {
  a_mac : option string;
  a_ip : option string;
  a_vrf : string;
  a_bdi : option Z
}.

(** Modelled from the spec: the fields of an [Intf] object that nobody has
    set yet, "every Effective Interface has a VRF (defaulting to `default`)
    and, once attached to an overlay, a BDI". *)
Definition default_attrs : IntfAttrs :=
  {| a_mac := None; a_ip := None; a_vrf := "default"; a_bdi := None |}.

(** ** [class Docker]: helpers of the container-backed node *)
Module Docker.

Definition colon : Ascii.ascii := Ascii.ascii_of_nat 58.

(** [volume_str.split(":")]: the pieces between the colons, empty ones
    included. *)
Fixpoint split_colon (s : string) : list string :=
  match s with
  | EmptyString => [""]
  | String c s' =>
      if decide (c = colon) then "" :: split_colon s'
      else match split_colon s' with
           | piece :: rest => String c piece :: rest
           | [] => [String c ""]
           end
  end.

(** [_get_volume_mount_name( volume_str )]; [None] is Python's [None]. *)
Definition _get_volume_mount_name (volume_str : string) : option string :=
  let parts := split_colon volume_str in
  if (length parts <? 3)%nat then None else parts !! 1%nat.

(** [start()]: the commands it sends to the node's shell, in order. *)
Definition start (n : Node.t) : list string :=
  ["service ssh start"]
  ++ flat_map (fun '(port, intf) =>
                 ["ethtool --offload " +:+ intf_name intf +:+ " rx off";
                  "ethtool --offload " +:+ intf_name intf +:+ " tx off"])
              (PyDict.items (Node.intfs n))
  ++ ["iptables -t mangle -A OUTPUT -p icmp -j TOS --set-tos 0x00"].
End Docker.

(** ** [class DockerRouter]: VRFs, bridge domains, routing configuration *)
Module DockerRouter.

Record t := mk {
  node : Node.t;
  name : string;
  software : string;
  loopbackIP : string;
  attrs : gmap nat IntfAttrs;                    (* the Intf objects' fields *)
  daemonConfigs : PyDict.t string (list string);
  generalConfig : list string;
  vrfDict : PyDict.t string Z;                   (* VRF names to IDs *)
  tableVrfDict : PyDict.t Z Z;                   (* routing tables to VRF IDs *)
  vrfVniDict : PyDict.t string (option Z * list Z); (* [l3 vni, [l2 vnis]] *)
  bdIntfDict : PyDict.t Z (list Intf);           (* BDI to member interfaces *)
  effIntfs : PyDict.t string Z                   (* effective interfaces *)
}.

Definition with_node (f : Node.t -> Node.t) (r : t) : t :=
  mk (f (node r)) (name r) (software r) (loopbackIP r) (attrs r)
     (daemonConfigs r) (generalConfig r) (vrfDict r) (tableVrfDict r)
     (vrfVniDict r) (bdIntfDict r) (effIntfs r).
Definition with_attrs (a : gmap nat IntfAttrs) (r : t) : t :=
  mk (node r) (name r) (software r) (loopbackIP r) a
     (daemonConfigs r) (generalConfig r) (vrfDict r) (tableVrfDict r)
     (vrfVniDict r) (bdIntfDict r) (effIntfs r).
Definition with_daemonConfigs (d : PyDict.t string (list string)) (r : t) : t :=
  mk (node r) (name r) (software r) (loopbackIP r) (attrs r)
     d (generalConfig r) (vrfDict r) (tableVrfDict r)
     (vrfVniDict r) (bdIntfDict r) (effIntfs r).
Definition with_generalConfig (g : list string) (r : t) : t :=
  mk (node r) (name r) (software r) (loopbackIP r) (attrs r)
     (daemonConfigs r) g (vrfDict r) (tableVrfDict r)
     (vrfVniDict r) (bdIntfDict r) (effIntfs r).
Definition with_vrfDict (d : PyDict.t string Z) (r : t) : t :=
  mk (node r) (name r) (software r) (loopbackIP r) (attrs r)
     (daemonConfigs r) (generalConfig r) d (tableVrfDict r)
     (vrfVniDict r) (bdIntfDict r) (effIntfs r).
Definition with_tableVrfDict (d : PyDict.t Z Z) (r : t) : t :=
  mk (node r) (name r) (software r) (loopbackIP r) (attrs r)
     (daemonConfigs r) (generalConfig r) (vrfDict r) d
     (vrfVniDict r) (bdIntfDict r) (effIntfs r).
Definition with_vrfVniDict (d : PyDict.t string (option Z * list Z)) (r : t) : t :=
  mk (node r) (name r) (software r) (loopbackIP r) (attrs r)
     (daemonConfigs r) (generalConfig r) (vrfDict r) (tableVrfDict r)
     d (bdIntfDict r) (effIntfs r).
Definition with_bdIntfDict (d : PyDict.t Z (list Intf)) (r : t) : t :=
  mk (node r) (name r) (software r) (loopbackIP r) (attrs r)
     (daemonConfigs r) (generalConfig r) (vrfDict r) (tableVrfDict r)
     (vrfVniDict r) d (effIntfs r).
Definition with_effIntfs (d : PyDict.t string Z) (r : t) : t :=
  mk (node r) (name r) (software r) (loopbackIP r) (attrs r)
     (daemonConfigs r) (generalConfig r) (vrfDict r) (tableVrfDict r)
     (vrfVniDict r) (bdIntfDict r) d.

(** [DockerRouter.__init__( name, software="quagga" )].  [idx] is
    [int(name[1:])], from which the loopback address is derived. *)
Definition init (name : string) (idx : Z) (software : string) : t :=
  {| node := Node.init 0;
     name := name;
     software := software;
     loopbackIP := "192.168.19." +:+ str_int (idx + 1);
     attrs := ∅;
     daemonConfigs :=
       [("zebra", []); ("bgpd", []); ("ospfd", []); ("ospf6d", []);
        ("ripd", []); ("ripngd", []); ("isisd", []); ("bfdd", [])];
     generalConfig := [];
     vrfDict := [("default", 0)];
     tableVrfDict := [(254, 0); (255, 0)];
     vrfVniDict := [("default", (None, []))];
     bdIntfDict := PyDict.empty;
     effIntfs := PyDict.empty |}.

(** The fields of an interface object. *)
Definition attrsOf (i : Intf) (r : t) : IntfAttrs :=
  default default_attrs (attrs r !! intf_id i).

Definition setAttrs (i : Intf) (a : IntfAttrs) (r : t) : t :=
  with_attrs (<[intf_id i := a]> (attrs r)) r.

Definition setMAC (i : Intf) (mac : string) (r : t) : t :=
  let a := attrsOf i r in
  setAttrs i (mkAttrs (Some mac) (a_ip a) (a_vrf a) (a_bdi a)) r.
Definition setIP (i : Intf) (ip : string) (r : t) : t :=
  let a := attrsOf i r in
  setAttrs i (mkAttrs (a_mac a) (Some ip) (a_vrf a) (a_bdi a)) r.
Definition setVRF (i : Intf) (vrf : string) (r : t) : t :=
  let a := attrsOf i r in
  setAttrs i (mkAttrs (a_mac a) (a_ip a) vrf (a_bdi a)) r.
Definition setBDI (i : Intf) (bdi : option Z) (r : t) : t :=
  let a := attrsOf i r in
  setAttrs i (mkAttrs (a_mac a) (a_ip a) (a_vrf a) bdi) r.

(** The text [setupRoutingConfigByProtocol] builds from the protocol's
    lines: each line followed by a backslash and an [n], which [echo -e]
    turns into a line feed. *)
Definition configStr (lines : list string) : string :=
  fold_left (fun acc i => acc +:+ i +:+ "\n") lines "".

(** [setupRoutingConfigByProtocol( protocol )]: the shell command that
    writes the daemon's configuration file; [None] is the [KeyError]. *)
Definition setupRoutingConfigByProtocol (protocol : string) (r : t)
  : option string :=
  lines ← PyDict.get protocol (daemonConfigs r);
  Some ("echo -e " +:+ dq +:+ configStr lines +:+ dq +:+ " > /etc/"
        +:+ software r +:+ "/" +:+ protocol +:+ ".conf").

(** [addRoutingConfig( protocol=None, configStr="" )] *)
Definition addRoutingConfig (protocol : option string) (line : string)
    (r : t) : option t :=
  if bool_decide (protocol <> None) && bool_decide (line <> "") then
    p ← protocol;
    lines ← PyDict.get p (daemonConfigs r);
    Some (with_daemonConfigs
            (PyDict.set p (lines ++ [line]) (daemonConfigs r)) r)
  else
    Some (with_generalConfig (generalConfig r ++ [line]) r).

(** [addVRF( name, tableId )]; the [ip link] commands act on the kernel
    only. *)
Definition addVRF (name : string) (tableId : Z) (r : t) : t :=
  let r := with_vrfDict (PyDict.set name tableId (vrfDict r)) r in
  let r := with_tableVrfDict (PyDict.set tableId tableId (tableVrfDict r)) r in
  with_vrfVniDict (PyDict.set name (None, []) (vrfVniDict r)) r.

(** [brname] when the caller leaves it out. *)
Definition default_brname (vni : Z) : string := "br" +:+ str_int vni.

(** [attachIntfToL2VNI( intfName, vni, brname=None )]; [None] is a
    [KeyError] of one of the three dictionary reads. *)
Definition attachIntfToL2VNI (intfName : string) (vni : Z)
    (brname : option string) (r : t) : option t :=
  let brname := default (default_brname vni) brname in
  intf ← PyDict.get intfName (Node.nameToIntf (node r));
  brIntf ← PyDict.get brname (Node.nameToIntf (node r));
  let r := setVRF intf (a_vrf (attrsOf brIntf r)) r in
  let r := setBDI intf (a_bdi (attrsOf brIntf r)) r in
  bdi ← a_bdi (attrsOf brIntf r);
  members ← PyDict.get bdi (bdIntfDict r);
  Some (with_bdIntfDict (PyDict.set bdi (members ++ [intf]) (bdIntfDict r)) r).

(** [addIntf( intf, port=None )]: the override that also registers the
    effective interface; [None] is the [KeyError] of [self.ports[intf]]. *)
Definition addIntf (intf : Intf) (port : option Z) (r : t) : option t :=
  let r := with_node (Node.addIntf intf port) r in
  p ← PyDict.get (intf_id intf) (Node.ports (node r));
  Some (with_effIntfs (PyDict.set (intf_name intf) p (effIntfs r)) r).

(** Modelled from the spec: the constructor [Intf( name, node=self )] of
    [mininet/link.py], which is not part of the sources.  An interface is
    "created when a link or virtual interface is added to a node": the new
    object, whose identity is [oid], registers itself with the node's
    [addIntf] without a port (the [effIntfs.pop( brname )] of
    [DockerP4Router.addL2VNI] relies on it). *)
Definition Intf_new (oid : nat) (name : string) (r : t) : option (Intf * t) :=
  let intf := mkIntf oid name in
  r ← addIntf intf None r;
  Some (intf, r).

(** [addL2VNI( vni, brip, devname=None, brname=None, vrf="default" )].
    [ipToMac] is [Subnet.ipToMac] of [mininet/config.py], which is not part
    of the sources; the [ip link] and [ebtables] commands act on the kernel
    only. *)
Definition addL2VNI (ipToMac : string -> string) (oid : nat) (vni : Z)
    (brip : string) (brname : option string) (vrf : string) (r : t)
  : option t :=
  let brname := default (default_brname vni) brname in
  '(intf, r) ← Intf_new oid brname r;
  let r := setMAC intf (ipToMac brip) r in
  let r := setIP intf brip r in
  let r := setVRF intf vrf r in
  let r := setBDI intf (Some vni) r in
  '(l3, l2s) ← PyDict.get vrf (vrfVniDict r);
  let r := with_vrfVniDict (PyDict.set vrf (l3, l2s ++ [vni]) (vrfVniDict r)) r in
  bdi ← a_bdi (attrsOf intf r);
  Some (with_bdIntfDict (PyDict.set bdi [] (bdIntfDict r)) r).

(** [addL3VNI( vni, devname=None, vrf="default" )] *)
Definition addL3VNI (vni : Z) (vrf : string) (r : t) : option t :=
  '(_, l2s) ← PyDict.get vrf (vrfVniDict r);
  Some (with_vrfVniDict (PyDict.set vrf (Some vni, l2s) (vrfVniDict r)) r).

(** The dictionary [daemonsOptions] of [__init__]: the defaults, updated
    with the keyword arguments of the constructor. *)
Definition daemonsOptions (kwargs : PyDict.t string pyval)
  : PyDict.t string pyval :=
  fold_left (fun d '(k, v) => PyDict.set k v d) kwargs
    [("zebra", VStr "yes"); ("bgpd", VStr "no"); ("ospfd", VStr "no");
     ("ospf6d", VStr "no"); ("ripd", VStr "no"); ("ripngd", VStr "no");
     ("isisd", VStr "no"); ("bfdd", VStr "no")].

(** ["<daemon>=" + self.daemonsOptions["<daemon>"] + "\\n"]; [None] is a
    [KeyError], or the [TypeError] of a string plus something else. *)
Definition daemon_line (opts : PyDict.t string pyval) (daemon : string)
  : option string :=
  v ← PyDict.get daemon opts;
  match v with
  | VStr o => Some (daemon +:+ "=" +:+ o +:+ "\n")
  | _ => None
  end.

Definition daemon_options_line (software daemon : string) : string :=
  daemon +:+ "_options=\" +:+ dq +:+ "-f /etc/" +:+ software +:+ "/" +:+ daemon
  +:+ ".conf\" +:+ dq +:+ "\n".

Definition daemons : list string :=
  ["zebra"; "bgpd"; "ospfd"; "ospf6d"; "ripd"; "ripngd"; "isisd"; "bfdd"].

(** [configDaemons()]: the command that writes the [daemons] file. *)
Definition configDaemons (opts : PyDict.t string pyval) (r : t)
  : option string :=
  ls ← mapM (daemon_line opts) daemons;
  Some ("echo -e " +:+ dq
        +:+ String.concat "" (ls ++ map (daemon_options_line (software r)) daemons)
        +:+ dq +:+ " > /etc/" +:+ software r +:+ "/daemons").

(** The text that [setupGeneralConfig] and [setupRoutingConfigIntegratedly]
    start from: the header, then the general lines. *)
Definition general_text (r : t) : string :=
  fold_left (fun acc line => acc +:+ line +:+ "\n") (generalConfig r)
    ("hostname " +:+ name r +:+ "\n" +:+ "password zebra\n\n").

(** [setupGeneralConfig()]: the command that writes the general file. *)
Definition setupGeneralConfig (r : t) : string :=
  "echo -e " +:+ dq +:+ general_text r +:+ dq +:+ " > /etc/" +:+ software r
  +:+ "/" +:+ software r +:+ ".conf".

(** [protocol, options = key]: unpacking a string into two names takes a
    string of exactly two characters; [None] is the [ValueError]. *)
Definition unpack2 (key : string) : option (string * string) :=
  match key with
  | String a (String b EmptyString) => Some (String a "", String b "")
  | _ => None
  end.

(** The characters of a string, as [for i in options] yields them. *)
Fixpoint chars (s : string) : list string :=
  match s with
  | EmptyString => []
  | String c s' => String c "" :: chars s'
  end.

(** The loop [for protocol, options in self.daemonConfigs] of
    [setupRoutingConfigIntegratedly], which runs over the keys of the
    dictionary and unpacks each key. *)
Fixpoint integrated_loop (keys : list string) (configStr : string)
  : option string :=
  match keys with
  | [] => Some configStr
  | key :: rest =>
      '(protocol, options) ← unpack2 key;
      integrated_loop rest
        (fold_left (fun acc i => acc +:+ i +:+ "\n") (chars options) configStr
         +:+ "\n")
  end.

(** [setupRoutingConfigIntegratedly()]: the command it sends; [None] is the
    [ValueError] of the unpacking. *)
Definition setupRoutingConfigIntegratedly (r : t) : option string :=
  configStr ← integrated_loop (PyDict.keys (daemonConfigs r)) (general_text r);
  Some ("echo -e " +:+ dq +:+ configStr +:+ dq +:+ " > /etc/" +:+ software r
        +:+ "/" +:+ software r +:+ ".conf").

(** The configuration files of the enabled daemons, as [start] writes
    them: [if self.daemonsOptions[protocol] == "yes"] for every key of
    [daemonConfigs]. *)
Definition start_protocols (opts : PyDict.t string pyval) (r : t)
  : option (list string) :=
  ll ← mapM (fun protocol =>
               v ← PyDict.get protocol opts;
               if decide (v = VStr "yes")
               then c ← setupRoutingConfigByProtocol protocol r; Some [c]
               else Some [])
            (PyDict.keys (daemonConfigs r));
  Some (concat ll).

(** [start()]: the commands sent to the shell, in order. *)
Definition start (opts : PyDict.t string pyval) (r : t) : option (list string) :=
  daemons_cmd ← configDaemons opts r;
  protocols ← start_protocols opts r;
  Some (Docker.start (node r)
        ++ [daemons_cmd; setupGeneralConfig r]
        ++ protocols
        ++ ["sysctl net.ipv4.conf.all.rp_filter=0";
            "route del default";
            "/etc/init.d/" +:+ software r +:+ " start"]).
End DockerRouter.


(** ** [class DockerP4Router]: ACL entries, table files, start sequence *)
Module DockerP4Router.

(** The files of the orchestrator's working directory, by path. *)
Abbreviation files := (gmap string string).

(** What the shell has been asked so far and what it answered, oldest
    first.  A shell answers a command knowing that history. *)
Abbreviation trace := (list (string * string)).
Abbreviation shell := (list (string * string) -> string -> string).

Record t := mk {
  router : DockerRouter.t;
  cpu_input_port : Z;
  cpu_output_port : Z;
  rt_mediator : option string;
  switch_agent : option string;
  aclConfig : list (list pyval);
  adminIP : pyval;
  faultReportCollectionPort : pyval
}.

Definition with_router (f : DockerRouter.t -> DockerRouter.t) (r : t) : t :=
  mk (f (router r)) (cpu_input_port r) (cpu_output_port r) (rt_mediator r)
     (switch_agent r) (aclConfig r) (adminIP r) (faultReportCollectionPort r).
Definition set_router (d : DockerRouter.t) (r : t) : t :=
  with_router (fun _ => d) r.
Definition with_aclConfig (a : list (list pyval)) (r : t) : t :=
  mk (router r) (cpu_input_port r) (cpu_output_port r) (rt_mediator r)
     (switch_agent r) a (adminIP r) (faultReportCollectionPort r).

(** [DockerP4Router.__init__] with [cpu_input_port = 80] and
    [cpu_output_port = 81], the defaults. *)
Definition init (name : string) (idx : Z) (software : string)
    (rt_mediator switch_agent : option string) : t :=
  {| router := DockerRouter.init name idx software;
     cpu_input_port := 80;
     cpu_output_port := 81;
     rt_mediator := rt_mediator;
     switch_agent := switch_agent;
     aclConfig := [];
     adminIP := VNone;
     faultReportCollectionPort := VNone |}.

Definition setAdminConfig (ip port : pyval) (r : t) : t :=
  mk (router r) (cpu_input_port r) (cpu_output_port r) (rt_mediator r)
     (switch_agent r) (aclConfig r) ip port.

Definition wildcard : pyval := VStr "0&&&0".

(** [v if isinstance(v, str) else "{}&&&mask".format(v)] *)
Definition masked (v : pyval) (mask : string) : pyval :=
  match v with
  | VStr s => VStr s
  | _ => VStr (fmt v +:+ "&&&" +:+ mask)
  end.

(** [addACLConfig( dstAddr=None, srcAddr=None, protocol=None, dstPort=None,
    srcPort=None )]: the entry it builds. *)
Definition acl_entry (dstAddr srcAddr protocol dstPort srcPort : pyval)
  : list pyval :=
  let e := replicate 7 wildcard in
  let e := if decide (dstAddr <> VNone) then <[0%nat := dstAddr]> e else e in
  let e := if decide (srcAddr <> VNone) then <[1%nat := srcAddr]> e else e in
  let e := if decide (protocol <> VNone)
           then <[2%nat := masked protocol "0xff"]> e else e in
  if decide (protocol = VInt 6) then
    let e := if decide (dstPort <> VNone)
             then <[3%nat := masked dstPort "0xffff"]> e else e in
    if decide (srcPort <> VNone)
    then <[4%nat := masked srcPort "0xffff"]> e else e
  else if decide (protocol = VInt 17) then
    let e := if decide (dstPort <> VNone)
             then <[5%nat := masked dstPort "0xffff"]> e else e in
    if decide (srcPort <> VNone)
    then <[6%nat := masked srcPort "0xffff"]> e else e
  else e.

Definition addACLConfig (dstAddr srcAddr protocol dstPort srcPort : pyval)
    (r : t) : t :=
  with_aclConfig
    (aclConfig r ++ [acl_entry dstAddr srcAddr protocol dstPort srcPort]) r.

(** [" ".join(entry)]; [None] is the [TypeError] on an item that is not a
    string. *)
Fixpoint join_space (entry : list pyval) : option string :=
  match entry with
  | [] => Some ""
  | [VStr s] => Some s
  | VStr s :: rest => tl ← join_space rest; Some (s +:+ " " +:+ tl)
  | _ :: _ => None
  end.

(** The writes of [setupACL], one per entry. *)
Definition ACL_lines (r : t) : option (list string) :=
  mapM (fun entry =>
          s ← join_space entry;
          Some ("table_add Filter_ACL acl_drop " +:+ s +:+ " => 1" +:+ nl))
       (aclConfig r).

Definition ACL_file (r : t) : string :=
  "./ACL-" +:+ DockerRouter.name (router r) +:+ ".txt".

Definition setupACL (r : t) (fs : files) : option files :=
  ls ← ACL_lines r;
  Some (<[ACL_file r := String.concat "" ls]> fs).

(** *** [setupStartupTables], with the table and action names at their
    default values, section by section. *)

(** Source-MAC rewrite entries of the data ports. *)
Definition SMT_lines (r : t) : option (list string) :=
  mapM (fun '(intfName, port) =>
          intf ← PyDict.get port (Node.intfs (DockerRouter.node (router r)));
          let mac := a_mac (DockerRouter.attrsOf intf (router r)) in
          Some ("table_add SrcMac_RW set_smac " +:+ str_int port +:+ " => "
                +:+ default "None" mac +:+ nl))
       (PyDict.items (DockerRouter.effIntfs (router r))).

(** VXLAN decapsulation entries: per VRF its L3 VNI, then its L2 VNIs. *)
Definition VDV_lines (r : t) : list string :=
  let lo := DockerRouter.loopbackIP (router r) in
  flat_map (fun '(vrf, (l3vni, l2vnis)) =>
              ("table_add VxlanDecap_Virtual l3vxlan_decap " +:+ lo +:+ " "
               +:+ fmt_opt l3vni +:+ " =>  " +:+ fmt_opt l3vni +:+ " " +:+ nl)
              :: map (fun l2vni =>
                        "table_add VxlanDecap_Virtual l2vxlan_decap " +:+ lo
                        +:+ " " +:+ str_int l2vni +:+ " => " +:+ str_int l2vni
                        +:+ " " +:+ nl)
                     l2vnis)
           (PyDict.items (DockerRouter.vrfVniDict (router r))).

(** VRF assignment per data port. *)
Definition SVRF_lines (r : t) : option (list string) :=
  mapM (fun '(intfName, port) =>
          intf ← PyDict.get port (Node.intfs (DockerRouter.node (router r)));
          vrf_id ← PyDict.get (a_vrf (DockerRouter.attrsOf intf (router r)))
                              (DockerRouter.vrfDict (router r));
          Some ("table_add SetVrf_Virtual set_vrf " +:+ str_int port +:+ " => "
                +:+ str_int vrf_id +:+ nl))
       (PyDict.items (DockerRouter.effIntfs (router r))).

(** Bridge-domain assignment per data port. *)
Definition SBD_lines (r : t) : option (list string) :=
  mapM (fun '(intfName, port) =>
          intf ← PyDict.get port (Node.intfs (DockerRouter.node (router r)));
          let bdi := a_bdi (DockerRouter.attrsOf intf (router r)) in
          Some ("table_add SetBD_Virtual set_broadcast_domain " +:+ str_int port
                +:+ " => " +:+ fmt_opt bdi +:+ nl))
       (PyDict.items (DockerRouter.effIntfs (router r))).

(** The port list of a multicast group: [str(self.ports[intf]) + " "] for
    every member, in the order of the membership list. *)
Fixpoint port_list (ports : PyDict.t nat Z) (members : list Intf)
    (acc : string) : option string :=
  match members with
  | [] => Some acc
  | intf :: rest =>
      p ← PyDict.get (intf_id intf) ports;
      port_list ports rest (acc +:+ str_int p +:+ " ")
  end.

(** The two writes for one bridge domain. *)
Definition EMCAST_entry (r : t) (bdi : Z) (members : list Intf)
  : option (list string) :=
  ports ← port_list (Node.ports (DockerRouter.node (router r))) members "";
  Some ["table_add EthernetMcast_FIB l2mcast_forward " +:+ str_int bdi
        +:+ " => " +:+ str_int bdi +:+ nl;
        "mc_mgrp_add " +:+ str_int bdi +:+ " " +:+ ports +:+ nl].

(** Ethernet multicast entries, per bridge domain. *)
Definition EMCAST_lines (r : t) : option (list string) :=
  ll ← mapM (fun '(bdi, members) => EMCAST_entry r bdi members)
            (PyDict.items (DockerRouter.bdIntfDict (router r)));
  Some (concat ll).

(** All writes of [setupStartupTables], in order; [None] is a [KeyError]. *)
Definition Startup_lines (r : t) : option (list string) :=
  smt ← SMT_lines r;
  svrf ← SVRF_lines r;
  sbd ← SBD_lines r;
  emcast ← EMCAST_lines r;
  Some (["table_add SrcMac_RW set_smac " +:+ str_int (cpu_input_port r)
         +:+ " => aa:00:00:00:00:01" +:+ nl]
        ++ smt
        ++ ["table_add DstMac_FIB set_dmac 0.0.0.0 => aa:00:00:00:00:02" +:+ nl;
            "mirroring_add 819 80" +:+ nl;
            "mirroring_add 114 80" +:+ nl]
        ++ VDV_lines r
        ++ svrf
        ++ ["table_add SetVrf_Virtual set_vrf " +:+ str_int (cpu_output_port r)
            +:+ " => 0 " +:+ nl]
        ++ sbd
        ++ emcast).

Definition Startup_file (r : t) : string :=
  "./Startup-" +:+ DockerRouter.name (router r) +:+ ".txt".

Definition setupStartupTables (r : t) (fs : files) : option files :=
  ls ← Startup_lines r;
  Some (<[Startup_file r := String.concat "" ls]> fs).

(** The writes of [setupIntfTable]. *)
Definition IntfPortDict_lines (r : t) : list string :=
  map (fun '(intfName, port) => intfName +:+ " " +:+ str_int port +:+ nl)
      (PyDict.items (DockerRouter.effIntfs (router r))).

Definition IntfPortDict_file (r : t) : string :=
  "./IntfPortDict-" +:+ DockerRouter.name (router r) +:+ ".txt".

Definition setupIntfTable (r : t) (fs : files) : files :=
  <[IntfPortDict_file r := String.concat "" (IntfPortDict_lines r)]> fs.

(** The writes of [setupVrfTable]. *)
Definition TableVrfDict_lines (r : t) : list string :=
  map (fun '(tableId, vrfId) =>
         str_int tableId +:+ " " +:+ str_int vrfId +:+ nl)
      (PyDict.items (DockerRouter.tableVrfDict (router r))).

Definition TableVrfDict_file (r : t) : string :=
  "./TableVrfDict-" +:+ DockerRouter.name (router r) +:+ ".txt".

Definition setupVrfTable (r : t) (fs : files) : files :=
  <[TableVrfDict_file r := String.concat "" (TableVrfDict_lines r)]> fs.

(** [installTables]: every file is copied into the container and removed
    from the working directory ([os.remove] in a [try]). *)
Definition installTables (r : t) (fs : files) : files :=
  let n := DockerRouter.name (router r) in
  delete (IntfPortDict_file r)
    (delete (TableVrfDict_file r)
       (delete (ACL_file r)
          (delete ("./Subnet-" +:+ n +:+ ".txt")
             (delete (Startup_file r) fs)))).

(** *** Inherited and overridden registry operations *)

Definition addIntf (intf : Intf) (port : option Z) (r : t) : option t :=
  d ← DockerRouter.addIntf intf port (router r);
  Some (set_router d r).

Definition addVRF (name : string) (tableId : Z) (r : t) : t :=
  with_router (DockerRouter.addVRF name tableId) r.

(** [addL2VNI]: the bridge interface is taken out of the effective
    interfaces again; [None] is a [KeyError]. *)
Definition addL2VNI (ipToMac : string -> string) (oid : nat) (vni : Z)
    (brip : string) (brname : option string) (vrf : string) (r : t)
  : option t :=
  let brname := default (DockerRouter.default_brname vni) brname in
  d ← DockerRouter.addL2VNI ipToMac oid vni brip (Some brname) vrf (router r);
  _ ← PyDict.get brname (DockerRouter.effIntfs d);
  Some (set_router
          (DockerRouter.with_effIntfs
             (PyDict.del brname (DockerRouter.effIntfs d)) d) r).

Definition addL3VNI (vni : Z) (vrf : string) (r : t) : option t :=
  d ← DockerRouter.addL3VNI vni vrf (router r);
  Some (set_router d r).

(** [attachIntfToL2VNI]: the parent's, then two [ebtables] commands that act
    on the kernel only. *)
Definition attachIntfToL2VNI (intfName : string) (vni : Z)
    (brname : option string) (r : t) : option t :=
  d ← DockerRouter.attachIntfToL2VNI intfName vni brname (router r);
  Some (set_router d r).

(** *** [start]: table installation and agents

    The part of [start( debug=False )] from the materialization of the
    tables on.  [self.cmd] sends a command to the node's shell and returns
    its output. *)
Definition cmd (sh : shell) (c : string) (tr : trace) : string * trace :=
  let out := sh tr c in (out, tr ++ [(c, out)]).

Definition Startup_cmd : string :=
  "python3 /tmp/runtime_API.py < /tmp/Startup_cmds".
Definition Subnet_cmd : string :=
  "python3 /tmp/runtime_API.py < /tmp/Subnet_cmds".
Definition ACL_cmd : string :=
  "python3 /tmp/runtime_API.py < /tmp/ACL_cmds".

(** One turn of the installation loop's body. *)
Definition install_pass (sh : shell) (tr : trace)
  : string * string * string * trace :=
  let '(check_point1, tr) := cmd sh Startup_cmd tr in
  let '(check_point2, tr) := cmd sh Subnet_cmd tr in
  let '(check_point3, tr) := cmd sh ACL_cmd tr in
  (check_point1, check_point2, check_point3, tr).

(** The loop's condition. *)
Definition not_installed (check_point1 check_point2 check_point3 : string)
  : bool :=
  negb (str_in "RuntimeCmd" check_point1)
  || negb (str_in "RuntimeCmd" check_point2)
  || negb (str_in "RuntimeCmd" check_point3).

(** How far a loop without bound has come when the turns that [fuel] allows
    are used up: it has been left, or it is still turning; either way with
    the history of the shell. *)
Inductive run := Done (tr : trace) | Spinning (tr : trace).

Definition trace_of (x : run) : trace :=
  match x with Done tr | Spinning tr => tr end.

(** The [while] loop of the installation, which has no bound in the
    source. *)
Fixpoint install_loop (fuel : nat) (sh : shell)
    (check_point1 check_point2 check_point3 : string) (tr : trace) : run :=
  if not_installed check_point1 check_point2 check_point3 then
    match fuel with
    | O => Spinning tr
    | S fuel' =>
        let '(c1, c2, c3, tr) := install_pass sh tr in
        install_loop fuel' sh c1 c2 c3 tr
    end
  else Done tr.

Definition mediator_cmd (debug : bool) (r : t) : string :=
  if debug then
    "strace -f -o /rt_mediator.strace python3 /tmp/rt_mediator --log-file /tmp/rt_mediator.log > /rt_mediator.out &"
  else
    "python3 /tmp/rt_mediator --log-file /tmp/rt_mediator.log --report-server-ip "
    +:+ fmt (adminIP r) +:+ " --report-server-port "
    +:+ fmt (faultReportCollectionPort r)
    +:+ " --table-vrf-file /tmp/TableVrfDict --intf-port-file /tmp/IntfPortDict > /rt_mediator.out &".

(** [while self.cmd("cat /rt_mediator_init_succ") != "1": time.sleep(1)] *)
Fixpoint mediator_wait (fuel : nat) (sh : shell) (tr : trace) : run :=
  match fuel with
  | O => Spinning tr
  | S fuel' =>
      let '(out, tr) := cmd sh "cat /rt_mediator_init_succ" tr in
      if decide (out <> "1") then mediator_wait fuel' sh tr else Done tr
  end.

Definition agent_cmd (debug : bool) (r : t) : string :=
  (if debug then "strace -f -o /switch_agent.strace " else "")
  +:+ "python3 /tmp/switch_agent --log-file /tmp/switch_agent.log --report-server-ip "
  +:+ fmt (adminIP r) +:+ " --report-server-port "
  +:+ fmt (faultReportCollectionPort r) +:+ " --port-num "
  +:+ str_int (Z.of_nat (PyDict.len (Node.intfs (DockerRouter.node (router r)))))
  +:+ " > /switch_agent.out &".

(** The agents, once the tables are installed: the route mediator, with
    the wait for its readiness file, then the switch agent. *)
Definition start_agents (debug : bool) (fuel : nat) (sh : shell) (r : t)
    (tr : trace) : run :=
  let mediator :=
    match rt_mediator r with
    | Some _ =>
        let '(_, tr) := cmd sh (mediator_cmd debug r) tr in
        mediator_wait fuel sh tr
    | None => Done tr
    end in
  match mediator with
  | Spinning tr => Spinning tr
  | Done tr =>
      Done (match switch_agent r with
            | Some _ => snd (cmd sh (agent_cmd debug r) tr)
            | None => tr
            end)
  end.

(** From [self.setupStartupTables()] to the start of the switch agent.  The
    commands before (interface pairs, packet filters, the launch of the
    forwarding engine) are in the history [tr] the shell has seen; the
    parent's [start] follows.  [None] is a [KeyError] or [TypeError] of the
    materialization, before any of the commands. *)
Definition start (debug : bool) (fuel : nat) (sh : shell) (r : t)
    (fs : files) (tr : trace) : option (files * run) :=
  fs ← setupStartupTables r fs;
  fs ← setupACL r fs;
  let fs := setupVrfTable r fs in
  let fs := setupIntfTable r fs in
  let fs := installTables r fs in
  Some (fs,
    match install_loop fuel sh "init" "init" "init" tr with
    | Spinning tr => Spinning tr
    | Done tr => start_agents debug fuel sh r tr
    end).

Definition Subnet_file (r : t) : string :=
  "./Subnet-" +:+ DockerRouter.name (router r) +:+ ".txt".

(** The writes of [setupSubnetTable], one per entry of [macTable]; [None] is
    the [IndexError] of an entry with fewer than two items. *)
Definition Subnet_lines (macTable : list (list pyval))
    (DMTName DMTAction : string) : option (list string) :=
  mapM (fun entry =>
          e0 ← entry !! 0%nat;
          e1 ← entry !! 1%nat;
          Some ("table_add " +:+ DMTName +:+ " " +:+ DMTAction +:+ " "
                +:+ fmt e0 +:+ " => " +:+ fmt e1 +:+ nl))
       macTable.

(** [setupSubnetTable( macTable, subnet, DMTName="DstMac_FIB",
    DMTAction="set_dmac" )]: the file is opened for appending; [subnet] is
    not used. *)
Definition setupSubnetTable (macTable : list (list pyval)) (subnet : pyval)
    (DMTName DMTAction : string) (r : t) (fs : files) : option files :=
  ls ← Subnet_lines macTable DMTName DMTAction;
  Some (<[Subnet_file r :=
            default "" (fs !! Subnet_file r) +:+ String.concat "" ls]> fs).
End DockerP4Router.

(** ** Building a router: the calls of a topology script *)
Module Build.

Inductive op :=
| AddIntf (intf : Intf) (port : option Z)
| AddVRF (name : string) (tableId : Z)
| AddL2VNI (oid : nat) (vni : Z) (brip : string) (brname : option string)
    (vrf : string)
| AddL3VNI (vni : Z) (vrf : string)
| AttachIntfToL2VNI (intfName : string) (vni : Z) (brname : option string)
| AddACLConfig (dstAddr srcAddr protocol dstPort srcPort : pyval)
| AddRoutingConfig (protocol : option string) (line : string).

(** One call on a [DockerP4Router]; [None] is an exception. *)
Definition step (ipToMac : string -> string) (o : op) (r : DockerP4Router.t)
  : option DockerP4Router.t :=
  match o with
  | AddIntf intf port => DockerP4Router.addIntf intf port r
  | AddVRF name tableId => Some (DockerP4Router.addVRF name tableId r)
  | AddL2VNI oid vni brip brname vrf =>
      DockerP4Router.addL2VNI ipToMac oid vni brip brname vrf r
  | AddL3VNI vni vrf => DockerP4Router.addL3VNI vni vrf r
  | AttachIntfToL2VNI intfName vni brname =>
      DockerP4Router.attachIntfToL2VNI intfName vni brname r
  | AddACLConfig dstAddr srcAddr protocol dstPort srcPort =>
      Some (DockerP4Router.addACLConfig dstAddr srcAddr protocol dstPort
              srcPort r)
  | AddRoutingConfig protocol line =>
      d ← DockerRouter.addRoutingConfig protocol line (DockerP4Router.router r);
      Some (DockerP4Router.set_router d r)
  end.

(** A script: the calls in order, up to the first exception. *)
Fixpoint run (ipToMac : string -> string) (ops : list op)
    (r : DockerP4Router.t) : option DockerP4Router.t :=
  match ops with
  | [] => Some r
  | o :: rest => r' ← step ipToMac o r; run ipToMac rest r'
  end.

(** What the dictionaries of a router owe each other for the startup table
    to be written: every effective interface's port is registered, every
    named interface and every member of a bridge domain has a port, the VRF
    tag of every interface is a registered VRF, and so is every VRF that
    holds VNIs. *)
Definition consistent (r : DockerP4Router.t) : Prop :=
  let d := DockerP4Router.router r in
  (forall name p, (name, p) ∈ DockerRouter.effIntfs d ->
     is_Some (PyDict.get p (Node.intfs (DockerRouter.node d)))) /\
  (forall name i,
     PyDict.get name (Node.nameToIntf (DockerRouter.node d)) = Some i ->
     is_Some (PyDict.get (intf_id i) (Node.ports (DockerRouter.node d)))) /\
  (forall bdi members i, (bdi, members) ∈ DockerRouter.bdIntfDict d ->
     i ∈ members ->
     is_Some (PyDict.get (intf_id i) (Node.ports (DockerRouter.node d)))) /\
  (forall i, is_Some (PyDict.get (a_vrf (DockerRouter.attrsOf i d))
                        (DockerRouter.vrfDict d))) /\
  (forall v, is_Some (PyDict.get v (DockerRouter.vrfVniDict d)) ->
     is_Some (PyDict.get v (DockerRouter.vrfDict d))).
End Build.

(** ** Further notions used in the properties *)
Module Props.

(** A command that launches the switch agent. *)
Definition is_agent_launch (c : string) : bool :=
  String.prefix "python3 /tmp/switch_agent" c
  || String.prefix "strace -f -o /switch_agent.strace" c.

(** The number of colons of a string. *)
Fixpoint colons (s : string) : nat :=
  match s with
  | EmptyString => 0%nat
  | String c s' =>
      ((if decide (c = Docker.colon) then 1 else 0) + colons s')%nat
  end.

(** The files that [installTables] moves into the container. *)
Definition table_files (r : DockerP4Router.t) : list string :=
  [DockerP4Router.Startup_file r; DockerP4Router.Subnet_file r;
   DockerP4Router.ACL_file r; DockerP4Router.TableVrfDict_file r;
   DockerP4Router.IntfPortDict_file r].

(** The history after [n] more reads of the route mediator's readiness
    file. *)
Fixpoint reads (sh : DockerP4Router.shell) (n : nat)
    (tr : DockerP4Router.trace) : DockerP4Router.trace :=
  match n with
  | O => tr
  | S n' =>
      reads sh n'
        (tr ++ [("cat /rt_mediator_init_succ",
                 sh tr "cat /rt_mediator_init_succ")])
  end.

(** The read that follows [n] earlier ones answers [1]. *)
Definition ready (sh : DockerP4Router.shell) (tr : DockerP4Router.trace)
    (n : nat) : bool :=
  bool_decide (sh (reads sh n tr) "cat /rt_mediator_init_succ" = "1").
End Props.


(** ** Properties named in the specification *)
Module Spec.

(** The two registry dictionaries are each other's inverse: the
    port-to-interface mapping is a bijection between the assigned ports and
    the registered interfaces. *)
Definition bijective (n : Node.t) : Prop :=
  (forall p i, PyDict.get p (Node.intfs n) = Some i ->
               PyDict.get (intf_id i) (Node.ports n) = Some p) /\
  (forall id p, PyDict.get id (Node.ports n) = Some p ->
                exists i, PyDict.get p (Node.intfs n) = Some i /\ intf_id i = id).

(** Membership of an interface in a bridge domain's membership list. *)
Definition member (i : Intf) (bdi : Z) (r : DockerRouter.t) : Prop :=
  exists members,
    PyDict.get bdi (DockerRouter.bdIntfDict r) = Some members /\ i ∈ members.

Definition key_le (a b : Z * Z) : Prop := fst a <= fst b.

Global Instance key_le_dec : RelDecision key_le.
Proof. intros a b. unfold key_le. apply _. Defined.

(** "written in a stable order independent of mapping iteration order (sort
    by key)": the lines of the table-ID to VRF-ID file, had the entries been
    sorted by table ID. *)
Definition TableVrfDict_lines_sorted (r : DockerP4Router.t) : list string :=
  map (fun '(tableId, vrfId) =>
         str_int tableId +:+ " " +:+ str_int vrfId +:+ nl)
      (merge_sort key_le
         (PyDict.items (DockerRouter.tableVrfDict (DockerP4Router.router r)))).

(** The list that a call [addRoutingConfig( protocol, line )] appends to:
    the list of a protocol, or the general list ([None]). *)
Definition target (c : option string * string) : option string :=
  match c with
  | (Some p, line) => if decide (line = "") then None else Some p
  | (None, _) => None
  end.

(** The lines that a sequence of calls sends to one list, in call order. *)
Definition lines_for (o : option string) (calls : list (option string * string))
  : list string :=
  map snd (filter (fun c => target c = o) calls).

(** A sequence of [addRoutingConfig] calls. *)
Fixpoint addRoutingConfigs (calls : list (option string * string))
    (r : DockerRouter.t) : option DockerRouter.t :=
  match calls with
  | [] => Some r
  | (protocol, line) :: rest =>
      r' ← DockerRouter.addRoutingConfig protocol line r;
      addRoutingConfigs rest r'
  end.

(** The text of a configuration file that holds the given lines in the
    given order, as [echo -e] receives it. *)
Definition config_text (lines : list string) : string :=
  String.concat "" (map (fun l => l +:+ "\n") lines).

(** Modelled from the spec: [Subnet.ipToMac] of [mininet/config.py], which
    is not part of the sources, "byte-wise encoding of the IP into a
    locally-administered MAC prefix".  The operations take the function as
    an argument; this stand-in serves the closed scenarios, none of which
    depends on the address it yields. *)
Definition ipToMac_sample (ip : string) : string := "02:00:" +:+ ip.

(** "every Effective Interface has a VRF [...]; the Forwarding-Table
    Provisioner depends on [it] being set": every effective interface is
    registered under its port and its VRF is a known one. *)
Definition provisionable (r : DockerRouter.t) : Prop :=
  forall intfName port, (intfName, port) ∈ DockerRouter.effIntfs r ->
    exists intf,
      PyDict.get port (Node.intfs (DockerRouter.node r)) = Some intf /\
      is_Some (PyDict.get (a_vrf (DockerRouter.attrsOf intf r))
                 (DockerRouter.vrfDict r)).

(** The shell's history after a number of turns of the installation loop. *)
Fixpoint passes (sh : DockerP4Router.shell) (n : nat)
    (tr : DockerP4Router.trace) : DockerP4Router.trace :=
  match n with
  | O => tr
  | S n' => snd (DockerP4Router.install_pass sh (passes sh n' tr))
  end.

(** The acknowledgment of the administration tool. *)
Definition acknowledged (out : string) : bool := str_in "RuntimeCmd" out.

(** All three outputs of the turn that starts with history [tr] hold the
    acknowledgment. *)
Definition pass_ok (sh : DockerP4Router.shell) (tr : DockerP4Router.trace)
  : bool :=
  let '(c1, c2, c3, _) := DockerP4Router.install_pass sh tr in
  acknowledged c1 && acknowledged c2 && acknowledged c3.

(** A shell for the closed scenarios: the administration tool refuses until
    three commands have been answered, that is during the first turn of the
    installation loop, and acknowledges from then on; the readiness file of
    the mediator holds [1]. *)
Definition shell_sample : DockerP4Router.shell :=
  fun tr c =>
    if decide (c = "cat /rt_mediator_init_succ") then "1"
    else if String.prefix "python3 /tmp/runtime_API.py" c then
      if (3 <=? length tr)%nat then "Obtaining JSON from switch... Done RuntimeCmd: "
      else "Error: could not connect to thrift server"
    else "".

(** A command that launches the route mediator. *)
Definition is_mediator_launch (c : string) : bool :=
  String.prefix "python3 /tmp/rt_mediator" c
  || String.prefix "strace -f -o /rt_mediator.strace" c.

(** A write that concerns the multicast group of a bridge domain. *)
Definition is_mcast_line (l : string) : bool :=
  String.prefix "table_add EthernetMcast_FIB" l
  || String.prefix "mc_mgrp_add" l.

(** "identical Interface Registry and VRF/Bridge-Domain state": two routers
    of the same name, loopback address and CPU ports that agree on the
    interface registry, the interfaces' fields, the VRF dictionaries, the
    bridge domains and the effective interfaces.  The routing
    configuration, the ACL entries and the agents may differ. *)
Definition same_state (r1 r2 : DockerP4Router.t) : Prop :=
  let d1 := DockerP4Router.router r1 in
  let d2 := DockerP4Router.router r2 in
  DockerRouter.node d1 = DockerRouter.node d2 /\
  DockerRouter.attrs d1 = DockerRouter.attrs d2 /\
  DockerRouter.name d1 = DockerRouter.name d2 /\
  DockerRouter.loopbackIP d1 = DockerRouter.loopbackIP d2 /\
  DockerRouter.vrfDict d1 = DockerRouter.vrfDict d2 /\
  DockerRouter.tableVrfDict d1 = DockerRouter.tableVrfDict d2 /\
  DockerRouter.vrfVniDict d1 = DockerRouter.vrfVniDict d2 /\
  DockerRouter.bdIntfDict d1 = DockerRouter.bdIntfDict d2 /\
  DockerRouter.effIntfs d1 = DockerRouter.effIntfs d2 /\
  DockerP4Router.cpu_input_port r1 = DockerP4Router.cpu_input_port r2 /\
  DockerP4Router.cpu_output_port r1 = DockerP4Router.cpu_output_port r2.
End Spec.

Abbreviation other_line := (fun l : string => Spec.is_mcast_line l = false).
Abbreviation no_launch :=
  (fun e : string * string => Spec.is_mediator_launch (fst e) = false).

(** ** Dictionary lemmas *)
Section PyDictFacts.
Context {K V : Type} `{EqDecision K}.
Implicit Types (d : PyDict.t K V) (k : K) (v : V).

Lemma get_set_eq d k v : PyDict.get k (PyDict.set k v d) = Some v.
Proof.
  induction d as [|[k' v'] d IH]; simpl.
  - by rewrite decide_True.
  - destruct (decide (k' = k)) as [->|Hne]; simpl.
    + by rewrite decide_True.
    + by rewrite decide_False.
Qed.

Lemma get_set_ne d k k' v :
  k <> k' -> PyDict.get k' (PyDict.set k v d) = PyDict.get k' d.
Proof.
  intros Hne. induction d as [|[k0 v0] d IH]; simpl.
  - by rewrite decide_False.
  - destruct (decide (k0 = k)) as [->|Hne0]; simpl.
    + by rewrite !decide_False.
    + by rewrite IH.
Qed.

Lemma set_fresh d k v :
  PyDict.get k d = None -> PyDict.set k v d = d ++ [(k, v)].
Proof.
  induction d as [|[k0 v0] d IH]; simpl; [done|].
  destruct (decide (k0 = k)); [done|]. intros Hd. by rewrite IH.
Qed.

Lemma get_None_keys d k : PyDict.get k d = None <-> k ∉ PyDict.keys d.
Proof.
  unfold PyDict.keys. induction d as [|[k0 v0] d IH]; simpl.
  - split; [intros _; apply not_elem_of_nil | done].
  - rewrite not_elem_of_cons. destruct (decide (k0 = k)) as [->|Hne].
    + split; [done | intros [? _]; done].
    + rewrite IH. split; [intros ?; split; [congruence | done] | intros [_ ?]; done].
Qed.

Lemma keys_set_present d k v :
  is_Some (PyDict.get k d) -> PyDict.keys (PyDict.set k v d) = PyDict.keys d.
Proof.
  unfold PyDict.keys. induction d as [|[k0 v0] d IH]; simpl.
  - intros [? ?]; done.
  - destruct (decide (k0 = k)) as [->|Hne]; simpl; [done|].
    intros Hs. by rewrite IH.
Qed.

Lemma values_set d k v x :
  x ∈ PyDict.values (PyDict.set k v d) -> x = v \/ x ∈ PyDict.values d.
Proof.
  unfold PyDict.values. induction d as [|[k0 v0] d IH]; simpl.
  - intros Hx. apply list_elem_of_singleton in Hx. by left.
  - destruct (decide (k0 = k)) as [->|Hne]; simpl; rewrite !elem_of_cons.
    + intros [->|Hx]; [by left | right; by right].
    + intros [->|Hx]; [right; by left |].
      destruct (IH Hx) as [->|?]; [by left | right; by right].
Qed.

Lemma values_set_in d k v : v ∈ PyDict.values (PyDict.set k v d).
Proof.
  unfold PyDict.values. induction d as [|[k0 v0] d IH]; simpl.
  - apply list_elem_of_here.
  - destruct (decide (k0 = k)); simpl; [apply list_elem_of_here|].
    by apply list_elem_of_further.
Qed.

Lemma get_Some_values d k v : PyDict.get k d = Some v -> v ∈ PyDict.values d.
Proof.
  unfold PyDict.values. induction d as [|[k0 v0] d IH]; simpl; [done|].
  destruct (decide (k0 = k)).
  - intros [= ->]. apply list_elem_of_here.
  - intros Hg. apply list_elem_of_further. by apply IH.
Qed.
End PyDictFacts.

(** ** The interface registry *)
Section NodeFacts.
Import Node.

Lemma py_max_upper vs : forall v, v <= py_max v vs /\ Forall (fun x => x <= py_max v vs) vs.
Proof.
  unfold py_max. induction vs as [|w vs IH]; intros v; simpl.
  - split; [lia | constructor].
  - destruct (IH (Z.max v w)) as [H1 H2]. split; [lia|].
    constructor; [lia | done].
Qed.

Lemma py_max_elem vs : forall v, py_max v vs ∈ v :: vs.
Proof.
  unfold py_max. induction vs as [|w vs IH]; intros v; simpl.
  - apply list_elem_of_here.
  - specialize (IH (Z.max v w)). apply elem_of_cons in IH as [IH|IH].
    + rewrite IH. destruct (Z.max_spec v w) as [[_ ->]|[_ ->]].
      * apply list_elem_of_further, list_elem_of_here.
      * apply list_elem_of_here.
    + by do 2 apply list_elem_of_further.
Qed.

(** The maximum is determined by being a member and an upper bound. *)
Lemma py_max_unique v vs m :
  m ∈ v :: vs -> Forall (fun x => x <= m) (v :: vs) -> py_max v vs = m.
Proof.
  intros Hin Hub.
  destruct (py_max_upper vs v) as [Hv Hvs].
  pose proof (py_max_elem vs v) as Hmax.
  rewrite Forall_forall in Hub. apply Hub in Hmax.
  assert (m <= py_max v vs); [|lia].
  apply elem_of_cons in Hin as [->|Hin]; [done|].
  rewrite Forall_forall in Hvs. by apply Hvs.
Qed.

Lemma newPort_above n x : x ∈ PyDict.values (ports n) -> x < newPort n.
Proof.
  unfold newPort. destruct (PyDict.values (ports n)) as [|v vs]; [by intros ?%elem_of_nil|].
  intros Hx. destruct (py_max_upper vs v) as [Hv Hvs].
  apply elem_of_cons in Hx as [->|Hx]; [lia|].
  rewrite Forall_forall in Hvs. apply Hvs in Hx. lia.
Qed.

Lemma portOf_addIntf i port n :
  portOf i (addIntf i port n)
  = Some (match port with None => newPort n | Some p => p end).
Proof. unfold portOf, addIntf; simpl. apply get_set_eq. Qed.

(** An automatic assignment moves the next port up by exactly one. *)
Lemma newPort_addIntf i n : newPort (addIntf i None n) = newPort n + 1.
Proof.
  unfold newPort at 1. unfold addIntf; simpl.
  pose proof (values_set_in (ports n) (intf_id i) (newPort n)) as Hin.
  destruct (PyDict.values (PyDict.set (intf_id i) (newPort n) (ports n)))
    as [|v vs] eqn:Hvals; [by apply elem_of_nil in Hin|].
  f_equal. apply py_max_unique; [done|].
  rewrite Forall_forall. intros x Hx. rewrite <- Hvals in Hx.
  apply values_set in Hx as [->|Hx]; [lia|].
  apply newPort_above in Hx. lia.
Qed.

Lemma addIntfs_ports l : forall n,
  snd (addIntfs l n)
  = map (fun k => Some (newPort n + Z.of_nat k)) (seq 0 (length l)).
Proof.
  induction l as [|i l IH]; intros n; simpl; [done|].
  specialize (IH (addIntf i None n)).
  destruct (addIntfs l (addIntf i None n)) as [n2 ps] eqn:Hrun; simpl in *.
  rewrite portOf_addIntf, Z.add_0_r. f_equal.
  rewrite IH, newPort_addIntf, <- seq_shift, map_map.
  apply map_ext. intros k. f_equal. lia.
Qed.

Lemma consecutive_sorted (b : Z) (len start : nat) :
  StronglySorted Z.lt (map (fun k => b + Z.of_nat k) (seq start len)).
Proof.
  revert start. induction len as [|len IH]; intros start; simpl; constructor.
  - apply IH.
  - rewrite Forall_forall. intros x Hx.
    apply list_elem_of_In, in_map_iff in Hx as (k & <- & Hk).
    apply in_seq in Hk. lia.
Qed.

(** C1: [newPort] returns the class's port base on a node without ports and
    one more than the maximum of the assigned ports otherwise; a sequence of
    [addIntf] calls that omit the port assigns, in call order, strictly
    increasing and pairwise different port numbers (consecutive ones from
    [newPort] on). *)
Theorem newPort_addIntf_increasing (n : Node.t) (l : list Intf) :
  match PyDict.values (ports n) with
  | [] => newPort n = portBase n
  | vs => exists m, m ∈ vs /\ Forall (fun x => x <= m) vs /\ newPort n = m + 1
  end /\
  exists ps,
    snd (addIntfs l n) = map Some ps /\
    StronglySorted Z.lt ps /\ NoDup ps /\
    forall k p, ps !! k = Some p -> p = newPort n + Z.of_nat k.
Proof.
  split.
  - unfold newPort. destruct (PyDict.values (ports n)) as [|v vs]; [done|].
    exists (py_max v vs). split; [apply py_max_elem|]. split; [|done].
    destruct (py_max_upper vs v). by constructor.
  - exists (map (fun k => newPort n + Z.of_nat k) (seq 0 (length l))).
    pose proof (consecutive_sorted (newPort n) (length l) 0) as Hs.
    split; [|split; [done|split]].
    + rewrite addIntfs_ports, map_map. done.
    + clear -Hs. induction Hs as [|x xs Hs IH Hall]; constructor; [|done].
      intros Hx. rewrite Forall_forall in Hall. apply Hall in Hx. lia.
    + intros k p Hk. rewrite list_lookup_fmap in Hk.
      destruct (seq 0 (length l) !! k) as [j|] eqn:Hj; simplify_eq/=.
      apply lookup_seq in Hj as [-> _]. done.
Qed.
End NodeFacts.

Section RegistryCollision.
Import Node.

Lemma get_set_Some_inv {K V : Type} `{EqDecision K} (d : PyDict.t K V) k k' v v' :
  PyDict.get k' (PyDict.set k v d) = Some v' ->
  (k = k' /\ v' = v) \/ (k <> k' /\ PyDict.get k' d = Some v').
Proof.
  destruct (decide (k = k')) as [->|Hne].
  - rewrite get_set_eq. intros [= ->]. by left.
  - rewrite get_set_ne by done. by right.
Qed.

(** No key of [intfs] reaches [newPort] while the registry is a bijection. *)
Lemma newPort_unassigned n :
  Spec.bijective n -> PyDict.get (newPort n) (intfs n) = None.
Proof.
  intros [Hfwd _].
  destruct (PyDict.get (newPort n) (intfs n)) as [i|] eqn:Hget; [|done].
  apply Hfwd, get_Some_values, newPort_above in Hget. lia.
Qed.

(** An automatic assignment to an interface that is not registered yet
    keeps the registry a bijection. *)
Lemma addIntf_auto_bijective n i :
  Spec.bijective n ->
  PyDict.get (intf_id i) (ports n) = None ->
  Spec.bijective (addIntf i None n).
Proof.
  intros Hbij Hfresh. pose proof (newPort_unassigned n Hbij) as Hnew.
  destruct Hbij as [Hfwd Hbwd]. split; unfold addIntf; simpl.
  - intros p j Hp. apply get_set_Some_inv in Hp as [[<- ->]|[Hne Hp]].
    + apply get_set_eq.
    + rewrite get_set_ne; [by apply Hfwd|].
      intros Heq. apply Hfwd in Hp. congruence.
  - intros id p Hp. apply get_set_Some_inv in Hp as [[<- ->]|[Hne Hp]].
    + exists i. by rewrite get_set_eq.
    + destruct (Hbwd _ _ Hp) as (j & Hj & <-). exists j. split; [|done].
      rewrite get_set_ne; [done|]. intros <-. congruence.
Qed.

(** C10: an [addIntf] with an explicit port that another interface holds
    raises nothing and removes nothing: the port now leads to the new
    interface while the old interface still leads to the port, as does the
    new one, so the registry is no bijection any more (with the port left
    out and an interface not registered before it stays one,
    [addIntf_auto_bijective]). *)
Theorem addIntf_explicit_port_collision (n : Node.t) (old new : Intf) (p : Z) :
  PyDict.get p (intfs n) = Some old ->
  PyDict.get (intf_id old) (ports n) = Some p ->
  intf_id new <> intf_id old ->
  let n' := addIntf new (Some p) n in
  PyDict.get p (intfs n') = Some new /\
  PyDict.get (intf_id old) (ports n') = Some p /\
  PyDict.get (intf_id new) (ports n') = Some p /\
  ~ Spec.bijective n'.
Proof.
  intros Hold Hport Hne n'. subst n'. unfold addIntf; simpl.
  assert (PyDict.get (intf_id old) (PyDict.set (intf_id new) p (ports n))
          = Some p) as Hstill by (by rewrite get_set_ne).
  split; [apply get_set_eq|]. split; [done|]. split; [apply get_set_eq|].
  intros [_ Hbwd]. simpl in Hbwd.
  destruct (Hbwd _ _ Hstill) as (j & Hj & Hid).
  rewrite get_set_eq in Hj. congruence.
Qed.

(** The collision at hand: port 0 is assigned automatically to a first
    interface, then a second one is added under port 0. *)
Lemma addIntf_explicit_port_collision_witness :
  let a := mkIntf 1 "r1-eth0" in
  let b := mkIntf 2 "r1-eth1" in
  let n := addIntf a None (Node.init 0) in
  let n' := addIntf b (Some 0) n in
  PyDict.get 0 (intfs n') = Some b /\
  PyDict.get (intf_id a) (ports n') = Some 0 /\
  PyDict.get (intf_id b) (ports n') = Some 0 /\
  ~ Spec.bijective n'.
Proof.
  intros a b n.
  apply (addIntf_explicit_port_collision n a b 0);
    [reflexivity | reflexivity | simpl; lia].
Defined.

(** What [delIntf] makes of such a collision: removing the old interface
    takes away the port's entry, which is the new interface's, and leaves
    the new interface with a port that leads nowhere. *)
Example delIntf_after_collision :
  let a := mkIntf 1 "r1-eth0" in
  let b := mkIntf 2 "r1-eth1" in
  exists n,
    delIntf a (addIntf b (Some 0) (addIntf a None (Node.init 0))) = Some n /\
    PyDict.get 0 (intfs n) = None /\
    PyDict.get (intf_id b) (ports n) = Some 0.
Proof. eexists. repeat split; reflexivity. Qed.
End RegistryCollision.

(** ** Access-control entries *)
Section ACLFacts.
Import DockerP4Router.

Lemma addACLConfig_appends dst src proto dport sport r :
  aclConfig (addACLConfig dst src proto dport sport r)
  = aclConfig r ++ [acl_entry dst src proto dport sport].
Proof. reflexivity. Qed.

(** C2: [addACLConfig(dstAddr="10.0.0.1", protocol=6, dstPort=80)] appends
    exactly the entry of the specification; in general the entry has seven
    fields, a field that is not set is the wildcard ["0&&&0"], an integer
    protocol [n] is written [n&&&0xff] and an integer port [n&&&0xffff],
    and the two port arguments go to the fields 3 and 4 with protocol 6 and
    to the fields 5 and 6 with protocol 17. *)
Theorem addACLConfig_encoding (r : DockerP4Router.t)
    (dst src proto dport sport : pyval) :
  let addr v := match v with VNone => wildcard | _ => v end in
  let num mask v :=
    match v with
    | VNone => wildcard
    | VStr s => VStr s
    | VInt n => VStr (str_int n +:+ "&&&" +:+ mask)
    end in
  let slot p v := if decide (proto = VInt p) then num "0xffff" v else wildcard in
  aclConfig (addACLConfig (VStr "10.0.0.1") VNone (VInt 6) (VInt 80) VNone r)
  = aclConfig r ++
      [[VStr "10.0.0.1"; VStr "0&&&0"; VStr "6&&&0xff"; VStr "80&&&0xffff";
        VStr "0&&&0"; VStr "0&&&0"; VStr "0&&&0"]] /\
  aclConfig (addACLConfig dst src proto dport sport r)
  = aclConfig r ++
      [[addr dst; addr src; num "0xff" proto;
        slot 6 dport; slot 6 sport; slot 17 dport; slot 17 sport]].
Proof.
  intros addr num slot. split; [reflexivity|].
  rewrite addACLConfig_appends. do 2 f_equal.
  unfold acl_entry, slot, num, addr, masked.
  destruct (decide (proto = VInt 6)) as [->|H6];
    [|destruct (decide (proto = VInt 17)) as [->|H17]];
    destruct dst, src; try destruct proto; destruct dport, sport;
    reflexivity.
Qed.

(** C9: with a protocol other than 6 and 17, also with none, the port
    arguments are dropped: the four port fields of the appended entry are
    the wildcard. *)
Theorem addACLConfig_ports_ignored (r : DockerP4Router.t)
    (dst src proto dport sport : pyval) :
  proto <> VInt 6 -> proto <> VInt 17 ->
  exists e,
    aclConfig (addACLConfig dst src proto dport sport r) = aclConfig r ++ [e] /\
    length e = 7%nat /\
    e !! 3%nat = Some wildcard /\ e !! 4%nat = Some wildcard /\
    e !! 5%nat = Some wildcard /\ e !! 6%nat = Some wildcard.
Proof.
  intros H6 H17. eexists. split; [apply addACLConfig_appends|].
  unfold acl_entry. rewrite !decide_False by done.
  destruct dst, src, proto; repeat split; reflexivity.
Qed.

(** An ICMP rule with both ports given. *)
Lemma addACLConfig_ports_ignored_witness :
  exists e,
    aclConfig (addACLConfig (VStr "10.0.0.1") VNone (VInt 1) (VInt 80)
                 (VInt 1024) (DockerP4Router.init "r1" 1 "frr" None None))
    = [] ++ [e] /\
    length e = 7%nat /\
    e !! 3%nat = Some wildcard /\ e !! 4%nat = Some wildcard /\
    e !! 5%nat = Some wildcard /\ e !! 6%nat = Some wildcard.
Proof.
  apply (addACLConfig_ports_ignored (DockerP4Router.init "r1" 1 "frr" None None));
    intros [=].
Defined.
End ACLFacts.

(** ** Strings *)
Section StringFacts.
Lemma str_app_assoc (a b c : string) : (a +:+ b) +:+ c = a +:+ (b +:+ c).
Proof.
  induction a as [|x a IH]; [done|].
  change (String x ((a +:+ b) +:+ c) = String x (a +:+ (b +:+ c))).
  by rewrite IH.
Qed.

Lemma str_app_nil_r (a : string) : a +:+ "" = a.
Proof.
  induction a as [|x a IH]; [done|].
  change (String x (a +:+ "") = String x a). by rewrite IH.
Qed.

Lemma concat_nosep_cons (x : string) (l : list string) :
  String.concat "" (x :: l) = x +:+ String.concat "" l.
Proof.
  destruct l as [|y l]; simpl; [by rewrite str_app_nil_r | done].
Qed.

Lemma concat_nosep_app (l1 l2 : list string) :
  String.concat "" (l1 ++ l2) = String.concat "" l1 +:+ String.concat "" l2.
Proof.
  induction l1 as [|x l1 IH]; [done|].
  change ((x :: l1) ++ l2) with (x :: (l1 ++ l2)).
  by rewrite !concat_nosep_cons, IH, str_app_assoc.
Qed.
End StringFacts.

(** ** The routing-configuration accumulator *)
Section RoutingConfigFacts.
Import DockerRouter.

Lemma configStr_from acc lines :
  fold_left (fun acc i => acc +:+ i +:+ "\n") lines acc
  = acc +:+ Spec.config_text lines.
Proof.
  unfold Spec.config_text. revert acc.
  induction lines as [|l lines IH]; intros acc.
  - by rewrite str_app_nil_r.
  - change (map (fun l0 => l0 +:+ "\n") (l :: lines))
      with ((l +:+ "\n") :: map (fun l0 => l0 +:+ "\n") lines).
    rewrite concat_nosep_cons. simpl fold_left. rewrite IH.
    by rewrite !str_app_assoc.
Qed.

(** The text is the lines in list order, each with its line end. *)
Lemma configStr_text lines : configStr lines = Spec.config_text lines.
Proof. unfold configStr. by rewrite configStr_from. Qed.

Lemma lines_for_cons o c calls :
  Spec.lines_for o (c :: calls)
  = (if decide (Spec.target c = o) then [snd c] else []) ++ Spec.lines_for o calls.
Proof.
  unfold Spec.lines_for. rewrite filter_cons. by case_decide.
Qed.

(** One call, by the list it goes to. *)
Lemma addRoutingConfig_target protocol line r :
  (forall p, Spec.target (protocol, line) = Some p ->
             is_Some (PyDict.get p (daemonConfigs r))) ->
  exists r', addRoutingConfig protocol line r = Some r' /\
    software r' = software r /\
    generalConfig r'
    = generalConfig r
      ++ (if decide (Spec.target (protocol, line) = None) then [line] else []) /\
    forall p lines, PyDict.get p (daemonConfigs r) = Some lines ->
      PyDict.get p (daemonConfigs r')
      = Some (lines ++ if decide (Spec.target (protocol, line) = Some p)
                       then [line] else []).
Proof.
  intros Hknown. unfold addRoutingConfig, Spec.target in *.
  destruct protocol as [q|]; simpl.
  - destruct (decide (line = "")) as [->|Hline]; simpl.
    + eexists. split; [done|]. split; [done|]. split; [done|].
      intros p lines Hp. simpl. by rewrite Hp, app_nil_r.
    + rewrite bool_decide_true by done. simpl.
      destruct (Hknown q eq_refl) as [ql Hq]. rewrite Hq. simpl.
      eexists. split; [done|]. split; [done|]. simpl.
      split; [by rewrite app_nil_r|].
      intros p lines Hp. destruct (decide (q = p)) as [->|Hne].
      * rewrite get_set_eq, decide_True by done. congruence.
      * rewrite get_set_ne by done. rewrite decide_False by congruence.
        by rewrite Hp, app_nil_r.
  - eexists. split; [done|]. split; [done|]. split; [done|].
    intros p lines Hp. simpl. by rewrite Hp, app_nil_r.
Qed.

(** C7, as the code has it: a call with a protocol and a line that is not
    empty appends the line to the end of that protocol's list, every other
    call (no protocol, or an empty line) appends it to the end of the general
    list; after any sequence of calls each list holds its lines in call
    order, and the configuration file of a protocol is written from its
    lines in exactly that order. *)
Theorem addRoutingConfig_insertion_order (r : DockerRouter.t)
    (calls : list (option string * string)) :
  Forall (fun c => forall p, Spec.target c = Some p ->
                             is_Some (PyDict.get p (daemonConfigs r))) calls ->
  exists r', Spec.addRoutingConfigs calls r = Some r' /\
    generalConfig r' = generalConfig r ++ Spec.lines_for None calls /\
    forall p lines, PyDict.get p (daemonConfigs r) = Some lines ->
      PyDict.get p (daemonConfigs r')
      = Some (lines ++ Spec.lines_for (Some p) calls) /\
      setupRoutingConfigByProtocol p r'
      = Some ("echo -e " +:+ dq
              +:+ Spec.config_text (lines ++ Spec.lines_for (Some p) calls)
              +:+ dq +:+ " > /etc/" +:+ software r +:+ "/" +:+ p +:+ ".conf").
Proof.
  revert r. induction calls as [|[protocol line] calls IH]; intros r Hknown.
  - exists r. split; [done|]. split; [by rewrite app_nil_r|].
    intros p lines Hp. unfold Spec.lines_for; simpl. rewrite app_nil_r.
    split; [done|]. unfold setupRoutingConfigByProtocol.
    rewrite Hp; simpl. by rewrite configStr_text.
  - apply Forall_cons in Hknown as [Hc Hrest].
    destruct (addRoutingConfig_target protocol line r Hc)
      as (r1 & Hr1 & Hsw & Hgen & Hdae).
    destruct (IH r1) as (r' & Hr' & Hgen' & Hdae').
    { eapply Forall_impl; [exact Hrest|]. intros c Hcalls p Hp.
      destruct (Hcalls p Hp) as [lines Hlines].
      rewrite (Hdae _ _ Hlines). eauto. }
    exists r'. split; [simpl; by rewrite Hr1|].
    split.
    + rewrite Hgen', Hgen, lines_for_cons, <- app_assoc. simpl snd.
      repeat case_decide; done.
    + intros p lines Hp.
      destruct (Hdae' p _ (Hdae p lines Hp)) as [Hget Hfile].
      rewrite lines_for_cons. simpl snd.
      rewrite <- app_assoc in Hget, Hfile. rewrite Hsw in Hfile.
      repeat case_decide; done.
Qed.
End RoutingConfigFacts.

Section RoutingConfigScenarios.
Import DockerRouter.

(** C7, counterexample: a call that names a protocol but passes the empty
    line leaves the protocol's list as it was and appends to the general
    list. *)
Lemma addRoutingConfig_empty_line_goes_general :
  exists r',
    addRoutingConfig (Some "bgpd") "" (init "r1" 1 "frr") = Some r' /\
    PyDict.get "bgpd" (daemonConfigs (init "r1" 1 "frr")) = Some [] /\
    PyDict.get "bgpd" (daemonConfigs r') = Some [] /\
    PyDict.get "bgpd" (daemonConfigs r') <> Some ([] ++ [""]) /\
    generalConfig r' = [""].
Proof. eexists. repeat split; try reflexivity. vm_compute. discriminate. Qed.

(** Four calls on a fresh router, one of them with an empty line. *)
Lemma addRoutingConfig_insertion_order_witness :
  let r := init "r1" 1 "frr" in
  let calls := [(Some "bgpd", "router bgp 1"); (None, "debug bgp bfd");
                (Some "bgpd", ""); (Some "bgpd", "no bgp ebgp-requires-policy")] in
  exists r', Spec.addRoutingConfigs calls r = Some r' /\
    generalConfig r' = ["debug bgp bfd"; ""] /\
    PyDict.get "bgpd" (daemonConfigs r')
    = Some ["router bgp 1"; "no bgp ebgp-requires-policy"] /\
    setupRoutingConfigByProtocol "bgpd" r'
    = Some ("echo -e " +:+ dq
            +:+ "router bgp 1\nno bgp ebgp-requires-policy\n"
            +:+ dq +:+ " > /etc/frr/bgpd.conf").
Proof.
  intros r calls.
  destruct (addRoutingConfig_insertion_order r calls) as (r' & Hrun & Hgen & Hp).
  { repeat constructor; intros p Hp; vm_compute in Hp; simplify_eq;
      vm_compute; eauto. }
  destruct (Hp "bgpd" [] eq_refl) as [Hget Hfile].
  exists r'. split; [exact Hrun|]. split; [exact Hgen|].
  split; [exact Hget | exact Hfile].
Defined.
End RoutingConfigScenarios.

(** ** VRFs and bridge domains *)
Section VrfFacts.
Import DockerRouter.

(** C5, counterexample: a VRF registered with table 10 is added again with
    table 20; the call goes through and the name now leads to table 20. *)
Lemma addVRF_again_overwrites :
  let r := addVRF "red" 10 (init "r1" 1 "frr") in
  PyDict.get "red" (vrfDict r) = Some 10 /\
  PyDict.get "red" (vrfDict (addVRF "red" 20 r)) = Some 20 /\
  vrfDict (addVRF "red" 20 r) <> vrfDict r.
Proof. repeat split; try reflexivity. vm_compute. discriminate. Qed.

(** C5, as the code has it: [addVRF] on a name that is registered does not
    fail; the name keeps its place and leads to the new table ID, the other
    names are untouched, the new table ID is entered in the routing-table map
    and the VNIs of the VRF are reset. *)
Theorem addVRF_existing_overwrites (r : DockerRouter.t) (name : string)
    (tableId : Z) :
  is_Some (PyDict.get name (vrfDict r)) ->
  let r' := addVRF name tableId r in
  PyDict.get name (vrfDict r') = Some tableId /\
  PyDict.keys (vrfDict r') = PyDict.keys (vrfDict r) /\
  (forall other, other <> name ->
     PyDict.get other (vrfDict r') = PyDict.get other (vrfDict r)) /\
  PyDict.get tableId (tableVrfDict r') = Some tableId /\
  PyDict.get name (vrfVniDict r') = Some (None, []).
Proof.
  intros Hreg r'. subst r'. unfold addVRF; simpl.
  split; [apply get_set_eq|]. split; [by apply keys_set_present|].
  split; [intros other Hne; by apply get_set_ne|].
  split; apply get_set_eq.
Qed.

Lemma addVRF_existing_overwrites_witness :
  let r := addVRF "red" 10 (init "r1" 1 "frr") in
  let r' := addVRF "red" 20 r in
  PyDict.get "red" (vrfDict r') = Some 20 /\
  PyDict.keys (vrfDict r') = PyDict.keys (vrfDict r) /\
  (forall other, other <> "red" ->
     PyDict.get other (vrfDict r') = PyDict.get other (vrfDict r)) /\
  PyDict.get 20 (tableVrfDict r') = Some 20 /\
  PyDict.get "red" (vrfVniDict r') = Some (None, []).
Proof.
  intros r. apply (addVRF_existing_overwrites r "red" 20).
  vm_compute. eauto.
Defined.
End VrfFacts.

Section BridgeDomainFacts.
Import DockerRouter.

Lemma attrsOf_setAttrs i j a r :
  attrsOf i (setAttrs j a r)
  = if decide (intf_id j = intf_id i) then a else attrsOf i r.
Proof.
  unfold attrsOf, setAttrs; simpl. rewrite lookup_insert. by case_decide.
Qed.

Lemma bdi_setVRF i j vrf r : a_bdi (attrsOf i (setVRF j vrf r)) = a_bdi (attrsOf i r).
Proof.
  unfold setVRF. rewrite attrsOf_setAttrs. case_decide as Hid; [|done].
  unfold attrsOf. by rewrite Hid.
Qed.

Lemma bdi_setBDI i j bdi r :
  a_bdi (attrsOf i (setBDI j bdi r))
  = if decide (intf_id j = intf_id i) then bdi else a_bdi (attrsOf i r).
Proof. unfold setBDI. rewrite attrsOf_setAttrs. by case_decide. Qed.

(** What one attachment does, given what the three reads find. *)
Lemma attachIntfToL2VNI_step r intfName vni intf brIntf bdi members :
  PyDict.get intfName (Node.nameToIntf (node r)) = Some intf ->
  PyDict.get (default_brname vni) (Node.nameToIntf (node r)) = Some brIntf ->
  a_bdi (attrsOf brIntf r) = Some bdi ->
  PyDict.get bdi (bdIntfDict r) = Some members ->
  exists r',
    attachIntfToL2VNI intfName vni None r = Some r' /\
    node r' = node r /\
    bdIntfDict r' = PyDict.set bdi (members ++ [intf]) (bdIntfDict r) /\
    (forall j, a_bdi (attrsOf j r')
               = if decide (intf_id intf = intf_id j) then Some bdi
                 else a_bdi (attrsOf j r)).
Proof.
  intros Hintf Hbr Hbdi Hmem. unfold attachIntfToL2VNI; simpl.
  rewrite Hintf, Hbr; simpl.
  assert (forall v, a_bdi (attrsOf brIntf
            (setBDI intf (a_bdi (attrsOf brIntf (setVRF intf v r)))
               (setVRF intf v r))) = Some bdi) as Hafter.
  { intros v. rewrite bdi_setBDI, !bdi_setVRF, Hbdi. by case_decide. }
  rewrite Hafter; simpl. rewrite Hmem; simpl.
  eexists. split; [done|]. split; [done|]. split; [done|].
  intros j. simpl.
  change (a_bdi (attrsOf j (setBDI intf
            (a_bdi (attrsOf brIntf (setVRF intf (a_vrf (attrsOf brIntf r)) r)))
            (setVRF intf (a_vrf (attrsOf brIntf r)) r)))
          = if decide (intf_id intf = intf_id j) then Some bdi
            else a_bdi (attrsOf j r)).
  rewrite bdi_setBDI, !bdi_setVRF, Hbdi. done.
Qed.

Lemma vrf_setVRF i j vrf r :
  a_vrf (attrsOf i (setVRF j vrf r))
  = if decide (intf_id j = intf_id i) then vrf else a_vrf (attrsOf i r).
Proof. unfold setVRF. rewrite attrsOf_setAttrs. by case_decide. Qed.

Lemma vrf_setBDI i j bdi r : a_vrf (attrsOf i (setBDI j bdi r)) = a_vrf (attrsOf i r).
Proof.
  unfold setBDI. rewrite attrsOf_setAttrs. case_decide as Hid; [|done].
  unfold attrsOf. by rewrite Hid.
Qed.

(** What an attachment leaves alone, and what it does to the VRF tags. *)
Lemma attachIntfToL2VNI_frame r intfName vni intf brIntf r' :
  attachIntfToL2VNI intfName vni None r = Some r' ->
  PyDict.get intfName (Node.nameToIntf (node r)) = Some intf ->
  PyDict.get (default_brname vni) (Node.nameToIntf (node r)) = Some brIntf ->
  effIntfs r' = effIntfs r /\ vrfDict r' = vrfDict r /\
  forall j, a_vrf (attrsOf j r')
            = if decide (intf_id intf = intf_id j) then a_vrf (attrsOf brIntf r)
              else a_vrf (attrsOf j r).
Proof.
  intros Hrun Hintf Hbr. unfold attachIntfToL2VNI in Hrun; simpl in Hrun.
  rewrite Hintf, Hbr in Hrun; simpl in Hrun.
  apply bind_Some in Hrun as (bdi & _ & Hrun).
  apply bind_Some in Hrun as (members & _ & Hrun).
  injection Hrun as <-. split; [done|]. split; [done|].
  intros j.
  change (a_vrf (attrsOf j (setBDI intf
            (a_bdi (attrsOf brIntf (setVRF intf (a_vrf (attrsOf brIntf r)) r)))
            (setVRF intf (a_vrf (attrsOf brIntf r)) r)))
          = if decide (intf_id intf = intf_id j) then a_vrf (attrsOf brIntf r)
            else a_vrf (attrsOf j r)).
  by rewrite vrf_setBDI, vrf_setVRF.
Qed.

(** An attachment to a bridge of a known VRF keeps the router
    provisionable. *)
Lemma attachIntfToL2VNI_provisionable r intfName vni intf brIntf r' :
  attachIntfToL2VNI intfName vni None r = Some r' ->
  PyDict.get intfName (Node.nameToIntf (node r)) = Some intf ->
  PyDict.get (default_brname vni) (Node.nameToIntf (node r)) = Some brIntf ->
  node r' = node r ->
  is_Some (PyDict.get (a_vrf (attrsOf brIntf r)) (vrfDict r)) ->
  Spec.provisionable r ->
  Spec.provisionable r' /\
  is_Some (PyDict.get (a_vrf (attrsOf brIntf r')) (vrfDict r')).
Proof.
  intros Hrun Hintf Hbr Hnode Hvrf Hprov.
  destruct (attachIntfToL2VNI_frame _ _ _ _ _ _ Hrun Hintf Hbr)
    as (Heff & Hdict & Htag).
  split.
  - intros n p Hin. rewrite Heff in Hin.
    destruct (Hprov n p Hin) as (j & Hj & Hjvrf).
    exists j. rewrite Hnode, Hdict, Htag. split; [done|]. by case_decide.
  - rewrite Hdict, Htag. by case_decide.
Qed.

(** C4, counterexample: an interface is attached to the bridge domain of
    VNI 100 and then to that of VNI 200; it is in both membership lists. *)
Lemma attachIntfToL2VNI_keeps_first_membership :
  let i := mkIntf 1 "r1-eth0" in
  exists r,
    (r0 ← DockerP4Router.addIntf i None
            (DockerP4Router.init "r1" 1 "frr" None None);
     r1 ← DockerP4Router.addL2VNI Spec.ipToMac_sample 2 100 "10.0.1.1" None
            "default" r0;
     r2 ← DockerP4Router.addL2VNI Spec.ipToMac_sample 3 200 "10.0.2.1" None
            "default" r1;
     r3 ← DockerP4Router.attachIntfToL2VNI "r1-eth0" 100 None r2;
     DockerP4Router.attachIntfToL2VNI "r1-eth0" 200 None r3)
    = Some r /\
    PyDict.get 100 (bdIntfDict (DockerP4Router.router r)) = Some [i] /\
    PyDict.get 200 (bdIntfDict (DockerP4Router.router r)) = Some [i] /\
    Spec.member i 100 (DockerP4Router.router r).
Proof.
  intros i. eexists.
  split; [vm_compute; reflexivity|].
  split; [vm_compute; reflexivity|].
  split; [vm_compute; reflexivity|].
  exists [i]. split; [vm_compute; reflexivity|]. apply list_elem_of_here.
Qed.

(** C4, as the code has it: attaching an interface to one bridge domain and
    then to another removes nothing.  An interface that is not itself the
    bridge of the second domain is in the membership lists of both, and only
    its BDI tag, which holds one value, is that of the second.  When the
    interface is the bridge of the second domain, the second call reads the
    tag that the first call gave it: the interface is entered a second time
    in the first domain's list, the second domain's list stays as it was,
    and the tag stays that of the first. *)
Theorem attachIntfToL2VNI_twice (r : DockerP4Router.t) (intfName : string)
    (vni1 vni2 b1 b2 : Z) (i br1 br2 : Intf) (m1 m2 : list Intf) :
  let d := DockerP4Router.router r in
  PyDict.get intfName (Node.nameToIntf (node d)) = Some i ->
  PyDict.get (default_brname vni1) (Node.nameToIntf (node d)) = Some br1 ->
  PyDict.get (default_brname vni2) (Node.nameToIntf (node d)) = Some br2 ->
  a_bdi (attrsOf br1 d) = Some b1 ->
  a_bdi (attrsOf br2 d) = Some b2 ->
  PyDict.get b1 (bdIntfDict d) = Some m1 ->
  PyDict.get b2 (bdIntfDict d) = Some m2 ->
  exists r1 r2,
    DockerP4Router.attachIntfToL2VNI intfName vni1 None r = Some r1 /\
    DockerP4Router.attachIntfToL2VNI intfName vni2 None r1 = Some r2 /\
    Spec.member i b1 (DockerP4Router.router r2) /\
    (intf_id i <> intf_id br2 ->
     Spec.member i b2 (DockerP4Router.router r2) /\
     a_bdi (attrsOf i (DockerP4Router.router r2)) = Some b2) /\
    (intf_id i = intf_id br2 ->
     PyDict.get b1 (bdIntfDict (DockerP4Router.router r2))
     = Some (m1 ++ [i; i]) /\
     (b1 <> b2 ->
      PyDict.get b2 (bdIntfDict (DockerP4Router.router r2)) = Some m2) /\
     a_bdi (attrsOf i (DockerP4Router.router r2)) = Some b1).
Proof.
  intros d Hi Hbr1 Hbr2 Hb1 Hb2 Hm1 Hm2.
  destruct (attachIntfToL2VNI_step d intfName vni1 i br1 b1 m1)
    as (d1 & Hrun1 & Hnode1 & Hbd1 & Hattr1); try done.
  destruct (decide (intf_id i = intf_id br2)) as [Heq|Hne].
  - destruct (attachIntfToL2VNI_step d1 intfName vni2 i br2 b1 (m1 ++ [i]))
      as (d2 & Hrun2 & Hnode2 & Hbd2 & Hattr2); try (by rewrite ?Hnode1).
    { rewrite Hattr1. by rewrite decide_True. }
    { by rewrite Hbd1, get_set_eq. }
    exists (DockerP4Router.set_router d1 r), (DockerP4Router.set_router d2 r).
    unfold DockerP4Router.attachIntfToL2VNI. fold d. rewrite Hrun1. simpl.
    rewrite Hrun2. simpl. split; [done|]. split; [done|].
    assert (PyDict.get b1 (bdIntfDict d2) = Some (m1 ++ [i; i])) as Hget.
    { rewrite Hbd2, get_set_eq, <- app_assoc. done. }
    split; [|split].
    + exists (m1 ++ [i; i]). split; [done|].
      rewrite elem_of_app. right. apply list_elem_of_here.
    + intros Hne. done.
    + intros _. split; [done|]. split.
      * intros Hb. rewrite Hbd2, Hbd1, !get_set_ne by done. done.
      * rewrite Hattr2. by rewrite decide_True.
  - assert (exists m, PyDict.get b2 (bdIntfDict d1) = Some m) as [m Hm].
    { rewrite Hbd1. destruct (decide (b1 = b2)) as [->|Hb].
      - rewrite get_set_eq. eauto.
      - rewrite get_set_ne by done. eauto. }
    destruct (attachIntfToL2VNI_step d1 intfName vni2 i br2 b2 m)
      as (d2 & Hrun2 & Hnode2 & Hbd2 & Hattr2); try (by rewrite ?Hnode1).
    { rewrite Hattr1, decide_False by done. done. }
    exists (DockerP4Router.set_router d1 r), (DockerP4Router.set_router d2 r).
    unfold DockerP4Router.attachIntfToL2VNI. fold d. rewrite Hrun1. simpl.
    rewrite Hrun2. simpl. split; [done|]. split; [done|].
    split; [|split].
    + unfold Spec.member. rewrite Hbd2, Hbd1.
      destruct (decide (b2 = b1)) as [Hb|Hb].
      * subst b2. rewrite get_set_eq. eexists. split; [done|].
        rewrite elem_of_app. right. apply list_elem_of_here.
      * rewrite get_set_ne, get_set_eq by done. eexists. split; [done|].
        rewrite elem_of_app. right. apply list_elem_of_here.
    + intros _. split.
      * unfold Spec.member. rewrite Hbd2, get_set_eq. eexists. split; [done|].
        rewrite elem_of_app. right. apply list_elem_of_here.
      * rewrite Hattr2. by rewrite decide_True.
    + intros Heq. done.
Qed.

(** A router with one data port and the bridges of VNI 100 and VNI 200; the
    port is attached to both. *)
Lemma attachIntfToL2VNI_twice_witness :
  let i := mkIntf 1 "r1-eth0" in
  let br2 := mkIntf 3 "br200" in
  exists r,
    (r0 ← DockerP4Router.addIntf i None
            (DockerP4Router.init "r1" 1 "frr" None None);
     r1 ← DockerP4Router.addL2VNI Spec.ipToMac_sample 2 100 "10.0.1.1" None
            "default" r0;
     DockerP4Router.addL2VNI Spec.ipToMac_sample 3 200 "10.0.2.1" None
       "default" r1)
    = Some r /\
    exists r1 r2,
      DockerP4Router.attachIntfToL2VNI "r1-eth0" 100 None r = Some r1 /\
      DockerP4Router.attachIntfToL2VNI "r1-eth0" 200 None r1 = Some r2 /\
      Spec.member i 100 (DockerP4Router.router r2) /\
      (intf_id i <> intf_id br2 ->
       Spec.member i 200 (DockerP4Router.router r2) /\
       a_bdi (attrsOf i (DockerP4Router.router r2)) = Some 200) /\
      (intf_id i = intf_id br2 ->
       PyDict.get 100 (bdIntfDict (DockerP4Router.router r2))
       = Some ([] ++ [i; i]) /\
       (100 <> 200 ->
        PyDict.get 200 (bdIntfDict (DockerP4Router.router r2)) = Some []) /\
       a_bdi (attrsOf i (DockerP4Router.router r2)) = Some 100).
Proof.
  intros i br2. eexists. split; [vm_compute; reflexivity|].
  apply (attachIntfToL2VNI_twice _ "r1-eth0" 100 200 100 200 i
           (mkIntf 2 "br100") br2 [] []);
    vm_compute; reflexivity.
Defined.
End BridgeDomainFacts.

(** ** The table files *)
Section MaterializationFacts.
Import DockerP4Router.

(** C6, counterexample: after [addVRF("red", 10)] the table-ID file lists
    table 10 last, after 254 and 255, not in the order of the keys; and two
    routers that hold the same routing-table and VNI mappings, filled in a
    different order, get different files. *)
Lemma setupVrfTable_not_sorted_by_key :
  let r0 := init "r1" 1 "frr" None None in
  let r := addVRF "red" 10 r0 in
  TableVrfDict_lines r = ["254 0" +:+ nl; "255 0" +:+ nl; "10 10" +:+ nl] /\
  Spec.TableVrfDict_lines_sorted r
  = ["10 10" +:+ nl; "254 0" +:+ nl; "255 0" +:+ nl] /\
  TableVrfDict_lines r <> Spec.TableVrfDict_lines_sorted r /\
  exists ra rb,
    (r1 ← addL3VNI 5000 "red" (addVRF "red" 10 r0);
     addL3VNI 6000 "blue" (addVRF "blue" 20 r1)) = Some ra /\
    (r1 ← addL3VNI 6000 "blue" (addVRF "blue" 20 r0);
     addL3VNI 5000 "red" (addVRF "red" 10 r1)) = Some rb /\
    (list_to_map (DockerRouter.tableVrfDict (router ra)) : gmap Z Z)
    = list_to_map (DockerRouter.tableVrfDict (router rb)) /\
    (list_to_map (DockerRouter.vrfVniDict (router ra))
       : gmap string (option Z * list Z))
    = list_to_map (DockerRouter.vrfVniDict (router rb)) /\
    setupVrfTable ra ∅ !! TableVrfDict_file ra
    <> setupVrfTable rb ∅ !! TableVrfDict_file ra /\
    VDV_lines ra <> VDV_lines rb.
Proof.
  intros r0 r.
  split; [vm_compute; reflexivity|].
  split; [vm_compute; reflexivity|].
  split; [vm_compute; discriminate|].
  do 2 eexists.
  split; [vm_compute; reflexivity|].
  split; [vm_compute; reflexivity|].
  split; [vm_compute; reflexivity|].
  split; [vm_compute; reflexivity|].
  split; vm_compute; discriminate.
Qed.

Lemma setupStartupTables_written r fs :
  setupStartupTables r fs
  = (fun ls => <[Startup_file r := String.concat "" ls]> fs) <$> Startup_lines r.
Proof. unfold setupStartupTables. by destruct (Startup_lines r). Qed.

Lemma same_state_lines r r' :
  Spec.same_state r r' ->
  TableVrfDict_file r = TableVrfDict_file r' /\
  IntfPortDict_file r = IntfPortDict_file r' /\
  Startup_file r = Startup_file r' /\
  TableVrfDict_lines r = TableVrfDict_lines r' /\
  IntfPortDict_lines r = IntfPortDict_lines r' /\
  Startup_lines r = Startup_lines r'.
Proof.
  intros (Hnode & Hattrs & Hname & Hlo & Hvrf & Htable & Hvni & Hbd & Heff
          & Hin & Hout).
  unfold TableVrfDict_file, IntfPortDict_file, Startup_file,
    TableVrfDict_lines, IntfPortDict_lines, Startup_lines, SMT_lines,
    SVRF_lines, SBD_lines, EMCAST_lines, EMCAST_entry, VDV_lines,
    DockerRouter.attrsOf.
  rewrite Hnode, Hattrs, Hname, Hlo, Hvrf, Htable, Hvni, Hbd, Heff, Hin, Hout.
  done.
Qed.

(** C6, as the code has it.  The files are a function of the state: two
    routers of identical interface registry and VRF and bridge-domain state
    get byte-identical table-ID, interface-port and startup files, whatever
    the directory held before, and a second invocation changes nothing.
    The table-ID file holds one line per entry of [tableVrfDict] in the
    insertion order of the dictionary, and the startup file holds, between
    its fixed sections, the VXLAN entries per VRF in the insertion order of
    [vrfVniDict]: the entry of a new routing table and the VXLAN entry of a
    new VRF are written after all earlier ones, whatever their keys. *)
Theorem materialization_deterministic_in_insertion_order
    (r r' : DockerP4Router.t) (fs fs' fs1 fs2 : files) (name : string)
    (tableId : Z) :
  let table_text : list (Z * Z) -> string := fun entries =>
    String.concat ""
      (map (fun '(t, v) => str_int t +:+ " " +:+ str_int v +:+ nl) entries) in
  let lo := DockerRouter.loopbackIP (router r) in
  let vdv : list (string * (option Z * list Z)) -> list string :=
    flat_map (fun '(vrf, (l3vni, l2vnis)) =>
      ("table_add VxlanDecap_Virtual l3vxlan_decap " +:+ lo +:+ " "
       +:+ fmt_opt l3vni +:+ " =>  " +:+ fmt_opt l3vni +:+ " " +:+ nl)
      :: map (fun l2vni =>
                "table_add VxlanDecap_Virtual l2vxlan_decap " +:+ lo
                +:+ " " +:+ str_int l2vni +:+ " => " +:+ str_int l2vni
                +:+ " " +:+ nl)
             l2vnis) in
  let startup_text := fun smt entries svrf sbd emcast =>
    String.concat ""
      (["table_add SrcMac_RW set_smac " +:+ str_int (cpu_input_port r)
        +:+ " => aa:00:00:00:00:01" +:+ nl]
       ++ smt
       ++ ["table_add DstMac_FIB set_dmac 0.0.0.0 => aa:00:00:00:00:02" +:+ nl;
           "mirroring_add 819 80" +:+ nl;
           "mirroring_add 114 80" +:+ nl]
       ++ vdv entries
       ++ svrf
       ++ ["table_add SetVrf_Virtual set_vrf " +:+ str_int (cpu_output_port r)
           +:+ " => 0 " +:+ nl]
       ++ sbd
       ++ emcast) in
  Spec.same_state r r' ->
  PyDict.get tableId (DockerRouter.tableVrfDict (router r)) = None ->
  PyDict.get name (DockerRouter.vrfVniDict (router r)) = None ->
  setupStartupTables r fs = Some fs1 ->
  setupStartupTables (addVRF name tableId r) fs = Some fs2 ->
  (setupVrfTable r fs !! TableVrfDict_file r
   = setupVrfTable r' fs' !! TableVrfDict_file r' /\
   setupIntfTable r fs !! IntfPortDict_file r
   = setupIntfTable r' fs' !! IntfPortDict_file r' /\
   exists fs1', setupStartupTables r' fs' = Some fs1' /\
                fs1 !! Startup_file r = fs1' !! Startup_file r') /\
  (setupVrfTable r (setupVrfTable r fs) = setupVrfTable r fs /\
   setupStartupTables r fs1 = Some fs1) /\
  (setupVrfTable r fs !! TableVrfDict_file r
   = Some (table_text (PyDict.items (DockerRouter.tableVrfDict (router r)))) /\
   setupVrfTable (addVRF name tableId r) fs !! TableVrfDict_file r
   = Some (table_text (PyDict.items (DockerRouter.tableVrfDict (router r))
                       ++ [(tableId, tableId)]))) /\
  exists smt svrf svrf' sbd emcast,
    SMT_lines r = Some smt /\ SVRF_lines r = Some svrf /\
    SVRF_lines (addVRF name tableId r) = Some svrf' /\
    SBD_lines r = Some sbd /\ EMCAST_lines r = Some emcast /\
    fs1 !! Startup_file r
    = Some (startup_text smt
              (PyDict.items (DockerRouter.vrfVniDict (router r)))
              svrf sbd emcast) /\
    fs2 !! Startup_file r
    = Some (startup_text smt
              (PyDict.items (DockerRouter.vrfVniDict (router r))
               ++ [(name, (None, []))])
              svrf' sbd emcast).
Proof.
  intros table_text lo vdv startup_text Hsame Htable Hvrf H1 H2.
  destruct (same_state_lines r r' Hsame)
    as (Hft & Hfi & Hfs & Hlt & Hli & Hls).
  rewrite setupStartupTables_written in H1.
  destruct (Startup_lines r) as [ls|] eqn:Hlines; [|done].
  injection H1 as <-.
  rewrite setupStartupTables_written in H2.
  destruct (Startup_lines (addVRF name tableId r)) as [ls2|] eqn:Hlines2;
    [|done].
  injection H2 as <-.
  change (Startup_file (addVRF name tableId r)) with (Startup_file r).
  split; [|split; [|split]].
  - split; [|split].
    + unfold setupVrfTable. by rewrite !lookup_insert_eq, Hlt.
    + unfold setupIntfTable. by rewrite !lookup_insert_eq, Hli.
    + rewrite setupStartupTables_written, <- Hls. eexists. split; [done|].
      by rewrite <- Hfs, !lookup_insert_eq.
  - split.
    + unfold setupVrfTable. by rewrite insert_insert_eq.
    + rewrite setupStartupTables_written, Hlines. simpl.
      by rewrite insert_insert_eq.
  - split.
    + unfold setupVrfTable. by rewrite lookup_insert_eq.
    + unfold setupVrfTable.
      change (TableVrfDict_file (addVRF name tableId r))
        with (TableVrfDict_file r).
      rewrite lookup_insert_eq. f_equal. f_equal.
      unfold TableVrfDict_lines, addVRF, DockerRouter.addVRF, PyDict.items.
      simpl. by rewrite (set_fresh _ _ _ Htable).
  - unfold Startup_lines in Hlines.
    apply bind_Some in Hlines as (smt & Hsmt & Hlines).
    apply bind_Some in Hlines as (svrf & Hsvrf & Hlines).
    apply bind_Some in Hlines as (sbd & Hsbd & Hlines).
    apply bind_Some in Hlines as (emcast & Hem & [= <-]).
    unfold Startup_lines in Hlines2.
    change (SMT_lines (addVRF name tableId r)) with (SMT_lines r) in Hlines2.
    change (SBD_lines (addVRF name tableId r)) with (SBD_lines r) in Hlines2.
    change (EMCAST_lines (addVRF name tableId r)) with (EMCAST_lines r)
      in Hlines2.
    rewrite Hsmt, Hsbd, Hem in Hlines2. simpl in Hlines2.
    apply bind_Some in Hlines2 as (svrf' & Hsvrf' & [= <-]).
    exists smt, svrf, svrf', sbd, emcast.
    split; [done|]. split; [done|]. split; [done|]. split; [done|].
    split; [done|]. split.
    + by rewrite lookup_insert_eq.
    + rewrite lookup_insert_eq. f_equal. unfold startup_text. f_equal.
      f_equal. f_equal. f_equal. f_equal.
      unfold VDV_lines, addVRF, DockerRouter.addVRF, PyDict.items. simpl.
      by rewrite (set_fresh _ _ _ Hvrf).
Qed.
(** A router with a VRF on table 300; the second router differs from it in
    its ACL entries only; the new table 10 is written after 254, 255 and
    300. *)
Lemma materialization_deterministic_in_insertion_order_witness :
  let r := addVRF "blue" 300 (init "r1" 1 "frr" None None) in
  let r' := addACLConfig (VStr "10.0.0.1") VNone (VInt 6) (VInt 80) VNone r in
  let fs : files := ∅ in
  let fs' : files := {[ "./TableVrfDict-r1.txt" := "stale" ]} in
  exists fs1 fs2,
    setupStartupTables r fs = Some fs1 /\
    setupStartupTables (addVRF "red" 10 r) fs = Some fs2 /\
    (setupVrfTable r fs !! TableVrfDict_file r
     = setupVrfTable r' fs' !! TableVrfDict_file r' /\
     setupIntfTable r fs !! IntfPortDict_file r
     = setupIntfTable r' fs' !! IntfPortDict_file r' /\
     exists fs1', setupStartupTables r' fs' = Some fs1' /\
                  fs1 !! Startup_file r = fs1' !! Startup_file r') /\
    setupVrfTable r fs !! TableVrfDict_file r
    = Some ("254 0" +:+ nl +:+ "255 0" +:+ nl +:+ "300 300" +:+ nl) /\
    setupVrfTable (addVRF "red" 10 r) fs !! TableVrfDict_file r
    = Some ("254 0" +:+ nl +:+ "255 0" +:+ nl +:+ "300 300" +:+ nl
            +:+ "10 10" +:+ nl).
Proof.
  intros r r' fs fs'.
  assert (exists fs1, setupStartupTables r fs = Some fs1) as [fs1 H1]
    by (eexists; vm_compute; reflexivity).
  assert (exists fs2, setupStartupTables (addVRF "red" 10 r) fs = Some fs2)
    as [fs2 H2] by (eexists; vm_compute; reflexivity).
  assert (Spec.same_state r r') as Hsame by (repeat split).
  exists fs1, fs2. split; [exact H1|]. split; [exact H2|].
  destruct (materialization_deterministic_in_insertion_order r r' fs fs'
              fs1 fs2 "red" 10 Hsame eq_refl eq_refl H1 H2)
    as (Hdet & _ & [Ht1 Ht2] & _).
  split; [exact Hdet|]. split; [exact Ht1 | exact Ht2].
Defined.
End MaterializationFacts.

(** ** The startup table *)
Section StartupTableFacts.
Import DockerP4Router.

Lemma mapM_Forall {A B} (f : A -> option B) (P : B -> Prop) l k :
  (forall x y, f x = Some y -> P y) -> mapM f l = Some k -> Forall P k.
Proof.
  intros Hf Hk. apply mapM_Some_1 in Hk.
  induction Hk as [|x y l k Hxy _ IH]; constructor; eauto.
Qed.

(** On a provisionable router the three per-port sections are written, and
    none of their lines concerns a multicast group. *)
Lemma port_sections_written r :
  Spec.provisionable (router r) ->
  exists smt svrf sbd,
    SMT_lines r = Some smt /\ SVRF_lines r = Some svrf /\
    SBD_lines r = Some sbd /\
    Forall other_line smt /\ Forall other_line svrf /\ Forall other_line sbd.
Proof.
  intros Hprov.
  assert (is_Some (SMT_lines r)) as [smt Hsmt].
  { apply mapM_is_Some_2, Forall_forall. intros [n p] Hin.
    destruct (Hprov n p Hin) as (j & Hj & _). simpl. rewrite Hj. by eexists. }
  assert (is_Some (SVRF_lines r)) as [svrf Hsvrf].
  { apply mapM_is_Some_2, Forall_forall. intros [n p] Hin.
    destruct (Hprov n p Hin) as (j & Hj & [v Hv]). simpl. rewrite Hj. simpl.
    rewrite Hv. by eexists. }
  assert (is_Some (SBD_lines r)) as [sbd Hsbd].
  { apply mapM_is_Some_2, Forall_forall. intros [n p] Hin.
    destruct (Hprov n p Hin) as (j & Hj & _). simpl. rewrite Hj. by eexists. }
  exists smt, svrf, sbd. repeat split; try done.
  - eapply mapM_Forall; [|exact Hsmt]. intros [n p] y Hy.
    apply bind_Some in Hy as (j & _ & [= <-]). reflexivity.
  - eapply mapM_Forall; [|exact Hsvrf]. intros [n p] y Hy.
    apply bind_Some in Hy as (j & _ & Hy).
    apply bind_Some in Hy as (v & _ & [= <-]). reflexivity.
  - eapply mapM_Forall; [|exact Hsbd]. intros [n p] y Hy.
    apply bind_Some in Hy as (j & _ & [= <-]). reflexivity.
Qed.

Lemma VDV_lines_other r : Forall other_line (VDV_lines r).
Proof.
  unfold VDV_lines. induction (PyDict.items _) as [|[vrf [l3 l2s]] d IH];
    simpl; [constructor|].
  constructor; [reflexivity|]. apply Forall_app. split; [|done].
  apply Forall_forall. intros l Hl.
  apply list_elem_of_In, in_map_iff in Hl as (v & <- & _). reflexivity.
Qed.

(** C3: on a router whose one bridge domain is still empty, after two
    interfaces are attached with [attachIntfToL2VNI] the startup table is
    written, and its only lines for the multicast group are its last two:
    one [table_add EthernetMcast_FIB] command for the BDI and one
    [mc_mgrp_add] command whose port list is the port of the first attached
    interface followed by the port of the second. *)
Theorem setupStartupTables_mcast_ports_in_attach_order (r : DockerP4Router.t)
    (fs : files) (n1 n2 : string) (vni bdi p1 p2 : Z) (i1 i2 br : Intf) :
  let d := router r in
  PyDict.get n1 (Node.nameToIntf (DockerRouter.node d)) = Some i1 ->
  PyDict.get n2 (Node.nameToIntf (DockerRouter.node d)) = Some i2 ->
  PyDict.get (DockerRouter.default_brname vni)
    (Node.nameToIntf (DockerRouter.node d)) = Some br ->
  a_bdi (DockerRouter.attrsOf br d) = Some bdi ->
  DockerRouter.bdIntfDict d = [(bdi, [])] ->
  PyDict.get (intf_id i1) (Node.ports (DockerRouter.node d)) = Some p1 ->
  PyDict.get (intf_id i2) (Node.ports (DockerRouter.node d)) = Some p2 ->
  Spec.provisionable d ->
  is_Some (PyDict.get (a_vrf (DockerRouter.attrsOf br d)) (DockerRouter.vrfDict d)) ->
  exists r1 r2 pre,
    attachIntfToL2VNI n1 vni None r = Some r1 /\
    attachIntfToL2VNI n2 vni None r1 = Some r2 /\
    DockerRouter.bdIntfDict (router r2) = [(bdi, [i1; i2])] /\
    Forall (fun l => Spec.is_mcast_line l = false) pre /\
    let written :=
      pre ++ ["table_add EthernetMcast_FIB l2mcast_forward " +:+ str_int bdi
              +:+ " => " +:+ str_int bdi +:+ nl;
              "mc_mgrp_add " +:+ str_int bdi +:+ " "
              +:+ (str_int p1 +:+ " " +:+ str_int p2 +:+ " ") +:+ nl] in
    Startup_lines r2 = Some written /\
    setupStartupTables r2 fs
    = Some (<[Startup_file r2 := String.concat "" written]> fs).
Proof.
  intros d Hi1 Hi2 Hbr Hbdi Hbd Hp1 Hp2 Hprov Hvrf.
  destruct (attachIntfToL2VNI_step d n1 vni i1 br bdi [])
    as (d1 & Hrun1 & Hnode1 & Hbd1 & Hattr1); try done.
  { rewrite Hbd. simpl. by rewrite decide_True. }
  destruct (attachIntfToL2VNI_provisionable d n1 vni i1 br d1)
    as [Hprov1 Hvrf1]; try done.
  assert (DockerRouter.bdIntfDict d1 = [(bdi, [i1])]) as Hbd1'.
  { rewrite Hbd1, Hbd. simpl. by rewrite decide_True. }
  destruct (attachIntfToL2VNI_step d1 n2 vni i2 br bdi [i1])
    as (d2 & Hrun2 & Hnode2 & Hbd2 & Hattr2); try (by rewrite ?Hnode1).
  { rewrite Hattr1, Hbdi. by case_decide. }
  { rewrite Hbd1'. simpl. by rewrite decide_True. }
  destruct (attachIntfToL2VNI_provisionable d1 n2 vni i2 br d2 Hrun2
              ltac:(by rewrite Hnode1) ltac:(by rewrite Hnode1)
              Hnode2 Hvrf1 Hprov1) as [Hprov2 _].
  assert (DockerRouter.bdIntfDict d2 = [(bdi, [i1; i2])]) as Hbd2'.
  { rewrite Hbd2, Hbd1'. simpl. by rewrite decide_True. }
  set (r2 := set_router d2 r).
  destruct (port_sections_written r2 Hprov2)
    as (smt & svrf & sbd & Hsmt & Hsvrf & Hsbd & Osmt & Osvrf & Osbd).
  assert (EMCAST_lines r2
          = Some ["table_add EthernetMcast_FIB l2mcast_forward " +:+ str_int bdi
                  +:+ " => " +:+ str_int bdi +:+ nl;
                  "mc_mgrp_add " +:+ str_int bdi +:+ " "
                  +:+ (str_int p1 +:+ " " +:+ str_int p2 +:+ " ") +:+ nl])
    as Hemcast.
  { unfold EMCAST_lines, EMCAST_entry, PyDict.items. simpl router.
    rewrite Hbd2'. simpl. rewrite Hnode2, Hnode1. fold d.
    rewrite Hp1. simpl. rewrite Hp2. simpl.
    change ("" +:+ str_int p1 +:+ " ") with (str_int p1 +:+ " ").
    by rewrite (str_app_assoc (str_int p1) " "). }
  exists (set_router d1 r), r2,
    (["table_add SrcMac_RW set_smac " +:+ str_int (cpu_input_port r)
      +:+ " => aa:00:00:00:00:01" +:+ nl]
     ++ smt
     ++ ["table_add DstMac_FIB set_dmac 0.0.0.0 => aa:00:00:00:00:02" +:+ nl;
         "mirroring_add 819 80" +:+ nl;
         "mirroring_add 114 80" +:+ nl]
     ++ VDV_lines r2
     ++ svrf
     ++ ["table_add SetVrf_Virtual set_vrf " +:+ str_int (cpu_output_port r)
         +:+ " => 0 " +:+ nl]
     ++ sbd).
  unfold attachIntfToL2VNI. fold d. rewrite Hrun1. simpl mbind.
  change (router (set_router d1 r)) with d1. rewrite Hrun2. simpl mbind.
  split; [done|]. split; [done|]. split; [done|].
  split.
  { repeat (apply Forall_app; split); try done.
    - repeat constructor.
    - repeat constructor.
    - apply VDV_lines_other.
    - repeat constructor. }
  assert (Startup_lines r2 = Some
            ((["table_add SrcMac_RW set_smac " +:+ str_int (cpu_input_port r)
               +:+ " => aa:00:00:00:00:01" +:+ nl]
              ++ smt
              ++ ["table_add DstMac_FIB set_dmac 0.0.0.0 => aa:00:00:00:00:02" +:+ nl;
                  "mirroring_add 819 80" +:+ nl;
                  "mirroring_add 114 80" +:+ nl]
              ++ VDV_lines r2
              ++ svrf
              ++ ["table_add SetVrf_Virtual set_vrf " +:+ str_int (cpu_output_port r)
                  +:+ " => 0 " +:+ nl]
              ++ sbd)
             ++ ["table_add EthernetMcast_FIB l2mcast_forward " +:+ str_int bdi
                  +:+ " => " +:+ str_int bdi +:+ nl;
                  "mc_mgrp_add " +:+ str_int bdi +:+ " "
                  +:+ (str_int p1 +:+ " " +:+ str_int p2 +:+ " ") +:+ nl]))
    as Hlines.
  { unfold Startup_lines. rewrite Hsmt, Hsvrf, Hsbd, Hemcast. simpl mbind.
    rewrite <- !app_assoc. reflexivity. }
  split; [exact Hlines|].
  rewrite setupStartupTables_written, Hlines. reflexivity.
Qed.

(** The end-to-end scenario: VRF [default], two data ports, the bridge of
    VNI 100, both ports attached. *)
Lemma setupStartupTables_mcast_ports_in_attach_order_witness :
  exists r,
    (r0 ← addIntf (mkIntf 1 "r1-eth0") None (init "r1" 1 "frr" None None);
     r1 ← addIntf (mkIntf 2 "r1-eth1") None r0;
     addL2VNI Spec.ipToMac_sample 3 100 "10.0.1.1" None "default" r1)
    = Some r /\
    exists r1 r2 pre,
      attachIntfToL2VNI "r1-eth0" 100 None r = Some r1 /\
      attachIntfToL2VNI "r1-eth1" 100 None r1 = Some r2 /\
      DockerRouter.bdIntfDict (router r2)
      = [(100, [mkIntf 1 "r1-eth0"; mkIntf 2 "r1-eth1"])] /\
      Forall (fun l => Spec.is_mcast_line l = false) pre /\
      let written :=
        pre ++ ["table_add EthernetMcast_FIB l2mcast_forward 100 => 100" +:+ nl;
                "mc_mgrp_add 100 0 1 " +:+ nl] in
      Startup_lines r2 = Some written /\
      setupStartupTables r2 ∅
      = Some (<[Startup_file r2 := String.concat "" written]> ∅).
Proof.
  eexists. split; [vm_compute; reflexivity|].
  apply (setupStartupTables_mcast_ports_in_attach_order _ ∅
           "r1-eth0" "r1-eth1" 100 100 0 1
           (mkIntf 1 "r1-eth0") (mkIntf 2 "r1-eth1") (mkIntf 3 "br100"));
    try (vm_compute; reflexivity).
  - intros n p Hin.
    apply elem_of_cons in Hin as [[= -> ->]|Hin];
      [|apply elem_of_cons in Hin as [[= -> ->]|Hin];
        [|by apply elem_of_nil in Hin]];
      eexists; (split; [vm_compute; reflexivity | vm_compute; eauto]).
  - vm_compute. eauto.
Defined.

(** The whole startup table of that scenario. *)
Example Startup_lines_scenario :
  (r0 ← addIntf (mkIntf 1 "r1-eth0") None (init "r1" 1 "frr" None None);
   r1 ← addIntf (mkIntf 2 "r1-eth1") None r0;
   r2 ← addL2VNI Spec.ipToMac_sample 3 100 "10.0.1.1" None "default" r1;
   r3 ← attachIntfToL2VNI "r1-eth0" 100 None r2;
   r4 ← attachIntfToL2VNI "r1-eth1" 100 None r3;
   Startup_lines r4)
  = Some
      ["table_add SrcMac_RW set_smac 80 => aa:00:00:00:00:01" +:+ nl;
       "table_add SrcMac_RW set_smac 0 => None" +:+ nl;
       "table_add SrcMac_RW set_smac 1 => None" +:+ nl;
       "table_add DstMac_FIB set_dmac 0.0.0.0 => aa:00:00:00:00:02" +:+ nl;
       "mirroring_add 819 80" +:+ nl;
       "mirroring_add 114 80" +:+ nl;
       "table_add VxlanDecap_Virtual l3vxlan_decap 192.168.19.2 None =>  None " +:+ nl;
       "table_add VxlanDecap_Virtual l2vxlan_decap 192.168.19.2 100 => 100 " +:+ nl;
       "table_add SetVrf_Virtual set_vrf 0 => 0" +:+ nl;
       "table_add SetVrf_Virtual set_vrf 1 => 0" +:+ nl;
       "table_add SetVrf_Virtual set_vrf 81 => 0 " +:+ nl;
       "table_add SetBD_Virtual set_broadcast_domain 0 => 100" +:+ nl;
       "table_add SetBD_Virtual set_broadcast_domain 1 => 100" +:+ nl;
       "table_add EthernetMcast_FIB l2mcast_forward 100 => 100" +:+ nl;
       "mc_mgrp_add 100 0 1 " +:+ nl].
Proof. vm_compute. reflexivity. Qed.
End StartupTableFacts.

(** ** The start sequence *)
Section StartFacts.
Import DockerP4Router.

Lemma install_pass_trace sh tr :
  exists o1 o2 o3,
    install_pass sh tr
    = (o1, o2, o3, tr ++ [(Startup_cmd, o1); (Subnet_cmd, o2); (ACL_cmd, o3)]).
Proof.
  unfold install_pass, cmd. do 3 eexists. rewrite <- !app_assoc. reflexivity.
Qed.

Lemma pass_ok_not_installed sh tr o1 o2 o3 tr1 :
  install_pass sh tr = (o1, o2, o3, tr1) ->
  Spec.pass_ok sh tr = negb (not_installed o1 o2 o3) /\
  Spec.pass_ok sh tr = Spec.acknowledged o1 && Spec.acknowledged o2 && Spec.acknowledged o3.
Proof.
  intros Hp. unfold Spec.pass_ok, not_installed, Spec.acknowledged. rewrite Hp.
  split; [|done].
  by destruct (str_in _ o1), (str_in _ o2), (str_in _ o3).
Qed.

(** A pass is the three installations, and it is acknowledged when all
    three outputs are. *)
Lemma passes_S_trace sh n tr :
  exists o1 o2 o3,
    Spec.passes sh (S n) tr
    = Spec.passes sh n tr ++ [(Startup_cmd, o1); (Subnet_cmd, o2); (ACL_cmd, o3)] /\
    Spec.pass_ok sh (Spec.passes sh n tr)
    = Spec.acknowledged o1 && Spec.acknowledged o2 && Spec.acknowledged o3.
Proof.
  destruct (install_pass_trace sh (Spec.passes sh n tr)) as (o1 & o2 & o3 & Hp).
  exists o1, o2, o3.
  change (Spec.passes sh (S n) tr)
    with (snd (install_pass sh (Spec.passes sh n tr))).
  rewrite Hp. split; [done|].
  by apply pass_ok_not_installed in Hp as [_ ?].
Qed.

Lemma passes_shift sh n tr :
  Spec.passes sh (S n) tr = Spec.passes sh n (snd (install_pass sh tr)).
Proof.
  induction n as [|n IH]; [done|].
  change (Spec.passes sh (S (S n)) tr)
    with (snd (install_pass sh (Spec.passes sh (S n) tr))).
  by rewrite IH.
Qed.

Lemma passes_extends sh n tr :
  exists l, Spec.passes sh n tr = tr ++ l /\ Forall no_launch l.
Proof.
  induction n as [|n (l & Hl & Hno)].
  - exists []. by rewrite app_nil_r.
  - destruct (passes_S_trace sh n tr) as (o1 & o2 & o3 & Hp & _).
    eexists. rewrite Hp, Hl, <- app_assoc. split; [done|].
    apply Forall_app. split; [done|]. repeat constructor.
Qed.

Lemma install_loop_installed fuel sh o1 o2 o3 tr :
  not_installed o1 o2 o3 = false -> install_loop fuel sh o1 o2 o3 tr = Done tr.
Proof. intros Hno. destruct fuel; simpl; by rewrite Hno. Qed.

Lemma install_loop_S fuel sh c1 c2 c3 tr :
  install_loop (S fuel) sh c1 c2 c3 tr
  = if not_installed c1 c2 c3
    then let '(c1, c2, c3, tr) := install_pass sh tr in
         install_loop fuel sh c1 c2 c3 tr
    else Done tr.
Proof. reflexivity. Qed.

(** The loop is left after the first acknowledged pass. *)
Lemma install_loop_first_ok fuel sh : forall c1 c2 c3 tr n,
  not_installed c1 c2 c3 = true ->
  (n < fuel)%nat ->
  Spec.pass_ok sh (Spec.passes sh n tr) = true ->
  (forall m, (m < n)%nat -> Spec.pass_ok sh (Spec.passes sh m tr) = false) ->
  install_loop fuel sh c1 c2 c3 tr = Done (Spec.passes sh (S n) tr).
Proof.
  induction fuel as [|fuel IH]; intros c1 c2 c3 tr n Hnot Hn Hok Hbefore; [lia|].
  rewrite install_loop_S, Hnot.
  destruct (install_pass sh tr) as [[[o1 o2] o3] tr1] eqn:Hp.
  destruct (pass_ok_not_installed _ _ _ _ _ _ Hp) as [Hpass _].
  destruct n as [|n].
  - change (Spec.passes sh 0 tr) with tr in Hok. rewrite Hok in Hpass.
    change (Spec.passes sh 1 tr) with (snd (install_pass sh tr)).
    rewrite Hp. simpl snd.
    apply install_loop_installed. by destruct (not_installed o1 o2 o3).
  - rewrite passes_shift, Hp. simpl snd.
    apply IH.
    + specialize (Hbefore 0%nat ltac:(lia)).
      change (Spec.passes sh 0 tr) with tr in Hbefore.
      rewrite Hbefore in Hpass. by destruct (not_installed o1 o2 o3).
    + lia.
    + rewrite passes_shift, Hp in Hok. done.
    + intros m Hm. specialize (Hbefore (S m) ltac:(lia)).
      rewrite passes_shift, Hp in Hbefore. done.
Qed.

(** Without an acknowledged pass the loop keeps turning. *)
Lemma install_loop_none_ok fuel sh : forall c1 c2 c3 tr,
  not_installed c1 c2 c3 = true ->
  (forall m, (m < fuel)%nat -> Spec.pass_ok sh (Spec.passes sh m tr) = false) ->
  install_loop fuel sh c1 c2 c3 tr = Spinning (Spec.passes sh fuel tr).
Proof.
  induction fuel as [|fuel IH]; intros c1 c2 c3 tr Hnot Hnone;
    [simpl; by rewrite Hnot|].
  rewrite install_loop_S, Hnot.
  destruct (install_pass sh tr) as [[[o1 o2] o3] tr1] eqn:Hp.
  destruct (pass_ok_not_installed _ _ _ _ _ _ Hp) as [Hpass _].
  rewrite passes_shift, Hp. simpl snd. apply IH.
  - specialize (Hnone 0%nat ltac:(lia)).
    change (Spec.passes sh 0 tr) with tr in Hnone.
    rewrite Hnone in Hpass. by destruct (not_installed o1 o2 o3).
  - intros m Hm. specialize (Hnone (S m) ltac:(lia)).
    rewrite passes_shift, Hp in Hnone. done.
Qed.

Lemma first_true_or_none (ok : nat -> bool) (fuel : nat) :
  (exists n, (n < fuel)%nat /\ ok n = true /\
             forall m, (m < n)%nat -> ok m = false) \/
  (forall m, (m < fuel)%nat -> ok m = false).
Proof.
  induction fuel as [|fuel [IH|IH]].
  - right. intros m Hm. lia.
  - left. destruct IH as (n & Hn & Hok & Hbefore). exists n. split; [lia|done].
  - destruct (ok fuel) eqn:Hfuel.
    + left. exists fuel. split; [lia|]. split; [done|]. intros m Hm. by apply IH.
    + right. intros m Hm. destruct (decide (m = fuel)) as [->|Hne]; [done|].
      apply IH. lia.
Qed.

Lemma mediator_wait_extends fuel sh : forall tr,
  exists l, trace_of (mediator_wait fuel sh tr) = tr ++ l /\ Forall no_launch l.
Proof.
  induction fuel as [|fuel IH]; intros tr; simpl.
  - exists []. by rewrite app_nil_r.
  - case_decide.
    + destruct (IH (tr ++ [("cat /rt_mediator_init_succ",
                            sh tr "cat /rt_mediator_init_succ")]))
        as (l & Hl & Hno).
      eexists. rewrite Hl, <- app_assoc. split; [done|].
      constructor; [reflexivity | done].
    + eexists. split; [done|]. repeat constructor.
Qed.

Lemma mediator_cmd_is_launch debug r :
  Spec.is_mediator_launch (mediator_cmd debug r) = true.
Proof. by destruct debug. Qed.

Lemma agent_cmd_no_launch debug r :
  Spec.is_mediator_launch (agent_cmd debug r) = false.
Proof. by destruct debug. Qed.

(** Where the first launch stands in a history that has one. *)
Lemma first_launch_position (A B pre post : trace) (m c : string * string) :
  Forall no_launch A -> Forall no_launch B ->
  Spec.is_mediator_launch (fst c) = true ->
  pre ++ c :: post = A ++ m :: B -> pre = A.
Proof.
  intros HA HB Hc. revert pre. induction HA as [|a A Ha HA IH]; intros pre Heq.
  - destruct pre as [|x pre]; [done|]. simpl in Heq. injection Heq as -> Heq.
    rewrite Forall_forall in HB.
    assert (c ∈ B) as Hin by (rewrite <- Heq, elem_of_app, elem_of_cons; auto).
    apply HB in Hin. congruence.
  - destruct pre as [|x pre]; simpl in Heq; injection Heq as -> Heq.
    + congruence.
    + f_equal. by apply IH.
Qed.

Lemma no_launch_in (L pre post : trace) (c : string * string) :
  Forall no_launch L -> Spec.is_mediator_launch (fst c) = true ->
  pre ++ c :: post = L -> False.
Proof.
  intros HL Hc Heq. rewrite Forall_forall in HL.
  assert (c ∈ L) as Hin by (rewrite <- Heq, elem_of_app, elem_of_cons; auto).
  apply HL in Hin. congruence.
Qed.

(** What the agents add to the history: the launch of the mediator, if one
    is configured, and after it nothing that launches it. *)
Lemma start_agents_trace debug fuel sh r tr :
  exists B, Forall no_launch B /\
    match rt_mediator r with
    | Some _ =>
        exists o, trace_of (start_agents debug fuel sh r tr)
                  = tr ++ (mediator_cmd debug r, o) :: B
    | None => trace_of (start_agents debug fuel sh r tr) = tr ++ B
    end.
Proof.
  unfold start_agents. destruct (rt_mediator r) as [path|].
  - unfold cmd at 1.
    set (tr1 := tr ++ [(mediator_cmd debug r, sh tr (mediator_cmd debug r))]).
    destruct (mediator_wait_extends fuel sh tr1) as (l & Hl & Hno).
    destruct (mediator_wait fuel sh tr1) as [tr2|tr2]; simpl in Hl; subst tr2.
    + destruct (switch_agent r); simpl.
      * exists (l ++ [(agent_cmd debug r, sh (tr1 ++ l) (agent_cmd debug r))]).
        split.
        { apply Forall_app. split; [done|]. constructor; [|constructor].
          apply agent_cmd_no_launch. }
        eexists. unfold tr1. rewrite <- !app_assoc. reflexivity.
      * exists l. split; [done|]. eexists. unfold tr1.
        rewrite <- !app_assoc. reflexivity.
    + exists l. split; [done|]. eexists. simpl. unfold tr1.
      rewrite <- !app_assoc. reflexivity.
  - destruct (switch_agent r); simpl.
    + eexists. split; [|reflexivity]. constructor; [|constructor].
      apply agent_cmd_no_launch.
    + exists []. split; [constructor|]. by rewrite app_nil_r.
Qed.

(** C8: in the history of [start], whether the sequence has come to its end
    or is still in one of its loops, a launch of the route mediator stands
    right after a pass of the three installations whose outputs all hold
    ["RuntimeCmd"]; the loop turns, three installations a turn, until the
    first such pass and is left after it, whatever else the outputs say; as
    long as there is none it keeps turning and nothing else is run. *)
Theorem start_mediator_after_acknowledged_pass (debug : bool) (fuel : nat)
    (sh : shell) (r : DockerP4Router.t) (fs fs' : files) (tr : trace)
    (out : run) :
  start debug fuel sh r fs tr = Some (fs', out) ->
  (forall pre c o post,
     trace_of out = tr ++ pre ++ (c, o) :: post ->
     Spec.is_mediator_launch c = true ->
     exists pre' o1 o2 o3,
       pre = pre' ++ [(Startup_cmd, o1); (Subnet_cmd, o2); (ACL_cmd, o3)] /\
       str_in "RuntimeCmd" o1 = true /\ str_in "RuntimeCmd" o2 = true /\
       str_in "RuntimeCmd" o3 = true) /\
  (forall n, (n < fuel)%nat ->
     Spec.pass_ok sh (Spec.passes sh n tr) = true ->
     (forall m, (m < n)%nat -> Spec.pass_ok sh (Spec.passes sh m tr) = false) ->
     exists rest,
       trace_of out = Spec.passes sh (S n) tr ++ rest /\
       (is_Some (rt_mediator r) ->
        exists o rest', rest = (mediator_cmd debug r, o) :: rest')) /\
  ((forall m, (m < fuel)%nat -> Spec.pass_ok sh (Spec.passes sh m tr) = false) ->
   out = Spinning (Spec.passes sh fuel tr)) /\
  (forall n, exists o1 o2 o3,
     Spec.passes sh (S n) tr
     = Spec.passes sh n tr
       ++ [(Startup_cmd, o1); (Subnet_cmd, o2); (ACL_cmd, o3)] /\
     Spec.pass_ok sh (Spec.passes sh n tr)
     = str_in "RuntimeCmd" o1 && str_in "RuntimeCmd" o2
       && str_in "RuntimeCmd" o3).
Proof.
  intros Hstart. unfold start in Hstart.
  apply bind_Some in Hstart as (fs1 & _ & Hstart).
  apply bind_Some in Hstart as (fs2 & _ & Hstart).
  injection Hstart as _ <-.
  assert (not_installed "init" "init" "init" = true) as Hinit by reflexivity.
  split; [|split; [|split]].
  - intros pre c o post Htrace Hc.
    destruct (first_true_or_none
                (fun n => Spec.pass_ok sh (Spec.passes sh n tr)) fuel)
      as [(n & Hn & Hok & Hbefore)|Hnone].
    + rewrite (install_loop_first_ok fuel sh _ _ _ tr n Hinit Hn Hok Hbefore)
        in Htrace.
      destruct (passes_S_trace sh n tr) as (o1 & o2 & o3 & Hp & Hack).
      destruct (passes_extends sh n tr) as (l & Hl & Hno).
      destruct (start_agents_trace debug fuel sh r (Spec.passes sh (S n) tr))
        as (B & HB & Hagents).
      rewrite Hok in Hack. symmetry in Hack.
      apply andb_true_iff in Hack as [Hack Hack3].
      apply andb_true_iff in Hack as [Hack1 Hack2].
      destruct (rt_mediator r) as [path|].
      * destruct Hagents as [o' Hagents].
        rewrite Hagents, Hp, Hl, <- !app_assoc in Htrace.
        apply app_inv_head in Htrace.
        rewrite app_assoc in Htrace. symmetry in Htrace.
        apply first_launch_position in Htrace; [| |exact HB|exact Hc].
        { exists l, o1, o2, o3. done. }
        apply Forall_app. split; [done|]. repeat constructor.
      * rewrite Hagents, Hp, Hl, <- !app_assoc in Htrace.
        apply app_inv_head in Htrace. symmetry in Htrace.
        exfalso. eapply (no_launch_in _ pre post (c, o)); [|exact Hc|exact Htrace].
        apply Forall_app. split; [done|].
        apply Forall_app. split; [repeat constructor | done].
    + rewrite (install_loop_none_ok fuel sh _ _ _ tr Hinit Hnone) in Htrace.
      destruct (passes_extends sh fuel tr) as (l & Hl & Hno).
      simpl in Htrace. rewrite Hl in Htrace. apply app_inv_head in Htrace.
      symmetry in Htrace. exfalso.
      eapply (no_launch_in _ pre post (c, o)); [exact Hno|exact Hc|exact Htrace].
  - intros n Hn Hok Hbefore.
    rewrite (install_loop_first_ok fuel sh _ _ _ tr n Hinit Hn Hok Hbefore).
    destruct (start_agents_trace debug fuel sh r (Spec.passes sh (S n) tr))
      as (B & HB & Hagents).
    destruct (rt_mediator r) as [path|].
    + destruct Hagents as [o Hagents]. eexists. split; [exact Hagents|].
      intros _. eauto.
    + exists B. split; [done|]. intros [? ?]; done.
  - intros Hnone. by rewrite (install_loop_none_ok fuel sh _ _ _ tr Hinit Hnone).
  - intros n. apply passes_S_trace.
Qed.

(** A router with a mediator whose forwarding engine is not ready during the
    first turn of the installation loop. *)
Lemma start_mediator_after_acknowledged_pass_witness :
  let r := setAdminConfig (VStr "10.0.0.254") (VInt 9000)
             (init "r1" 1 "frr" (Some "rt_mediator.py") None) in
  let sh := Spec.shell_sample in
  exists fs' out,
    start false 5 sh r ∅ [] = Some (fs', out) /\
    out = Done
      [(Startup_cmd, "Error: could not connect to thrift server");
       (Subnet_cmd, "Error: could not connect to thrift server");
       (ACL_cmd, "Error: could not connect to thrift server");
       (Startup_cmd, "Obtaining JSON from switch... Done RuntimeCmd: ");
       (Subnet_cmd, "Obtaining JSON from switch... Done RuntimeCmd: ");
       (ACL_cmd, "Obtaining JSON from switch... Done RuntimeCmd: ");
       (mediator_cmd false r, "");
       ("cat /rt_mediator_init_succ", "1")] /\
    (forall pre c o post,
       trace_of out = [] ++ pre ++ (c, o) :: post ->
       Spec.is_mediator_launch c = true ->
       exists pre' o1 o2 o3,
         pre = pre' ++ [(Startup_cmd, o1); (Subnet_cmd, o2); (ACL_cmd, o3)] /\
         str_in "RuntimeCmd" o1 = true /\ str_in "RuntimeCmd" o2 = true /\
         str_in "RuntimeCmd" o3 = true) /\
    exists rest,
      trace_of out = Spec.passes sh 2 [] ++ rest /\
      exists o rest', rest = (mediator_cmd false r, o) :: rest'.
Proof.
  intros r sh. do 2 eexists.
  split; [vm_compute; reflexivity|].
  split; [vm_compute; reflexivity|].
  destruct (start_mediator_after_acknowledged_pass false 5 sh r ∅
              _ [] _ ltac:(vm_compute; reflexivity))
    as (Hsafe & Hturns & _ & _).
  split; [exact Hsafe|].
  destruct (Hturns 1%nat) as (rest & Hrest & Hlaunch).
  - lia.
  - vm_compute. reflexivity.
  - intros m Hm. assert (m = 0%nat) as -> by lia. vm_compute. reflexivity.
  - exists rest. split; [exact Hrest|]. apply Hlaunch. vm_compute. eauto.
Defined.
End StartFacts.

(** ** More on dictionaries *)
Section PyDictMore.
Context {K V : Type} `{EqDecision K}.
Implicit Types (d : PyDict.t K V) (k : K) (v : V).

Lemma del_set_fresh d k v :
  PyDict.get k d = None -> PyDict.del k (PyDict.set k v d) = d.
Proof.
  induction d as [|[k0 v0] d IH]; simpl.
  - by rewrite decide_True.
  - destruct (decide (k0 = k)); [done|]. intros Hd. simpl.
    rewrite decide_False by done. by rewrite IH.
Qed.

Lemma get_del_ne d k k' :
  k <> k' -> PyDict.get k' (PyDict.del k d) = PyDict.get k' d.
Proof.
  intros Hne. induction d as [|[k0 v0] d IH]; simpl; [done|].
  destruct (decide (k0 = k)) as [->|Hk0]; simpl.
  - by rewrite decide_False.
  - by rewrite IH.
Qed.

Lemma get_del_eq d k :
  NoDup (PyDict.keys d) -> PyDict.get k (PyDict.del k d) = None.
Proof.
  unfold PyDict.keys. induction d as [|[k0 v0] d IH]; simpl; [done|].
  intros Hnd. apply NoDup_cons in Hnd as [Hk0 Hnd].
  destruct (decide (k0 = k)) as [->|Hne]; simpl.
  - by apply get_None_keys.
  - rewrite decide_False by done. by apply IH.
Qed.

Lemma get_is_Some_keys d k : is_Some (PyDict.get k d) <-> k ∈ PyDict.keys d.
Proof.
  destruct (PyDict.get k d) as [v|] eqn:Hget.
  - split; [intros _|by eauto].
    destruct (decide (k ∈ PyDict.keys d)) as [|Hn]; [done|].
    apply get_None_keys in Hn. congruence.
  - split; [by intros [? ?]|]. intros Hin. by apply get_None_keys in Hget.
Qed.

Lemma get_set_is_Some d k k' v :
  is_Some (PyDict.get k' d) -> is_Some (PyDict.get k' (PyDict.set k v d)).
Proof.
  intros Hs. destruct (decide (k = k')) as [->|Hne].
  - rewrite get_set_eq. eauto.
  - by rewrite get_set_ne.
Qed.

Lemma elem_of_set d k v x :
  x ∈ PyDict.set k v d -> x = (k, v) \/ x ∈ d.
Proof.
  induction d as [|[k0 v0] d IH]; simpl.
  - intros Hx%list_elem_of_singleton. by left.
  - destruct (decide (k0 = k)) as [->|Hne]; rewrite !elem_of_cons.
    + intros [->|Hx]; [by left | right; by right].
    + intros [->|Hx]; [right; by left|].
      destruct (IH Hx) as [->|?]; [by left | right; by right].
Qed.

Lemma elem_of_del d k x : x ∈ PyDict.del k d -> x ∈ d.
Proof.
  induction d as [|[k0 v0] d IH]; simpl; [done|].
  destruct (decide (k0 = k)); rewrite ?elem_of_cons; [by right|].
  intros [->|Hx]; [by left | right; by apply IH].
Qed.

Lemma elem_of_get d k v : (k, v) ∈ d -> is_Some (PyDict.get k d).
Proof.
  intros Hin. apply get_is_Some_keys. unfold PyDict.keys.
  apply list_elem_of_fmap. by exists (k, v).
Qed.

Lemma keys_set_fresh d k v :
  PyDict.get k d = None -> PyDict.keys (PyDict.set k v d) = PyDict.keys d ++ [k].
Proof.
  intros Hd. rewrite (set_fresh _ _ _ Hd). unfold PyDict.keys.
  by rewrite map_app.
Qed.

Lemma NoDup_keys_set d k v :
  NoDup (PyDict.keys d) -> NoDup (PyDict.keys (PyDict.set k v d)).
Proof.
  intros Hnd. destruct (PyDict.get k d) as [v0|] eqn:Hget.
  - rewrite keys_set_present by eauto. done.
  - rewrite keys_set_fresh by done. apply NoDup_app. split; [done|].
    split; [|apply NoDup_singleton].
    intros x Hx Hk%list_elem_of_singleton. subst x.
    by apply get_None_keys in Hget.
Qed.

(** Reading every key of a dictionary, in the order of its keys, gives its
    values. *)
Lemma mapM_get_keys d :
  NoDup (PyDict.keys d) ->
  mapM (fun k => PyDict.get k d) (PyDict.keys d) = Some (PyDict.values d).
Proof.
  unfold PyDict.keys, PyDict.values.
  induction d as [|[k0 v0] d IH]; intros Hnd; [done|].
  simpl in Hnd. apply NoDup_cons in Hnd as [Hk0 Hnd].
  change (mapM (fun k => PyDict.get k ((k0, v0) :: d)) (map fst ((k0, v0) :: d)))
    with (x ← PyDict.get k0 ((k0, v0) :: d);
          k ← mapM (fun k => PyDict.get k ((k0, v0) :: d)) (map fst d);
          Some (x :: k)).
  change (PyDict.get k0 ((k0, v0) :: d))
    with (if decide (k0 = k0) then Some v0 else PyDict.get k0 d).
  rewrite decide_True by done. simpl.
  rewrite (Forall_mapM_ext _ (fun k => PyDict.get k d)).
  - rewrite (IH Hnd). done.
  - apply Forall_forall. intros k Hk. simpl. rewrite decide_False; [done|].
    intros ->. done.
Qed.
End PyDictMore.

(** ** The registry: removal and lookups *)
Section RegistryLookups.
Import Node.

(** X1: removing an interface right after adding it restores the registry,
    provided the interface, its name and the port it is given were not in
    use; so the port of a removed interface is handed out again. *)
Theorem addIntf_delIntf_round_trip (n : Node.t) (i : Intf) (port : option Z) :
  PyDict.get (intf_id i) (ports n) = None ->
  PyDict.get (intf_name i) (nameToIntf n) = None ->
  PyDict.get (default (newPort n) port) (intfs n) = None ->
  delIntf i (addIntf i port n) = Some n.
Proof.
  intros Hid Hname Hport.
  unfold delIntf, addIntf; simpl.
  replace (match port with Some p => p | None => newPort n end)
    with (default (newPort n) port) by (by destruct port).
  rewrite !get_set_eq. simpl.
  rewrite !del_set_fresh by done. by destruct n.
Qed.

Lemma addIntf_delIntf_round_trip_witness :
  let n := addIntf (mkIntf 1 "r1-eth0") None (Node.init 0) in
  let i := mkIntf 2 "r1-eth1" in
  delIntf i (addIntf i None n) = Some n.
Proof.
  intros n i. apply (addIntf_delIntf_round_trip n i None); reflexivity.
Defined.

Lemma py_min_lower vs : forall v,
  py_min v vs <= v /\ Forall (fun x => py_min v vs <= x) vs.
Proof.
  unfold py_min. induction vs as [|w vs IH]; intros v; simpl.
  - split; [lia | constructor].
  - destruct (IH (Z.min v w)) as [H1 H2]. split; [lia|].
    constructor; [lia | done].
Qed.

Lemma py_min_elem vs : forall v, py_min v vs ∈ v :: vs.
Proof.
  unfold py_min. induction vs as [|w vs IH]; intros v; simpl.
  - apply list_elem_of_here.
  - specialize (IH (Z.min v w)). apply elem_of_cons in IH as [IH|IH].
    + rewrite IH. destruct (Z.min_spec v w) as [[_ ->]|[_ ->]].
      * apply list_elem_of_here.
      * apply list_elem_of_further, list_elem_of_here.
    + by do 2 apply list_elem_of_further.
Qed.

(** X2: [defaultIntf] returns [None] on a node without interfaces and
    otherwise the interface registered under the lowest port. *)
Theorem defaultIntf_lowest_port (n : Node.t) :
  match PyDict.keys (intfs n) with
  | [] => defaultIntf n = None
  | ks => exists p i, p ∈ ks /\ Forall (fun q => p <= q) ks /\
                      PyDict.get p (intfs n) = Some i /\
                      defaultIntf n = Some i
  end.
Proof.
  unfold defaultIntf. destruct (PyDict.keys (intfs n)) as [|p ps] eqn:Hkeys;
    [done|].
  pose proof (py_min_elem ps p) as Hin.
  destruct (py_min_lower ps p) as [Hp Hps].
  assert (is_Some (PyDict.get (py_min p ps) (intfs n))) as [i Hi].
  { apply get_is_Some_keys. by rewrite Hkeys. }
  exists (py_min p ps), i. split; [done|]. split; [by constructor|]. done.
Qed.

Lemma addIntfs_intfs l : forall n,
  Forall (fun q => q < newPort n) (PyDict.keys (intfs n)) ->
  intfs (fst (addIntfs l n))
  = intfs n
    ++ combine (map (fun k => newPort n + Z.of_nat k) (seq 0 (length l))) l.
Proof.
  induction l as [|i l IH]; intros n Hbelow; simpl.
  - by rewrite app_nil_r.
  - assert (PyDict.get (newPort n) (intfs n) = None) as Hfresh.
    { apply get_None_keys. intros Hin. rewrite Forall_forall in Hbelow.
      apply Hbelow in Hin. lia. }
    specialize (IH (addIntf i None n)).
    destruct (addIntfs l (addIntf i None n)) as [n2 ps] eqn:Hrun. simpl in *.
    rewrite IH.
    + rewrite newPort_addIntf.
      change (intfs (addIntf i None n))
        with (PyDict.set (newPort n) i (intfs n)).
      rewrite (set_fresh _ _ _ Hfresh), <- app_assoc, Z.add_0_r. simpl.
      do 2 f_equal. rewrite <- seq_shift, map_map. f_equal.
      apply map_ext. intros k. lia.
    + rewrite newPort_addIntf.
      change (intfs (addIntf i None n))
        with (PyDict.set (newPort n) i (intfs n)).
      rewrite (keys_set_fresh _ _ _ Hfresh). apply Forall_app. split.
      * eapply Forall_impl; [exact Hbelow|]. simpl. intros q Hq. lia.
      * constructor; [lia | constructor].
Qed.

Lemma combine_keys_values (ps : list Z) (l : list Intf) :
  length ps = length l ->
  PyDict.keys (combine ps l) = ps /\ PyDict.values (combine ps l) = l.
Proof.
  unfold PyDict.keys, PyDict.values. revert l.
  induction ps as [|p ps IH]; intros [|i l] Hlen; simplify_eq/=; [done|].
  destruct (IH l Hlen) as [-> ->]. done.
Qed.

(** X3: [intfList] never raises; it lists the registered interfaces by
    ascending port number, one for every port; on a fresh node filled by
    [addIntf] calls without port that is the order of the calls. *)
Theorem intfList_by_port (n : Node.t) (base : Z) (added : list Intf) :
  (exists ps l,
     intfList n = Some l /\ Sorted Z.le ps /\ ps ≡ₚ PyDict.keys (intfs n) /\
     Forall2 (fun p i => PyDict.get p (intfs n) = Some i) ps l) /\
  intfList (fst (addIntfs added (Node.init base))) = Some added.
Proof.
  split.
  - set (ps := merge_sort Z.le (PyDict.keys (intfs n))).
    assert (ps ≡ₚ PyDict.keys (intfs n)) as Hperm
      by apply merge_sort_Permutation.
    assert (is_Some (intfList n)) as [l Hl].
    { apply mapM_is_Some_2, Forall_forall. intros p Hp. simpl.
      apply get_is_Some_keys. by rewrite <- Hperm. }
    exists ps, l. split; [done|]. split; [apply Sorted_merge_sort, _|].
    split; [done|]. by apply mapM_Some_1 in Hl.
  - unfold intfList. rewrite addIntfs_intfs by constructor.
    change (intfs (Node.init base)) with (@nil (Z * Intf)).
    rewrite app_nil_l.
    set (ps := map (fun k => newPort (Node.init base) + Z.of_nat k)
                   (seq 0 (length added))).
    destruct (combine_keys_values ps added) as [Hkeys Hvalues].
    { unfold ps. by rewrite length_map, length_seq. }
    pose proof (consecutive_sorted (newPort (Node.init base)) (length added) 0)
      as Hsorted. fold ps in Hsorted.
    assert (merge_sort Z.le ps = ps) as Hsame.
    { apply (Sorted_unique Z.le).
      - apply Sorted_merge_sort, _.
      - apply StronglySorted_Sorted. clear -Hsorted.
        induction Hsorted as [|x xs Hs IH Hall]; constructor; [done|].
        eapply Forall_impl; [exact Hall|]. simpl. intros; lia.
      - apply merge_sort_Permutation. }
    rewrite Hkeys, Hsame.
    pose proof (mapM_get_keys (combine ps added)) as Hread.
    rewrite Hkeys, Hvalues in Hread. apply Hread.
    clear -Hsorted. induction Hsorted as [|x xs Hs IH Hall]; constructor; [|done].
    intros Hx. rewrite Forall_forall in Hall. apply Hall in Hx. lia.
Qed.

Lemma addIntfs_nameToIntf_other l : forall n name,
  name ∉ map intf_name l ->
  PyDict.get name (nameToIntf (fst (addIntfs l n)))
  = PyDict.get name (nameToIntf n).
Proof.
  induction l as [|a l IH]; intros n name Hname; simpl; [done|].
  simpl in Hname. apply not_elem_of_cons in Hname as [Hne Hname].
  specialize (IH (addIntf a None n) name Hname).
  destruct (addIntfs l (addIntf a None n)) as [n2 ps]. simpl in *.
  rewrite IH. unfold addIntf; simpl. by rewrite get_set_ne.
Qed.

(** X4: after a run of [addIntf] calls for interfaces of pairwise different
    names, [intf( name )] finds each of them by its name, and raises a
    [KeyError] for a name that is not empty and not registered. *)
Theorem intf_by_name (n : Node.t) (l : list Intf) (i : Intf)
    (unknown : string) :
  NoDup (map intf_name l) ->
  i ∈ l ->
  intf_name i <> "" ->
  unknown <> "" ->
  PyDict.get unknown (nameToIntf (fst (addIntfs l n))) = None ->
  intf (ArgName (intf_name i)) (fst (addIntfs l n)) = Some (Some i) /\
  intf (ArgName unknown) (fst (addIntfs l n)) = None.
Proof.
  intros Hnd Hin Hname Hunknown Hnone. split.
  - unfold intf. rewrite decide_False by done.
    assert (PyDict.get (intf_name i) (nameToIntf (fst (addIntfs l n)))
            = Some i) as ->; [|done].
    clear Hnone. revert n. induction l as [|a l IH]; intros n.
    + by apply elem_of_nil in Hin.
    + simpl in Hnd. apply NoDup_cons in Hnd as [Ha Hnd]. simpl.
      pose proof (addIntfs_nameToIntf_other l (addIntf a None n)) as Hother.
      specialize (IH Hnd).
      destruct (addIntfs l (addIntf a None n)) as [n2 ps] eqn:Hrun.
      simpl in *. apply elem_of_cons in Hin as [->|Hin].
      * rewrite Hother by done. unfold addIntf; simpl. apply get_set_eq.
      * specialize (IH Hin (addIntf a None n)). by rewrite Hrun in IH.
  - unfold intf. rewrite decide_False by done. by rewrite Hnone.
Qed.

Lemma intf_by_name_witness :
  let a := mkIntf 1 "r1-eth0" in
  let b := mkIntf 2 "r1-eth1" in
  let n := fst (addIntfs [a; b] (Node.init 0)) in
  intf (ArgName "r1-eth1") n = Some (Some b) /\
  intf (ArgName "r1-eth7") n = None.
Proof.
  intros a b n.
  apply (intf_by_name (Node.init 0) [a; b] b "r1-eth7");
    try done; try reflexivity.
  - apply NoDup_cons. split; [|apply NoDup_singleton].
    intros Hin%list_elem_of_singleton. discriminate.
  - apply list_elem_of_further, list_elem_of_here.
Defined.

(** X5: when two registered interfaces carry the same name, removing one
    of them takes the name away, and removing the other one then raises the
    [KeyError] of [del self.nameToIntf[ intf.name ]]. *)
Theorem delIntf_shared_name (n : Node.t) (a b : Intf) (pa pb : Z) :
  NoDup (PyDict.keys (nameToIntf n)) ->
  intf_id a <> intf_id b ->
  intf_name a = intf_name b ->
  PyDict.get (intf_id a) (ports n) = Some pa ->
  PyDict.get (intf_id b) (ports n) = Some pb ->
  pa <> pb ->
  is_Some (PyDict.get pa (intfs n)) ->
  is_Some (PyDict.get pb (intfs n)) ->
  is_Some (PyDict.get (intf_name a) (nameToIntf n)) ->
  exists n1, delIntf a n = Some n1 /\ delIntf b n1 = None.
Proof.
  intros Hnd Hid Hname Ha Hb Hp [ia Hia] [ib Hib] [j Hj].
  unfold delIntf at 1. rewrite Ha, Hia, Hj. simpl.
  eexists. split; [done|].
  unfold delIntf. simpl.
  rewrite (get_del_ne _ (intf_id a) (intf_id b)), Hb by done.
  rewrite (get_del_ne _ pa pb), Hib by done. simpl.
  rewrite <- Hname, get_del_eq by done. done.
Qed.

Lemma delIntf_shared_name_witness :
  let a := mkIntf 1 "eth0" in
  let b := mkIntf 2 "eth0" in
  let n := addIntf b None (addIntf a None (Node.init 0)) in
  exists n1, delIntf a n = Some n1 /\ delIntf b n1 = None.
Proof.
  intros a b n.
  apply (delIntf_shared_name n a b 0 1); try reflexivity;
    try (simpl; lia); try (vm_compute; eauto).
  apply NoDup_singleton.
Defined.
End RegistryLookups.

(** ** VRFs, VNIs and bridge domains: what the calls do and when they fail *)
Section OverlayFacts.
Import DockerRouter.

Lemma set_set {K V : Type} `{EqDecision K} (d : PyDict.t K V) k v1 v2 :
  PyDict.set k v2 (PyDict.set k v1 d) = PyDict.set k v2 d.
Proof.
  induction d as [|[k0 v0] d IH]; simpl.
  - by rewrite decide_True.
  - destruct (decide (k0 = k)) as [->|Hne]; simpl.
    + by rewrite decide_True.
    + rewrite decide_False by done. by rewrite IH.
Qed.

(** [attachIntfToL2VNI], read by read. *)
Lemma attachIntfToL2VNI_closed intfName vni brname d :
  attachIntfToL2VNI intfName vni brname d
  = (intf ← PyDict.get intfName (Node.nameToIntf (node d));
     brIntf ← PyDict.get (default (default_brname vni) brname)
                (Node.nameToIntf (node d));
     bdi ← a_bdi (attrsOf brIntf d);
     members ← PyDict.get bdi (bdIntfDict d);
     Some (with_bdIntfDict (PyDict.set bdi (members ++ [intf]) (bdIntfDict d))
             (setBDI intf (Some bdi)
                (setVRF intf (a_vrf (attrsOf brIntf d)) d)))).
Proof.
  unfold attachIntfToL2VNI.
  destruct (PyDict.get intfName _) as [intf|]; [|done]. simpl.
  destruct (PyDict.get (default _ brname) _) as [brIntf|]; [|done]. simpl.
  assert (a_bdi (attrsOf brIntf
            (setBDI intf
               (a_bdi (attrsOf brIntf (setVRF intf (a_vrf (attrsOf brIntf d)) d)))
               (setVRF intf (a_vrf (attrsOf brIntf d)) d)))
          = a_bdi (attrsOf brIntf d)) as Hsame.
  { rewrite bdi_setBDI, !bdi_setVRF. by case_decide. }
  rewrite Hsame, bdi_setVRF.
  destruct (a_bdi (attrsOf brIntf d)) as [bdi|]; [|done]. done.
Qed.

End OverlayFacts.

Section OverlayCalls.
Import DockerRouter.

Lemma setAttrs_setAttrs i a b r : setAttrs i b (setAttrs i a r) = setAttrs i b r.
Proof.
  unfold setAttrs, with_attrs. destruct r. simpl. by rewrite insert_insert_eq.
Qed.

Lemma attrsOf_setAttrs_same i a r : attrsOf i (setAttrs i a r) = a.
Proof. rewrite attrsOf_setAttrs. by rewrite decide_True. Qed.

(** The four setters that [addL2VNI] calls on the bridge, together. *)
Lemma setters_compose i mac ip vrf bdi r :
  setBDI i bdi (setVRF i vrf (setIP i ip (setMAC i mac r)))
  = setAttrs i (mkAttrs (Some mac) (Some ip) vrf bdi) r.
Proof.
  unfold setMAC.
  unfold setIP. rewrite attrsOf_setAttrs_same, setAttrs_setAttrs.
  unfold setVRF. rewrite attrsOf_setAttrs_same, setAttrs_setAttrs.
  unfold setBDI. rewrite attrsOf_setAttrs_same, setAttrs_setAttrs.
  reflexivity.
Qed.

Lemma Intf_new_closed oid br d :
  Intf_new oid br d
  = Some (mkIntf oid br,
          with_effIntfs (PyDict.set br (Node.newPort (node d)) (effIntfs d))
            (with_node (Node.addIntf (mkIntf oid br) None) d)).
Proof.
  unfold Intf_new, addIntf.
  change (PyDict.get (intf_id (mkIntf oid br))
            (Node.ports (node (with_node (Node.addIntf (mkIntf oid br) None) d))))
    with (PyDict.get oid (PyDict.set oid (Node.newPort (node d))
                            (Node.ports (node d)))).
  rewrite get_set_eq. reflexivity.
Qed.

(** [DockerRouter.addL2VNI], in one piece. *)
Lemma addL2VNI_closed ipToMac oid vni brip brname vrf d :
  addL2VNI ipToMac oid vni brip brname vrf d
  = let br := default (default_brname vni) brname in
    let p := Node.newPort (node d) in
    '(l3, l2s) ← PyDict.get vrf (vrfVniDict d);
    Some (mk (Node.addIntf (mkIntf oid br) None (node d)) (name d) (software d)
            (loopbackIP d)
            (<[oid := mkAttrs (Some (ipToMac brip)) (Some brip) vrf (Some vni)]>
               (attrs d))
            (daemonConfigs d) (generalConfig d) (vrfDict d) (tableVrfDict d)
            (PyDict.set vrf (l3, l2s ++ [vni]) (vrfVniDict d))
            (PyDict.set vni [] (bdIntfDict d))
            (PyDict.set br p (effIntfs d))).
Proof.
  unfold addL2VNI. cbv zeta.
  generalize (default (default_brname vni) brname). intros br.
  rewrite Intf_new_closed.
  remember (with_effIntfs _ _) as r0 eqn:Hr0.
  cbn [mbind option_bind].
  rewrite setters_compose.
  change (vrfVniDict (setAttrs (mkIntf oid br)
            (mkAttrs (Some (ipToMac brip)) (Some brip) vrf (Some vni)) r0))
    with (vrfVniDict r0).
  assert (vrfVniDict r0 = vrfVniDict d) as -> by (by subst r0).
  destruct (PyDict.get vrf (vrfVniDict d)) as [[l3 l2s]|]; [|done].
  cbn [mbind option_bind].
  change (attrsOf (mkIntf oid br) (with_vrfVniDict ?x ?r))
    with (attrsOf (mkIntf oid br) r).
  rewrite attrsOf_setAttrs_same. cbn [a_bdi mbind option_bind].
  subst r0. destruct d. reflexivity.
Qed.

(** [DockerP4Router.addL2VNI], in one piece. *)
Lemma P4_addL2VNI_closed ipToMac oid vni brip brname vrf r :
  DockerP4Router.addL2VNI ipToMac oid vni brip brname vrf r
  = let d := DockerP4Router.router r in
    let br := default (default_brname vni) brname in
    let p := Node.newPort (node d) in
    '(l3, l2s) ← PyDict.get vrf (vrfVniDict d);
    Some (DockerP4Router.set_router
            (mk (Node.addIntf (mkIntf oid br) None (node d)) (name d)
               (software d) (loopbackIP d)
               (<[oid := mkAttrs (Some (ipToMac brip)) (Some brip) vrf (Some vni)]>
                  (attrs d))
               (daemonConfigs d) (generalConfig d) (vrfDict d) (tableVrfDict d)
               (PyDict.set vrf (l3, l2s ++ [vni]) (vrfVniDict d))
               (PyDict.set vni [] (bdIntfDict d))
               (PyDict.del br (PyDict.set br p (effIntfs d)))) r).
Proof.
  unfold DockerP4Router.addL2VNI. cbv zeta.
  rewrite addL2VNI_closed. cbv zeta.
  change (default (default_brname vni)
            (Some (default (default_brname vni) brname)))
    with (default (default_brname vni) brname).
  generalize (default (default_brname vni) brname). intros br.
  destruct (PyDict.get vrf (vrfVniDict (DockerP4Router.router r)))
    as [[l3 l2s]|]; [|done].
  cbn [mbind option_bind effIntfs]. rewrite get_set_eq. reflexivity.
Qed.

Lemma addL3VNI_closed vni vrf d :
  addL3VNI vni vrf d
  = ('(l3, l2s) ← PyDict.get vrf (vrfVniDict d);
     Some (with_vrfVniDict (PyDict.set vrf (Some vni, l2s) (vrfVniDict d)) d)).
Proof.
  unfold addL3VNI. by destruct (PyDict.get vrf (vrfVniDict d)) as [[l3 l2s]|].
Qed.

(** X6: [addL2VNI] and [addL3VNI] go through exactly when the VRF they name
    has an entry in [vrfVniDict], and raise a [KeyError] otherwise; after
    [addVRF] of that name both go through. *)
Theorem overlay_calls_need_registered_vrf (ipToMac : string -> string)
    (oid : nat) (vni tableId : Z) (brip : string) (brname : option string)
    (vrf : string) (r : DockerP4Router.t) :
  (is_Some (DockerP4Router.addL2VNI ipToMac oid vni brip brname vrf r)
   <-> is_Some (PyDict.get vrf (vrfVniDict (DockerP4Router.router r)))) /\
  (is_Some (DockerP4Router.addL3VNI vni vrf r)
   <-> is_Some (PyDict.get vrf (vrfVniDict (DockerP4Router.router r)))) /\
  is_Some (DockerP4Router.addL2VNI ipToMac oid vni brip brname vrf
             (DockerP4Router.addVRF vrf tableId r)) /\
  is_Some (DockerP4Router.addL3VNI vni vrf
             (DockerP4Router.addVRF vrf tableId r)).
Proof.
  assert (forall r0,
            is_Some (DockerP4Router.addL2VNI ipToMac oid vni brip brname vrf r0)
            <-> is_Some (PyDict.get vrf (vrfVniDict (DockerP4Router.router r0))))
    as HL2.
  { intros r0. rewrite P4_addL2VNI_closed. cbv zeta.
    destruct (PyDict.get vrf _) as [[l3 l2s]|]; simpl.
    - split; eauto.
    - split; intros [? ?]; done. }
  assert (forall r0,
            is_Some (DockerP4Router.addL3VNI vni vrf r0)
            <-> is_Some (PyDict.get vrf (vrfVniDict (DockerP4Router.router r0))))
    as HL3.
  { intros r0. unfold DockerP4Router.addL3VNI. rewrite addL3VNI_closed.
    destruct (PyDict.get vrf _) as [[l3 l2s]|]; simpl.
    - split; eauto.
    - split; intros [? ?]; done. }
  split; [apply HL2|]. split; [apply HL3|].
  assert (is_Some (PyDict.get vrf (vrfVniDict (DockerP4Router.router
            (DockerP4Router.addVRF vrf tableId r))))) as Hreg.
  { simpl. rewrite get_set_eq. eauto. }
  split; [by apply HL2 | by apply HL3].
Qed.

(** X7: the bridge that [addL2VNI] creates takes the next port number and
    can be found by its name, but it is no effective interface: the
    effective interfaces and the interface-to-port file are as before, and
    the next automatic port is one higher. *)
Theorem addL2VNI_bridge_not_effective (ipToMac : string -> string) (oid : nat)
    (vni : Z) (brip : string) (brname : option string) (vrf : string)
    (r r' : DockerP4Router.t) :
  let br := default (default_brname vni) brname in
  let d := DockerP4Router.router r in
  let d' := DockerP4Router.router r' in
  DockerP4Router.addL2VNI ipToMac oid vni brip brname vrf r = Some r' ->
  PyDict.get br (effIntfs d) = None ->
  effIntfs d' = effIntfs d /\
  DockerP4Router.IntfPortDict_lines r' = DockerP4Router.IntfPortDict_lines r /\
  PyDict.get oid (Node.ports (node d')) = Some (Node.newPort (node d)) /\
  PyDict.get br (Node.nameToIntf (node d')) = Some (mkIntf oid br) /\
  Node.newPort (node d') = Node.newPort (node d) + 1.
Proof.
  intros br d d' Hrun Hfresh. subst d'.
  rewrite P4_addL2VNI_closed in Hrun. cbv zeta in Hrun. fold br d in Hrun.
  destruct (PyDict.get vrf (vrfVniDict d)) as [[l3 l2s]|]; [|done].
  injection Hrun as <-.
  assert (PyDict.del br (PyDict.set br (Node.newPort (node d)) (effIntfs d))
          = effIntfs d) as Heff by (by apply del_set_fresh).
  split; [exact Heff|].
  split; [unfold DockerP4Router.IntfPortDict_lines; simpl; by rewrite Heff|].
  split; [apply get_set_eq|]. split; [apply get_set_eq|].
  apply newPort_addIntf.
Qed.

Lemma addL2VNI_bridge_not_effective_witness :
  exists r r',
    DockerP4Router.addIntf (mkIntf 1 "r1-eth0") None
      (DockerP4Router.init "r1" 1 "frr" None None) = Some r /\
    DockerP4Router.addL2VNI Spec.ipToMac_sample 2 100 "10.0.1.1" None
      "default" r = Some r' /\
    effIntfs (DockerP4Router.router r') = [("r1-eth0", 0)] /\
    DockerP4Router.IntfPortDict_lines r' = DockerP4Router.IntfPortDict_lines r /\
    PyDict.get 2%nat (Node.ports (node (DockerP4Router.router r'))) = Some 1 /\
    PyDict.get "br100" (Node.nameToIntf (node (DockerP4Router.router r')))
    = Some (mkIntf 2 "br100") /\
    Node.newPort (node (DockerP4Router.router r')) = 1 + 1.
Proof.
  do 2 eexists. split; [vm_compute; reflexivity|].
  split; [vm_compute; reflexivity|].
  match goal with
  | |- context [DockerP4Router.IntfPortDict_lines ?b
                = DockerP4Router.IntfPortDict_lines ?a] =>
      exact (addL2VNI_bridge_not_effective Spec.ipToMac_sample 2 100
               "10.0.1.1" None "default" a b eq_refl eq_refl)
  end.
Defined.

(** X8: [addL2VNI] for a VNI whose bridge domain already has members
    empties the membership list, while the members keep their BDI tag and
    the VNI is entered once more in the VRF's list. *)
Theorem addL2VNI_again_resets_membership (ipToMac : string -> string)
    (oid : nat) (vni : Z) (brip : string) (brname : option string)
    (vrf : string) (r r' : DockerP4Router.t) (i : Intf) :
  let d := DockerP4Router.router r in
  let d' := DockerP4Router.router r' in
  DockerP4Router.addL2VNI ipToMac oid vni brip brname vrf r = Some r' ->
  Spec.member i vni d ->
  intf_id i <> oid ->
  PyDict.get vni (bdIntfDict d') = Some [] /\
  ~ Spec.member i vni d' /\
  a_bdi (attrsOf i d') = a_bdi (attrsOf i d) /\
  exists l3 l2s,
    PyDict.get vrf (vrfVniDict d) = Some (l3, l2s) /\
    PyDict.get vrf (vrfVniDict d') = Some (l3, l2s ++ [vni]).
Proof.
  intros d d' Hrun Hmember Hid. subst d'.
  rewrite P4_addL2VNI_closed in Hrun. cbv zeta in Hrun. fold d in Hrun.
  destruct (PyDict.get vrf (vrfVniDict d)) as [[l3 l2s]|] eqn:Hvrf; [|done].
  injection Hrun as <-. simpl.
  split; [apply get_set_eq|]. split.
  - intros (members & Hget & Hin). simpl in Hget. rewrite get_set_eq in Hget.
    injection Hget as <-. by apply elem_of_nil in Hin.
  - split.
    + unfold attrsOf. simpl. by rewrite lookup_insert_ne.
    + exists l3, l2s. split; [done|]. apply get_set_eq.
Qed.

Lemma addL2VNI_again_resets_membership_witness :
  let i := mkIntf 1 "r1-eth0" in
  exists r r',
    (r0 ← DockerP4Router.addIntf i None
            (DockerP4Router.init "r1" 1 "frr" None None);
     r1 ← DockerP4Router.addL2VNI Spec.ipToMac_sample 2 100 "10.0.1.1" None
            "default" r0;
     DockerP4Router.attachIntfToL2VNI "r1-eth0" 100 None r1) = Some r /\
    DockerP4Router.addL2VNI Spec.ipToMac_sample 3 100 "10.0.1.1" None
      "default" r = Some r' /\
    PyDict.get 100 (bdIntfDict (DockerP4Router.router r')) = Some [] /\
    ~ Spec.member i 100 (DockerP4Router.router r') /\
    a_bdi (attrsOf i (DockerP4Router.router r')) = Some 100 /\
    exists l3 l2s,
      PyDict.get "default" (vrfVniDict (DockerP4Router.router r))
      = Some (l3, l2s) /\
      PyDict.get "default" (vrfVniDict (DockerP4Router.router r'))
      = Some (l3, l2s ++ [100]).
Proof.
  intros i. do 2 eexists. split; [vm_compute; reflexivity|].
  split; [vm_compute; reflexivity|].
  match goal with
  | |- context [PyDict.get "default" (vrfVniDict (DockerP4Router.router ?a))
                = Some (_, _) /\ 
                PyDict.get "default" (vrfVniDict (DockerP4Router.router ?b))
                = _] =>
      refine (addL2VNI_again_resets_membership Spec.ipToMac_sample 3 100
                "10.0.1.1" None "default" a b i eq_refl _ _)
  end.
  - exists [i]. split; [reflexivity | apply list_elem_of_here].
  - simpl. lia.
Defined.

(** X9: a second [addL3VNI] for a VRF replaces the first: the VRF holds the
    L3 VNI written last, as if the first call had not been made, and keeps
    its L2 VNIs and its place among the VRFs. *)
Theorem addL3VNI_last_write_wins (d : DockerRouter.t) (vrf : string)
    (v1 v2 : Z) (l3 : option Z) (l2s : list Z) :
  PyDict.get vrf (vrfVniDict d) = Some (l3, l2s) ->
  exists d1 d2,
    addL3VNI v1 vrf d = Some d1 /\
    addL3VNI v2 vrf d1 = Some d2 /\
    addL3VNI v2 vrf d = Some d2 /\
    PyDict.get vrf (vrfVniDict d2) = Some (Some v2, l2s) /\
    PyDict.keys (vrfVniDict d2) = PyDict.keys (vrfVniDict d).
Proof.
  intros Hvrf. rewrite !addL3VNI_closed, Hvrf. simpl.
  eexists _, _. split; [done|].
  rewrite addL3VNI_closed. simpl. rewrite get_set_eq. simpl.
  rewrite set_set. split; [done|]. split; [done|].
  split; [apply get_set_eq|]. apply keys_set_present. eauto.
Qed.

Lemma addL3VNI_last_write_wins_witness :
  let d := DockerRouter.init "r1" 1 "frr" in
  exists d1 d2,
    addL3VNI 5000 "default" d = Some d1 /\
    addL3VNI 6000 "default" d1 = Some d2 /\
    addL3VNI 6000 "default" d = Some d2 /\
    PyDict.get "default" (vrfVniDict d2) = Some (Some 6000, []) /\
    PyDict.keys (vrfVniDict d2) = PyDict.keys (vrfVniDict d).
Proof.
  intros d. apply (addL3VNI_last_write_wins d "default" 5000 6000 None []).
  reflexivity.
Defined.

(** X10: [attachIntfToL2VNI] goes through exactly when the interface name
    and the bridge name are registered and the bridge carries a BDI that has
    a membership list; otherwise it raises a [KeyError]. *)
Theorem attachIntfToL2VNI_succeeds_iff (intfName : string) (vni : Z)
    (brname : option string) (d : DockerRouter.t) :
  is_Some (attachIntfToL2VNI intfName vni brname d) <->
  exists i br bdi,
    PyDict.get intfName (Node.nameToIntf (node d)) = Some i /\
    PyDict.get (default (default_brname vni) brname)
      (Node.nameToIntf (node d)) = Some br /\
    a_bdi (attrsOf br d) = Some bdi /\
    is_Some (PyDict.get bdi (bdIntfDict d)).
Proof.
  rewrite attachIntfToL2VNI_closed.
  generalize (default (default_brname vni) brname). intros brn.
  destruct (PyDict.get intfName _) as [i|] eqn:Hi; simpl.
  2: { split; [intros [? ?]; done | intros (? & ? & ? & ? & _); done]. }
  destruct (PyDict.get brn _) as [br|] eqn:Hbr; simpl.
  2: { split; [intros [? ?]; done | intros (? & ? & ? & _ & ? & _); done]. }
  destruct (a_bdi (attrsOf br d)) as [bdi|] eqn:Hbdi; simpl.
  2: { split; [intros [? ?]; done|].
       intros (? & ? & ? & _ & [= <-] & ? & _). congruence. }
  destruct (PyDict.get bdi (bdIntfDict d)) as [members|] eqn:Hm; simpl.
  - split; [|eauto]. intros _. exists i, br, bdi. rewrite Hm. eauto.
  - split; [intros [? ?]; done|].
    intros (? & ? & ? & _ & [= <-] & Hb & [? Hs]). congruence.
Qed.
End OverlayCalls.

(** ** Routers built by a script *)
Section BuildFacts.
Import DockerRouter.

Lemma get_Some_elem_of {K V : Type} `{EqDecision K} (d : PyDict.t K V) k v :
  PyDict.get k d = Some v -> (k, v) ∈ d.
Proof.
  induction d as [|[k0 v0] d IH]; simpl; [done|].
  destruct (decide (k0 = k)) as [->|Hne].
  - intros [= ->]. apply list_elem_of_here.
  - intros Hget. apply list_elem_of_further. by apply IH.
Qed.

Lemma addIntf_closed intf port d :
  addIntf intf port d
  = Some (with_effIntfs
            (PyDict.set (intf_name intf)
               (default (Node.newPort (node d)) port) (effIntfs d))
            (with_node (Node.addIntf intf port) d)).
Proof.
  unfold addIntf.
  change (PyDict.get (intf_id intf)
            (Node.ports (node (with_node (Node.addIntf intf port) d))))
    with (PyDict.get (intf_id intf)
            (PyDict.set (intf_id intf)
               (match port with None => Node.newPort (node d) | Some p => p end)
               (Node.ports (node d)))).
  rewrite get_set_eq. by destruct port.
Qed.

Lemma consistent_init name idx software med agent :
  Build.consistent (DockerP4Router.init name idx software med agent).
Proof.
  unfold Build.consistent. simpl. repeat split.
  - intros n p Hin. by apply elem_of_nil in Hin.
  - intros n i Hget. done.
  - intros bdi members i Hin. by apply elem_of_nil in Hin.
  - intros i. unfold attrsOf. simpl. rewrite lookup_empty. simpl. eauto.
  - intros v [x Hx]. simpl in *. by destruct (decide ("default" = v)); eauto.
Qed.

Lemma consistent_addIntf intf port r r' :
  Build.consistent r ->
  DockerP4Router.addIntf intf port r = Some r' -> Build.consistent r'.
Proof.
  intros (I1 & I2 & I3 & I4 & I5) Hrun.
  unfold DockerP4Router.addIntf in Hrun. rewrite addIntf_closed in Hrun.
  injection Hrun as <-. unfold Build.consistent.
  set (d := DockerP4Router.router r) in *.
  change (DockerP4Router.router (DockerP4Router.set_router ?x r)) with x.
  cbv zeta. split; [|split; [|split; [|split]]].
  - intros n p Hin. simpl in Hin. simpl.
    apply elem_of_set in Hin as [[= -> ->]|Hin].
    + destruct port; simpl; rewrite get_set_eq; eauto.
    + apply get_set_is_Some. eauto.
  - intros n i Hget. simpl in Hget. simpl.
    apply get_set_Some_inv in Hget as [[_ ->]|[_ Hget]].
    + rewrite get_set_eq. eauto.
    + apply get_set_is_Some. eauto.
  - intros bdi members i Hin Hi. simpl in Hin. simpl.
    apply get_set_is_Some. eauto.
  - intros i. apply (I4 i).
  - intros v Hv. apply (I5 v Hv).
Qed.

Lemma consistent_addVRF name tableId r :
  Build.consistent r -> Build.consistent (DockerP4Router.addVRF name tableId r).
Proof.
  intros (I1 & I2 & I3 & I4 & I5). unfold Build.consistent.
  split; [exact I1|]. split; [exact I2|]. split; [exact I3|]. split.
  - intros i. simpl. apply get_set_is_Some. apply (I4 i).
  - intros v Hv. simpl in *. destruct (decide (name = v)) as [->|Hne].
    + rewrite get_set_eq. eauto.
    + rewrite get_set_ne in Hv by done. apply get_set_is_Some. eauto.
Qed.

Lemma consistent_addL2VNI ipToMac oid vni brip brname vrf r r' :
  Build.consistent r ->
  DockerP4Router.addL2VNI ipToMac oid vni brip brname vrf r = Some r' ->
  Build.consistent r'.
Proof.
  intros (I1 & I2 & I3 & I4 & I5) Hrun.
  rewrite P4_addL2VNI_closed in Hrun. cbv zeta in Hrun.
  revert Hrun. generalize (default (default_brname vni) brname). intros br Hrun.
  set (d := DockerP4Router.router r) in *.
  destruct (PyDict.get vrf (vrfVniDict d)) as [[l3 l2s]|] eqn:Hvrf; [|done].
  injection Hrun as <-. unfold Build.consistent.
  change (DockerP4Router.router (DockerP4Router.set_router ?x r)) with x.
  cbv zeta. split; [|split; [|split; [|split]]].
  - intros n p Hin. simpl in Hin. simpl.
    apply elem_of_del, elem_of_set in Hin as [[= -> ->]|Hin].
    + rewrite get_set_eq. eauto.
    + apply get_set_is_Some. eauto.
  - intros n i Hget. simpl in Hget. simpl.
    apply get_set_Some_inv in Hget as [[_ ->]|[_ Hget]].
    + simpl. rewrite get_set_eq. eauto.
    + apply get_set_is_Some. eauto.
  - intros bdi members i Hin Hi. simpl in Hin. simpl.
    apply elem_of_set in Hin as [[= -> ->]|Hin].
    + by apply elem_of_nil in Hi.
    + apply get_set_is_Some. eauto.
  - intros i. unfold attrsOf. simpl.
    destruct (decide (oid = intf_id i)) as [->|Hne].
    + rewrite lookup_insert_eq. simpl. apply I5. rewrite Hvrf. eauto.
    + rewrite lookup_insert_ne by done. apply (I4 i).
  - intros v Hv. simpl in *. destruct (decide (vrf = v)) as [<-|Hne].
    + apply I5. rewrite Hvrf. eauto.
    + rewrite get_set_ne in Hv by done. eauto.
Qed.

Lemma consistent_addL3VNI vni vrf r r' :
  Build.consistent r ->
  DockerP4Router.addL3VNI vni vrf r = Some r' -> Build.consistent r'.
Proof.
  intros (I1 & I2 & I3 & I4 & I5) Hrun.
  unfold DockerP4Router.addL3VNI in Hrun. rewrite addL3VNI_closed in Hrun.
  set (d := DockerP4Router.router r) in *.
  destruct (PyDict.get vrf (vrfVniDict d)) as [[l3 l2s]|] eqn:Hvrf; [|done].
  injection Hrun as <-. unfold Build.consistent.
  split; [exact I1|]. split; [exact I2|]. split; [exact I3|].
  split; [exact I4|].
  intros v Hv. simpl in *. destruct (decide (vrf = v)) as [<-|Hne].
  - apply I5. rewrite Hvrf. eauto.
  - rewrite get_set_ne in Hv by done. eauto.
Qed.

Lemma consistent_attach intfName vni brname r r' :
  Build.consistent r ->
  DockerP4Router.attachIntfToL2VNI intfName vni brname r = Some r' ->
  Build.consistent r'.
Proof.
  intros (I1 & I2 & I3 & I4 & I5) Hrun.
  unfold DockerP4Router.attachIntfToL2VNI in Hrun.
  rewrite attachIntfToL2VNI_closed in Hrun.
  revert Hrun. generalize (default (default_brname vni) brname). intros brn Hrun.
  set (d := DockerP4Router.router r) in *.
  destruct (PyDict.get intfName _) as [intf|] eqn:Hintf; [|done].
  destruct (PyDict.get brn _) as [br|] eqn:Hbr; [|done].
  simpl in Hrun.
  destruct (a_bdi (attrsOf br d)) as [bdi|] eqn:Hbdi; [|done].
  simpl in Hrun.
  destruct (PyDict.get bdi (bdIntfDict d)) as [members|] eqn:Hm; [|done].
  injection Hrun as <-. unfold Build.consistent.
  change (DockerP4Router.router (DockerP4Router.set_router ?x r)) with x.
  cbv zeta. split; [exact I1|]. split; [exact I2|]. split; [|split].
  - intros b ms i Hin Hi.
    change (is_Some (PyDict.get (intf_id i) (Node.ports (node d)))).
    change ((b, ms) ∈ PyDict.set bdi (members ++ [intf]) (bdIntfDict d)) in Hin.
    apply elem_of_set in Hin as [[= -> ->]|Hin]; [|eauto].
    apply elem_of_app in Hi as [Hi|Hi%list_elem_of_singleton].
    + apply (I3 bdi members i); [|done]. by apply get_Some_elem_of.
    + subst i. eauto.
  - intros i.
    change (is_Some (PyDict.get
              (a_vrf (attrsOf i (setBDI intf (Some bdi)
                                   (setVRF intf (a_vrf (attrsOf br d)) d))))
              (vrfDict d))).
    rewrite vrf_setBDI, vrf_setVRF. case_decide; [apply (I4 br) | apply (I4 i)].
  - exact I5.
Qed.

Lemma consistent_step ipToMac o r r' :
  Build.consistent r -> Build.step ipToMac o r = Some r' -> Build.consistent r'.
Proof.
  intros Hc Hstep. destruct o; simpl in Hstep.
  - by eapply consistent_addIntf.
  - injection Hstep as <-. by apply consistent_addVRF.
  - by eapply consistent_addL2VNI.
  - by eapply consistent_addL3VNI.
  - by eapply consistent_attach.
  - by injection Hstep as <-.
  - apply bind_Some in Hstep as (d & Hd & [= <-]).
    unfold addRoutingConfig in Hd.
    destruct (bool_decide _ && bool_decide _).
    + apply bind_Some in Hd as (p & _ & Hd).
      apply bind_Some in Hd as (ls & _ & [= <-]). exact Hc.
    + injection Hd as <-. exact Hc.
Qed.

Lemma consistent_run ipToMac ops : forall r r',
  Build.consistent r -> Build.run ipToMac ops r = Some r' -> Build.consistent r'.
Proof.
  induction ops as [|o ops IH]; intros r r' Hc Hrun; simpl in Hrun.
  - by injection Hrun as <-.
  - apply bind_Some in Hrun as (r1 & Hstep & Hrun).
    eapply IH; [|exact Hrun]. by eapply consistent_step.
Qed.

Lemma port_list_is_Some ports members : forall acc,
  (forall i, i ∈ members -> is_Some (PyDict.get (intf_id i) ports)) ->
  is_Some (DockerP4Router.port_list ports members acc).
Proof.
  induction members as [|i members IH]; intros acc Hall; simpl; [eauto|].
  destruct (Hall i) as [p Hp]; [apply list_elem_of_here|].
  rewrite Hp. simpl. apply IH. intros j Hj. apply Hall.
  by apply list_elem_of_further.
Qed.

Lemma consistent_startup r :
  Build.consistent r ->
  Spec.provisionable (DockerP4Router.router r) /\
  is_Some (DockerP4Router.Startup_lines r).
Proof.
  intros (I1 & I2 & I3 & I4 & I5).
  assert (Spec.provisionable (DockerP4Router.router r)) as Hprov.
  { intros n p Hin. destruct (I1 n p Hin) as [i Hi]. exists i.
    split; [done|]. apply I4. }
  split; [done|].
  destruct (port_sections_written r Hprov)
    as (smt & svrf & sbd & Hsmt & Hsvrf & Hsbd & _).
  assert (is_Some (DockerP4Router.EMCAST_lines r)) as [em Hem].
  { unfold DockerP4Router.EMCAST_lines.
    assert (is_Some (mapM (fun '(bdi, members) =>
                             DockerP4Router.EMCAST_entry r bdi members)
                       (PyDict.items (bdIntfDict (DockerP4Router.router r)))))
      as [ll Hll].
    { apply mapM_is_Some_2, Forall_forall. intros [bdi members] Hin. simpl.
      unfold DockerP4Router.EMCAST_entry.
      destruct (port_list_is_Some
                  (Node.ports (node (DockerP4Router.router r))) members "")
        as [pl Hpl]; [by eauto|].
      rewrite Hpl. simpl. eauto. }
    rewrite Hll. simpl. eauto. }
  unfold DockerP4Router.Startup_lines. rewrite Hsmt, Hsvrf, Hsbd, Hem.
  simpl. eauto.
Qed.

(** X11: whatever sequence of [addIntf], [addVRF], [addL2VNI], [addL3VNI],
    [attachIntfToL2VNI], [addACLConfig] and [addRoutingConfig] calls has
    built a router without raising, the startup table can be written: none
    of the dictionary reads of [setupStartupTables] raises a [KeyError]. *)
Theorem built_router_startup_table_written (ipToMac : string -> string)
    (ops : list Build.op) (name : string) (idx : Z) (software : string)
    (med agent : option string) (r : DockerP4Router.t)
    (fs : DockerP4Router.files) :
  Build.run ipToMac ops (DockerP4Router.init name idx software med agent)
  = Some r ->
  Spec.provisionable (DockerP4Router.router r) /\
  is_Some (DockerP4Router.Startup_lines r) /\
  is_Some (DockerP4Router.setupStartupTables r fs).
Proof.
  intros Hrun.
  assert (Build.consistent r) as Hc.
  { eapply consistent_run; [apply consistent_init | exact Hrun]. }
  destruct (consistent_startup r Hc) as [Hprov [ls Hls]].
  split; [done|]. split; [by eauto|].
  rewrite setupStartupTables_written, Hls. simpl. eauto.
Qed.

Lemma built_router_startup_table_written_witness :
  exists r,
    Build.run Spec.ipToMac_sample
      [Build.AddIntf (mkIntf 1 "r1-eth0") None;
       Build.AddVRF "red" 10;
       Build.AddL2VNI 2 100 "10.0.1.1" None "red";
       Build.AddIntf (mkIntf 3 "r1-eth1") (Some 7);
       Build.AttachIntfToL2VNI "r1-eth1" 100 None;
       Build.AddL3VNI 5000 "red";
       Build.AddACLConfig (VStr "10.0.0.1") VNone (VInt 6) (VInt 80) VNone]
      (DockerP4Router.init "r1" 1 "frr" None None) = Some r /\
    Spec.provisionable (DockerP4Router.router r) /\
    is_Some (DockerP4Router.Startup_lines r) /\
    is_Some (DockerP4Router.setupStartupTables r ∅).
Proof.
  eexists. split; [vm_compute; reflexivity|].
  match goal with
  | |- context [DockerP4Router.Startup_lines ?a] =>
      exact (built_router_startup_table_written Spec.ipToMac_sample
               [Build.AddIntf (mkIntf 1 "r1-eth0") None;
                Build.AddVRF "red" 10;
                Build.AddL2VNI 2 100 "10.0.1.1" None "red";
                Build.AddIntf (mkIntf 3 "r1-eth1") (Some 7);
                Build.AttachIntfToL2VNI "r1-eth1" 100 None;
                Build.AddL3VNI 5000 "red";
                Build.AddACLConfig (VStr "10.0.0.1") VNone (VInt 6) (VInt 80)
                  VNone]
               "r1" 1 "frr" None None a ∅ eq_refl)
  end.
Defined.
End BuildFacts.

(** ** Access-control entries that cannot be written *)
Section ACLRaises.
Import DockerP4Router.

Lemma join_space_is_Some entry :
  is_Some (join_space entry) <-> Forall (fun v => exists s, v = VStr s) entry.
Proof.
  induction entry as [|v rest IH]; [simpl; split; eauto|].
  destruct v as [|s|n].
  - split; [intros [x Hx]; done|].
    intros Hall. inversion Hall as [|?? [s Hs]]. done.
  - destruct rest as [|v' rest].
    + simpl. split; [|by eauto].
      intros _. constructor; [by eauto | constructor].
    + change (join_space (VStr s :: v' :: rest))
        with (tl ← join_space (v' :: rest); Some (s +:+ " " +:+ tl)).
      split.
      * intros [x Hx]. apply bind_Some in Hx as (tl & Htl & _).
        constructor; [by eauto|]. apply IH. by eauto.
      * intros Hall. inversion Hall as [|?? _ Hrest]. subst.
        apply IH in Hrest as [tl Htl]. rewrite Htl. simpl. eauto.
  - split; [intros [x Hx]; done|].
    intros Hall. inversion Hall as [|?? [s Hs]]. done.
Qed.

Lemma masked_str v mask : exists s, masked v mask = VStr s.
Proof. destruct v; simpl; eauto. Qed.

Lemma acl_entry_strings dst src proto dp sp :
  Forall (fun v => exists s, v = VStr s) (acl_entry dst src proto dp sp)
  <-> (forall n, dst <> VInt n) /\ (forall n, src <> VInt n).
Proof.
  split.
  - intros Hall. split; intros n ->.
    + assert (acl_entry (VInt n) src proto dp sp !! 0%nat = Some (VInt n))
        as Hl by (unfold acl_entry; repeat case_decide; done).
      destruct (Forall_lookup_1 _ _ _ _ Hall Hl) as [s Hs]. done.
    + assert (acl_entry dst (VInt n) proto dp sp !! 1%nat = Some (VInt n))
        as Hl by (unfold acl_entry; repeat case_decide; done).
      destruct (Forall_lookup_1 _ _ _ _ Hall Hl) as [s Hs]. done.
  - intros [Hdst Hsrc].
    assert (dst <> VNone -> exists s, dst = VStr s) as Hd.
    { destruct dst as [|s|n]; [done | by eauto | by destruct (Hdst n)]. }
    assert (src <> VNone -> exists s, src = VStr s) as Hs.
    { destruct src as [|s|n]; [done | by eauto | by destruct (Hsrc n)]. }
    unfold acl_entry. cbv zeta.
    repeat case_decide;
      repeat (apply Forall_insert; [|by (apply masked_str || auto)]);
      apply Forall_replicate; unfold wildcard; eauto.
Qed.

Lemma ACL_lines_is_Some r :
  is_Some (ACL_lines r)
  <-> Forall (fun entry => is_Some (join_space entry)) (aclConfig r).
Proof.
  unfold ACL_lines. rewrite mapM_is_Some. apply Forall_iff. intros entry.
  simpl. split.
  - intros [x Hx]. apply bind_Some in Hx as (s & Hs & _). eauto.
  - intros [s Hs]. rewrite Hs. simpl. eauto.
Qed.

(** X12: an entry of [addACLConfig] whose destination or source address is
    an integer makes [setupACL] raise; every other entry is written,
    whatever the protocol and the ports are. *)
Theorem setupACL_raises_on_integer_address (r : DockerP4Router.t)
    (dst src proto dp sp : pyval) (fs : files) :
  is_Some (setupACL (addACLConfig dst src proto dp sp r) fs)
  <-> is_Some (setupACL r fs)
      /\ (forall n, dst <> VInt n) /\ (forall n, src <> VInt n).
Proof.
  assert (forall r', is_Some (setupACL r' fs) <-> is_Some (ACL_lines r')) as Hs.
  { intros r'. unfold setupACL. split.
    - intros [x Hx]. apply bind_Some in Hx as (ls & Hls & _). eauto.
    - intros [ls Hls]. rewrite Hls. simpl. eauto. }
  rewrite !Hs, !ACL_lines_is_Some.
  change (aclConfig (addACLConfig dst src proto dp sp r))
    with (aclConfig r ++ [acl_entry dst src proto dp sp]).
  rewrite Forall_app, Forall_singleton, join_space_is_Some, acl_entry_strings.
  done.
Qed.

Lemma step_aclConfig ipToMac o r r' :
  Build.step ipToMac o r = Some r' ->
  aclConfig r'
  = aclConfig r
    ++ match o with
       | Build.AddACLConfig dst src proto dp sp =>
           [acl_entry dst src proto dp sp]
       | _ => []
       end.
Proof.
  intros Hstep. destruct o; simpl in Hstep.
  - apply bind_Some in Hstep as (d & _ & [= <-]). by rewrite app_nil_r.
  - injection Hstep as <-. by rewrite app_nil_r.
  - unfold addL2VNI in Hstep. cbv zeta in Hstep.
    apply bind_Some in Hstep as (d & _ & Hstep).
    apply bind_Some in Hstep as (p & _ & [= <-]). by rewrite app_nil_r.
  - apply bind_Some in Hstep as (d & _ & [= <-]). by rewrite app_nil_r.
  - apply bind_Some in Hstep as (d & _ & [= <-]). by rewrite app_nil_r.
  - by injection Hstep as <-.
  - apply bind_Some in Hstep as (d & _ & [= <-]). by rewrite app_nil_r.
Qed.

Lemma run_aclConfig ipToMac ops : forall r r',
  Build.run ipToMac ops r = Some r' ->
  forall e, e ∈ aclConfig r'
    <-> e ∈ aclConfig r
        \/ exists dst src proto dp sp,
             Build.AddACLConfig dst src proto dp sp ∈ ops
             /\ e = acl_entry dst src proto dp sp.
Proof.
  induction ops as [|o ops IH]; intros r r' Hrun e; simpl in Hrun.
  - injection Hrun as <-. split; [by left|].
    intros [H|(dst & src & proto & dp & sp & Hin & _)]; [done|].
    by apply elem_of_nil in Hin.
  - apply bind_Some in Hrun as (r1 & Hstep & Hrun).
    rewrite (IH r1 r' Hrun e), (step_aclConfig _ _ _ _ Hstep), elem_of_app.
    split.
    + intros [[H|H]|(dst & src & proto & dp & sp & Hin & ->)].
      * by left.
      * right. destruct o; try (by apply elem_of_nil in H).
        apply list_elem_of_singleton in H as ->.
        do 5 eexists. split; [apply list_elem_of_here | done].
      * right. do 5 eexists. split; [by apply list_elem_of_further | done].
    + intros [H|(dst & src & proto & dp & sp & Hin & ->)]; [by left; left|].
      apply elem_of_cons in Hin as [<-|Hin].
      * left; right. by apply list_elem_of_singleton.
      * right. do 5 eexists. eauto.
Qed.

(** X13: the part of [start] that writes and installs the tables and
    launches the agents raises, on a router built by a script, exactly when
    one of the script's [addACLConfig] calls was given an integer as
    destination or source address. *)
Theorem built_router_start_raises_iff (ipToMac : string -> string)
    (ops : list Build.op) (name : string) (idx : Z) (software : string)
    (med agent : option string) (r : DockerP4Router.t) (debug : bool)
    (fuel : nat) (sh : shell) (fs : files) (tr : trace) :
  Build.run ipToMac ops (init name idx software med agent) = Some r ->
  is_Some (start debug fuel sh r fs tr)
  <-> forall dst src proto dp sp,
        Build.AddACLConfig dst src proto dp sp ∈ ops ->
        (forall n, dst <> VInt n) /\ (forall n, src <> VInt n).
Proof.
  intros Hrun.
  assert (Build.consistent r) as Hc.
  { eapply consistent_run; [apply consistent_init | exact Hrun]. }
  destruct (consistent_startup r Hc) as [_ [ls Hls]].
  assert (is_Some (start debug fuel sh r fs tr) <-> is_Some (ACL_lines r))
    as ->.
  { unfold start. rewrite setupStartupTables_written, Hls. simpl.
    unfold setupACL. split.
    - intros [x Hx]. apply bind_Some in Hx as (f1 & Hf1 & _).
      apply bind_Some in Hf1 as (l & Hl & _). eauto.
    - intros [l Hl]. rewrite Hl. simpl. eauto. }
  rewrite ACL_lines_is_Some, Forall_forall.
  split.
  - intros Hall dst src proto dp sp Hin.
    apply (acl_entry_strings dst src proto dp sp), join_space_is_Some, Hall.
    apply (run_aclConfig _ _ _ _ Hrun). right. do 5 eexists. eauto.
  - intros Hall e He.
    apply (run_aclConfig _ _ _ _ Hrun) in He
      as [He|(dst & src & proto & dp & sp & Hin & ->)].
    + by apply elem_of_nil in He.
    + apply join_space_is_Some, acl_entry_strings. eauto.
Qed.

Lemma built_router_start_raises_iff_witness :
  exists r,
    Build.run Spec.ipToMac_sample
      [Build.AddIntf (mkIntf 1 "r1-eth0") None;
       Build.AddACLConfig (VInt 167772161) VNone (VInt 6) (VInt 80) VNone]
      (init "r1" 1 "frr" None None) = Some r /\
    (is_Some (start false 3 Spec.shell_sample r ∅ [])
     <-> forall dst src proto dp sp,
           Build.AddACLConfig dst src proto dp sp
           ∈ [Build.AddIntf (mkIntf 1 "r1-eth0") None;
              Build.AddACLConfig (VInt 167772161) VNone (VInt 6) (VInt 80)
                VNone] ->
           (forall n, dst <> VInt n) /\ (forall n, src <> VInt n)).
Proof.
  eexists. split; [vm_compute; reflexivity|].
  match goal with
  | |- context [start _ _ _ ?a _ _] =>
      exact (built_router_start_raises_iff Spec.ipToMac_sample
               [Build.AddIntf (mkIntf 1 "r1-eth0") None;
                Build.AddACLConfig (VInt 167772161) VNone (VInt 6) (VInt 80)
                  VNone]
               "r1" 1 "frr" None None a false 3 Spec.shell_sample ∅ []
               eq_refl)
  end.
Defined.
End ACLRaises.

(** ** The table files around [start] *)
Section TableFiles.
Import DockerP4Router.

(** X14: when the table part of [start] has run, none of the five table
    files is left in the working directory, and every other file there is
    as it was. *)
Theorem start_leaves_no_table_files (debug : bool) (fuel : nat) (sh : shell)
    (r : DockerP4Router.t) (fs fs' : files) (tr : trace) (out : run) :
  start debug fuel sh r fs tr = Some (fs', out) ->
  (forall f, f ∈ Props.table_files r -> fs' !! f = None) /\
  (forall p, p ∉ Props.table_files r -> fs' !! p = fs !! p).
Proof.
  unfold start. intros Hstart.
  apply bind_Some in Hstart as (fs1 & H1 & Hstart).
  apply bind_Some in Hstart as (fs2 & H2 & Hstart).
  injection Hstart as <- _.
  unfold setupStartupTables in H1. apply bind_Some in H1 as (l1 & _ & [= <-]).
  unfold setupACL in H2. apply bind_Some in H2 as (l2 & _ & [= <-]).
  unfold installTables, setupIntfTable, setupVrfTable. cbv zeta.
  change ("./Subnet-" +:+ DockerRouter.name (router r) +:+ ".txt")
    with (Subnet_file r).
  split.
  - intros f Hf. unfold Props.table_files in Hf.
    rewrite !lookup_delete_None.
    repeat (apply elem_of_cons in Hf as [->|Hf]); [by eauto 10..|].
    by apply elem_of_nil in Hf.
  - intros p Hp.
    assert (forall f, f ∈ Props.table_files r -> f <> p) as Hne
      by (intros f Hf ->; done).
    unfold Props.table_files in Hne.
    rewrite !lookup_delete_ne, !lookup_insert_ne by (apply Hne; set_solver).
    done.
Qed.

Lemma start_leaves_no_table_files_witness :
  exists fs' out,
    start false 0 Spec.shell_sample (init "r1" 1 "frr" None None)
      (<["./notes.txt" := "keep"]> ∅) [] = Some (fs', out) /\
    (forall f, f ∈ Props.table_files (init "r1" 1 "frr" None None) ->
       fs' !! f = None) /\
    (forall p, p ∉ Props.table_files (init "r1" 1 "frr" None None) ->
       fs' !! p = (<["./notes.txt" := "keep"]> ∅ : files) !! p).
Proof.
  do 2 eexists. split; [reflexivity|].
  eapply (start_leaves_no_table_files false 0 Spec.shell_sample
            (init "r1" 1 "frr" None None) (<["./notes.txt" := "keep"]> ∅)
            _ [] _).
  reflexivity.
Defined.

Lemma mapM_app_Some {A B} (f : A -> option B) l1 l2 k1 k2 :
  mapM f l1 = Some k1 -> mapM f l2 = Some k2 ->
  mapM f (l1 ++ l2) = Some (k1 ++ k2).
Proof.
  revert k1. induction l1 as [|x l1 IH]; intros k1 H1 H2; simpl in *.
  - by injection H1 as <-.
  - apply bind_Some in H1 as (y & Hy & H1).
    apply bind_Some in H1 as (k & Hk & [= <-]).
    rewrite Hy. simpl. rewrite (IH k Hk H2). done.
Qed.

Lemma Subnet_lines_Forall2 macTable DMTName DMTAction ls :
  Subnet_lines macTable DMTName DMTAction = Some ls ->
  Forall2 (fun entry line =>
             exists e0 e1 rest,
               entry = e0 :: e1 :: rest /\
               line = "table_add " +:+ DMTName +:+ " " +:+ DMTAction +:+ " "
                      +:+ fmt e0 +:+ " => " +:+ fmt e1 +:+ nl)
          macTable ls.
Proof.
  unfold Subnet_lines. intros Hls. apply mapM_Some_1 in Hls.
  eapply Forall2_impl; [exact Hls|]. intros entry line Hline. simpl in Hline.
  destruct entry as [|e0 [|e1 rest]]; try done.
  injection Hline as <-. eauto.
Qed.

(** X15: [setupSubnetTable] appends.  A call that does not raise leaves
    every other file alone and puts, after what the subnet file held
    before, one line per entry of the table, in the order of the table,
    made of the entry's first two items; so two calls leave the file as one
    call with both tables would.  The [subnet] argument plays no part. *)
Theorem setupSubnetTable_appends (macTable1 macTable2 : list (list pyval))
    (subnet1 subnet2 subnet : pyval) (DMTName DMTAction : string)
    (r : DockerP4Router.t) (fs fs1 fs2 : files) :
  let line_of := fun (entry : list pyval) (line : string) =>
    exists e0 e1 rest,
      entry = e0 :: e1 :: rest /\
      line = "table_add " +:+ DMTName +:+ " " +:+ DMTAction +:+ " "
             +:+ fmt e0 +:+ " => " +:+ fmt e1 +:+ nl in
  let before := default "" (fs !! Subnet_file r) in
  setupSubnetTable macTable1 subnet1 DMTName DMTAction r fs = Some fs1 ->
  setupSubnetTable macTable2 subnet2 DMTName DMTAction r fs1 = Some fs2 ->
  exists lines1 lines2,
    Forall2 line_of macTable1 lines1 /\
    Forall2 line_of macTable2 lines2 /\
    fs1 = <[Subnet_file r := before +:+ String.concat "" lines1]> fs /\
    fs2 = <[Subnet_file r := before +:+ String.concat "" lines1
                             +:+ String.concat "" lines2]> fs /\
    setupSubnetTable (macTable1 ++ macTable2) subnet DMTName DMTAction r fs
    = Some fs2.
Proof.
  intros line_of before. unfold setupSubnetTable. intros H1 H2.
  apply bind_Some in H1 as (l1 & Hl1 & [= <-]).
  apply bind_Some in H2 as (l2 & Hl2 & [= <-]).
  exists l1, l2.
  split; [by apply Subnet_lines_Forall2|].
  split; [by apply Subnet_lines_Forall2|].
  split; [done|].
  rewrite lookup_insert_eq, insert_insert_eq. simpl.
  rewrite str_app_assoc. split; [done|].
  unfold Subnet_lines in *. rewrite (mapM_app_Some _ _ _ _ _ Hl1 Hl2).
  simpl. by rewrite concat_nosep_app.
Qed.

Lemma setupSubnetTable_appends_witness :
  let r := init "r1" 1 "frr" None None in
  let fs : files := {[ "./Subnet-r1.txt" := "table_clear DstMac_FIB" +:+ nl ]} in
  exists fs1 fs2,
    setupSubnetTable [[VStr "10.0.0.1"; VStr "aa:00:00:00:00:01"]] VNone
      "DstMac_FIB" "set_dmac" r fs = Some fs1 /\
    setupSubnetTable [[VStr "10.0.0.2"; VStr "aa:00:00:00:00:02"; VInt 7]]
      VNone "DstMac_FIB" "set_dmac" r fs1 = Some fs2 /\
    fs2 = <["./Subnet-r1.txt" :=
              "table_clear DstMac_FIB" +:+ nl
              +:+ "table_add DstMac_FIB set_dmac 10.0.0.1 => aa:00:00:00:00:01"
              +:+ nl
              +:+ "table_add DstMac_FIB set_dmac 10.0.0.2 => aa:00:00:00:00:02"
              +:+ nl]> fs /\
    setupSubnetTable
      ([[VStr "10.0.0.1"; VStr "aa:00:00:00:00:01"]]
       ++ [[VStr "10.0.0.2"; VStr "aa:00:00:00:00:02"; VInt 7]]) (VInt 24)
      "DstMac_FIB" "set_dmac" r fs = Some fs2.
Proof.
  intros r fs. do 2 eexists.
  split; [reflexivity|]. split; [reflexivity|].
  destruct (setupSubnetTable_appends
              [[VStr "10.0.0.1"; VStr "aa:00:00:00:00:01"]]
              [[VStr "10.0.0.2"; VStr "aa:00:00:00:00:02"; VInt 7]]
              VNone VNone (VInt 24) "DstMac_FIB" "set_dmac" r fs _ _
              eq_refl eq_refl)
    as (l1 & l2 & _ & _ & _ & _ & Hboth).
  split; [|exact Hboth].
  unfold fs. rewrite insert_insert_eq. reflexivity.
Defined.
End TableFiles.

(** ** The routing daemons of a built router *)
Section DaemonFacts.
Import DockerRouter.

Lemma addRoutingConfig_daemon_keys protocol line d d' :
  addRoutingConfig protocol line d = Some d' ->
  PyDict.keys (daemonConfigs d') = PyDict.keys (daemonConfigs d).
Proof.
  unfold addRoutingConfig. intros Hrun.
  destruct (bool_decide _ && bool_decide _).
  - apply bind_Some in Hrun as (p & _ & Hrun).
    apply bind_Some in Hrun as (ls & Hls & [= <-]).
    apply keys_set_present. rewrite Hls. eauto.
  - by injection Hrun as <-.
Qed.

Lemma step_daemon_keys ipToMac o r r' :
  Build.step ipToMac o r = Some r' ->
  PyDict.keys (daemonConfigs (DockerP4Router.router r'))
  = PyDict.keys (daemonConfigs (DockerP4Router.router r)).
Proof.
  intros Hstep. destruct o; simpl in Hstep.
  - unfold DockerP4Router.addIntf in Hstep. rewrite addIntf_closed in Hstep.
    by injection Hstep as <-.
  - by injection Hstep as <-.
  - rewrite P4_addL2VNI_closed in Hstep. cbv zeta in Hstep.
    destruct (PyDict.get vrf _) as [[l3 l2s]|]; [|done].
    by injection Hstep as <-.
  - unfold DockerP4Router.addL3VNI in Hstep.
    rewrite addL3VNI_closed in Hstep.
    destruct (PyDict.get vrf _) as [[l3 l2s]|]; [|done].
    by injection Hstep as <-.
  - unfold DockerP4Router.attachIntfToL2VNI in Hstep.
    rewrite attachIntfToL2VNI_closed in Hstep.
    apply bind_Some in Hstep as (d & Hd & [= <-]).
    apply bind_Some in Hd as (intf & _ & Hd).
    apply bind_Some in Hd as (br & _ & Hd).
    apply bind_Some in Hd as (bdi & _ & Hd).
    apply bind_Some in Hd as (members & _ & [= <-]). done.
  - by injection Hstep as <-.
  - apply bind_Some in Hstep as (d & Hd & [= <-]).
    by apply addRoutingConfig_daemon_keys in Hd.
Qed.

Lemma run_daemon_keys ipToMac ops : forall r r',
  Build.run ipToMac ops r = Some r' ->
  PyDict.keys (daemonConfigs (DockerP4Router.router r'))
  = PyDict.keys (daemonConfigs (DockerP4Router.router r)).
Proof.
  induction ops as [|o ops IH]; intros r r' Hrun; simpl in Hrun.
  - by injection Hrun as <-.
  - apply bind_Some in Hrun as (r1 & Hstep & Hrun).
    rewrite (IH _ _ Hrun). by eapply step_daemon_keys.
Qed.

Lemma built_daemon_keys ipToMac ops name idx software med agent r :
  Build.run ipToMac ops (DockerP4Router.init name idx software med agent)
  = Some r ->
  PyDict.keys (daemonConfigs (DockerP4Router.router r)) = daemons.
Proof. intros Hrun. by rewrite (run_daemon_keys _ _ _ _ Hrun). Qed.

(** X16: on a router built by a script, [setupRoutingConfigIntegratedly]
    always raises: its loop unpacks the keys of [daemonConfigs], the eight
    daemon names, into two names each. *)
Theorem setupRoutingConfigIntegratedly_always_raises
    (ipToMac : string -> string) (ops : list Build.op) (name : string)
    (idx : Z) (software : string) (med agent : option string)
    (r : DockerP4Router.t) :
  Build.run ipToMac ops (DockerP4Router.init name idx software med agent)
  = Some r ->
  setupRoutingConfigIntegratedly (DockerP4Router.router r) = None.
Proof.
  intros Hrun. unfold setupRoutingConfigIntegratedly.
  by rewrite (built_daemon_keys _ _ _ _ _ _ _ _ Hrun).
Qed.

Lemma setupRoutingConfigIntegratedly_always_raises_witness :
  exists r,
    Build.run Spec.ipToMac_sample
      [Build.AddRoutingConfig (Some "bgpd") "router bgp 65001";
       Build.AddRoutingConfig None "log stdout"]
      (DockerP4Router.init "r1" 1 "frr" None None) = Some r /\
    setupRoutingConfigIntegratedly (DockerP4Router.router r) = None.
Proof.
  eexists. split; [vm_compute; reflexivity|].
  match goal with
  | |- setupRoutingConfigIntegratedly (DockerP4Router.router ?a) = None =>
      exact (setupRoutingConfigIntegratedly_always_raises Spec.ipToMac_sample
               [Build.AddRoutingConfig (Some "bgpd") "router bgp 65001";
                Build.AddRoutingConfig None "log stdout"]
               "r1" 1 "frr" None None a eq_refl)
  end.
Defined.

Lemma daemon_line_is_Some opts p :
  is_Some (daemon_line opts p) <-> exists s, PyDict.get p opts = Some (VStr s).
Proof.
  unfold daemon_line. destruct (PyDict.get p opts) as [[|s|n]|]; simpl.
  - split; [intros [x Hx]; done | intros [s Hs]; done].
  - split; eauto.
  - split; [intros [x Hx]; done | intros [s Hs]; done].
  - split; [intros [x Hx]; done | intros [s Hs]; done].
Qed.

Lemma configDaemons_is_Some opts d :
  is_Some (configDaemons opts d)
  <-> forall p, p ∈ daemons -> exists s, PyDict.get p opts = Some (VStr s).
Proof.
  unfold configDaemons.
  assert (is_Some (mapM (daemon_line opts) daemons)
          <-> forall p, p ∈ daemons ->
                exists s, PyDict.get p opts = Some (VStr s)) as <-.
  { rewrite mapM_is_Some, Forall_forall.
    split; intros H p Hp; apply daemon_line_is_Some, H, Hp. }
  split.
  - intros [x Hx]. apply bind_Some in Hx as (ls & Hls & _). eauto.
  - intros [ls Hls]. rewrite Hls. simpl. eauto.
Qed.

Lemma start_protocols_enabled opts d l :
  (forall p, p ∈ l -> is_Some (PyDict.get p opts)) ->
  (forall p, p ∈ l -> is_Some (PyDict.get p (daemonConfigs d))) ->
  exists ll,
    mapM (fun protocol =>
            v ← PyDict.get protocol opts;
            if decide (v = VStr "yes")
            then c ← setupRoutingConfigByProtocol protocol d; Some [c]
            else Some [])
         l = Some ll /\
    Forall2 (fun p c => setupRoutingConfigByProtocol p d = Some c)
      (filter (fun p => PyDict.get p opts = Some (VStr "yes")) l) (concat ll).
Proof.
  induction l as [|p l IH]; intros Hopts Hconf.
  - exists []. split; [done|]. constructor.
  - destruct IH as (ll & Hll & Hall).
    { intros q Hq. apply Hopts. by apply list_elem_of_further. }
    { intros q Hq. apply Hconf. by apply list_elem_of_further. }
    destruct (Hopts p) as [v Hv]; [apply list_elem_of_here|].
    destruct (Hconf p) as [ls Hls]; [apply list_elem_of_here|].
    change (mapM ?f (p :: l)) with (y ← f p; k ← mapM f l; Some (y :: k)).
    rewrite Hll, Hv. simpl. destruct (decide (v = VStr "yes")) as [->|Hne].
    + unfold setupRoutingConfigByProtocol at 1. rewrite Hls. simpl.
      eexists. split; [reflexivity|].
      rewrite filter_cons_True by done. simpl. constructor; [|done].
      unfold setupRoutingConfigByProtocol. by rewrite Hls.
    + eexists. split; [reflexivity|].
      rewrite filter_cons_False by congruence. done.
Qed.

Lemma daemon_lines_text opts l ls :
  mapM (daemon_line opts) l = Some ls ->
  exists ss,
    Forall2 (fun p s => PyDict.get p opts = Some (VStr s)) l ss /\
    ls = zip_with (fun p s => p +:+ "=" +:+ s +:+ "\n") l ss.
Proof.
  intros Hls. apply mapM_Some_1 in Hls.
  induction Hls as [|p line l ls Hline _ (ss & Hss & ->)].
  - exists []. split; [constructor | done].
  - unfold daemon_line in Hline.
    destruct (PyDict.get p opts) as [[|s|n]|] eqn:Hp; try done.
    injection Hline as <-. exists (s :: ss). split; [by constructor | done].
Qed.

Lemma general_text_header d :
  general_text d
  = "hostname " +:+ name d +:+ "\n" +:+ "password zebra\n\n"
    +:+ Spec.config_text (generalConfig d).
Proof.
  unfold general_text. rewrite configStr_from. by rewrite !str_app_assoc.
Qed.

Lemma start_protocols_text opts d l :
  (forall p, p ∈ l -> is_Some (PyDict.get p opts)) ->
  (forall p, p ∈ l -> is_Some (PyDict.get p (daemonConfigs d))) ->
  exists ll,
    mapM (fun protocol =>
            v ← PyDict.get protocol opts;
            if decide (v = VStr "yes")
            then c ← setupRoutingConfigByProtocol protocol d; Some [c]
            else Some [])
         l = Some ll /\
    Forall2 (fun p c =>
               exists lines,
                 PyDict.get p (daemonConfigs d) = Some lines /\
                 c = "echo -e " +:+ dq +:+ Spec.config_text lines +:+ dq
                     +:+ " > /etc/" +:+ software d +:+ "/" +:+ p +:+ ".conf")
      (filter (fun p => PyDict.get p opts = Some (VStr "yes")) l) (concat ll).
Proof.
  intros Hopts Hconf.
  destruct (start_protocols_enabled opts d l Hopts Hconf) as (ll & Hll & Hall).
  exists ll. split; [done|].
  eapply Forall2_impl; [exact Hall|]. intros p c Hc. simpl in Hc.
  unfold setupRoutingConfigByProtocol in Hc.
  apply bind_Some in Hc as (lines & Hlines & [= <-]).
  exists lines. split; [done|]. by rewrite configStr_text.
Qed.

(** X17: [DockerRouter.start] on a built router.  It raises exactly when
    the option of one of the eight daemons is missing or is not a string.
    Otherwise it sends, in this order: the commands of [Docker.start]; the
    command that writes the daemons file, with one line per daemon holding
    its option, then one line per daemon naming its configuration file; the
    command that writes the general file, with the header and the general
    lines; for every daemon whose option is [yes], in the order of the
    eight names, the command that writes its configuration file from its
    lines; and the three commands that start the routing software. *)
Theorem DockerRouter_start_enabled_daemons (ipToMac : string -> string)
    (ops : list Build.op) (name : string) (idx : Z) (software : string)
    (med agent : option string) (r : DockerP4Router.t)
    (opts : PyDict.t string pyval) :
  let d := DockerP4Router.router r in
  let sw := DockerRouter.software d in
  let names := ["zebra"; "bgpd"; "ospfd"; "ospf6d"; "ripd"; "ripngd";
                "isisd"; "bfdd"] in
  Build.run ipToMac ops (DockerP4Router.init name idx software med agent)
  = Some r ->
  (is_Some (start opts d)
   <-> forall p, p ∈ names -> exists s, PyDict.get p opts = Some (VStr s))
  /\ forall cmds, start opts d = Some cmds ->
       exists ss confs,
         Forall2 (fun p s => PyDict.get p opts = Some (VStr s)) names ss /\
         Forall2 (fun p c =>
                    exists lines,
                      PyDict.get p (daemonConfigs d) = Some lines /\
                      c = "echo -e " +:+ dq +:+ Spec.config_text lines +:+ dq
                          +:+ " > /etc/" +:+ sw +:+ "/" +:+ p +:+ ".conf")
           (filter (fun p => PyDict.get p opts = Some (VStr "yes")) names)
           confs /\
         cmds
         = ["service ssh start"]
           ++ flat_map (fun '(port, intf) =>
                          ["ethtool --offload " +:+ intf_name intf
                           +:+ " rx off";
                           "ethtool --offload " +:+ intf_name intf
                           +:+ " tx off"])
                       (PyDict.items (Node.intfs (node d)))
           ++ ["iptables -t mangle -A OUTPUT -p icmp -j TOS --set-tos 0x00"]
           ++ ["echo -e " +:+ dq
               +:+ String.concat ""
                     (zip_with (fun p s => p +:+ "=" +:+ s +:+ "\n") names ss
                      ++ map (fun p =>
                                p +:+ "_options=\" +:+ dq +:+ "-f /etc/"
                                +:+ sw +:+ "/" +:+ p +:+ ".conf\" +:+ dq
                                +:+ "\n")
                             names)
               +:+ dq +:+ " > /etc/" +:+ sw +:+ "/daemons";
               "echo -e " +:+ dq +:+ "hostname " +:+ DockerRouter.name d
               +:+ "\n" +:+ "password zebra\n\n"
               +:+ Spec.config_text (generalConfig d) +:+ dq
               +:+ " > /etc/" +:+ sw +:+ "/" +:+ sw +:+ ".conf"]
           ++ confs
           ++ ["sysctl net.ipv4.conf.all.rp_filter=0";
               "route del default";
               "/etc/init.d/" +:+ sw +:+ " start"].
Proof.
  intros d sw names Hrun.
  pose proof (built_daemon_keys _ _ _ _ _ _ _ _ Hrun) as Hkeys.
  fold d in Hkeys.
  assert (forall p, p ∈ daemons -> is_Some (PyDict.get p (daemonConfigs d)))
    as Hconf.
  { intros p Hp. apply get_is_Some_keys. by rewrite Hkeys. }
  split; [split|].
  - intros [cmds Hcmds]. unfold start in Hcmds.
    apply bind_Some in Hcmds as (c & Hc & _).
    apply (configDaemons_is_Some opts d). eauto.
  - intros Hopts.
    destruct (proj2 (configDaemons_is_Some opts d) Hopts) as [c Hc].
    destruct (start_protocols_enabled opts d daemons) as (ll & Hll & _);
      [|done|].
    { intros p Hp. destruct (Hopts p Hp) as [s Hs]. rewrite Hs. eauto. }
    unfold start, start_protocols. rewrite Hc, Hkeys, Hll. simpl. eauto.
  - intros cmds Hcmds. unfold start in Hcmds.
    apply bind_Some in Hcmds as (c & Hc & Hcmds).
    apply bind_Some in Hcmds as (confs & Hconfs & [= <-]).
    assert (forall p, p ∈ daemons -> is_Some (PyDict.get p opts)) as Hopts.
    { intros p Hp.
      destruct (proj1 (configDaemons_is_Some opts d) (ex_intro _ c Hc) p Hp)
        as [s Hs]. rewrite Hs. eauto. }
    destruct (start_protocols_text opts d daemons Hopts Hconf)
      as (ll & Hll & Hall).
    unfold start_protocols in Hconfs. rewrite Hkeys, Hll in Hconfs.
    injection Hconfs as <-.
    unfold configDaemons in Hc. apply bind_Some in Hc as (ls & Hls & [= <-]).
    destruct (daemon_lines_text opts daemons ls Hls) as (ss & Hss & ->).
    exists ss, (concat ll). split; [done|]. split; [done|].
    unfold setupGeneralConfig. rewrite general_text_header.
    unfold Docker.start. rewrite <- !app_assoc, !str_app_assoc. reflexivity.
Qed.
(** A router with one port, a line for [bgpd] and a general line, started
    with [bgpd="yes"]: the files of [zebra] and [bgpd] are written. *)
Lemma DockerRouter_start_enabled_daemons_witness :
  let opts := daemonsOptions [("bgpd", VStr "yes")] in
  exists r,
    Build.run Spec.ipToMac_sample
      [Build.AddIntf (mkIntf 1 "r1-eth0") None;
       Build.AddRoutingConfig (Some "bgpd") "router bgp 65001";
       Build.AddRoutingConfig None "log stdout"]
      (DockerP4Router.init "r1" 1 "frr" None None) = Some r /\
    start opts (DockerP4Router.router r)
    = Some
      ["service ssh start";
       "ethtool --offload r1-eth0 rx off";
       "ethtool --offload r1-eth0 tx off";
       "iptables -t mangle -A OUTPUT -p icmp -j TOS --set-tos 0x00";
       "echo -e " +:+ dq
       +:+ "zebra=yes\nbgpd=yes\nospfd=no\nospf6d=no\nripd=no\nripngd=no\nisisd=no\nbfdd=no\nzebra_options=\"
       +:+ dq +:+ "-f /etc/frr/zebra.conf\" +:+ dq +:+ "\nbgpd_options=\"
       +:+ dq +:+ "-f /etc/frr/bgpd.conf\" +:+ dq +:+ "\nospfd_options=\"
       +:+ dq +:+ "-f /etc/frr/ospfd.conf\" +:+ dq +:+ "\nospf6d_options=\"
       +:+ dq +:+ "-f /etc/frr/ospf6d.conf\" +:+ dq +:+ "\nripd_options=\"
       +:+ dq +:+ "-f /etc/frr/ripd.conf\" +:+ dq +:+ "\nripngd_options=\"
       +:+ dq +:+ "-f /etc/frr/ripngd.conf\" +:+ dq +:+ "\nisisd_options=\"
       +:+ dq +:+ "-f /etc/frr/isisd.conf\" +:+ dq +:+ "\nbfdd_options=\"
       +:+ dq +:+ "-f /etc/frr/bfdd.conf\" +:+ dq +:+ "\n" +:+ dq
       +:+ " > /etc/frr/daemons";
       "echo -e " +:+ dq +:+ "hostname r1\npassword zebra\n\nlog stdout\n"
       +:+ dq +:+ " > /etc/frr/frr.conf";
       "echo -e " +:+ dq +:+ dq +:+ " > /etc/frr/zebra.conf";
       "echo -e " +:+ dq +:+ "router bgp 65001\n" +:+ dq
       +:+ " > /etc/frr/bgpd.conf";
       "sysctl net.ipv4.conf.all.rp_filter=0";
       "route del default";
       "/etc/init.d/frr start"] /\
    (is_Some (start opts (DockerP4Router.router r))
     <-> forall p,
           p ∈ ["zebra"; "bgpd"; "ospfd"; "ospf6d"; "ripd"; "ripngd";
                "isisd"; "bfdd"] ->
           exists s, PyDict.get p opts = Some (VStr s)).
Proof.
  intros opts. eexists. split; [vm_compute; reflexivity|].
  split; [vm_compute; reflexivity|].
  match goal with
  | |- context [DockerP4Router.router ?a] =>
      exact (proj1 (DockerRouter_start_enabled_daemons Spec.ipToMac_sample
                      [Build.AddIntf (mkIntf 1 "r1-eth0") None;
                       Build.AddRoutingConfig (Some "bgpd") "router bgp 65001";
                       Build.AddRoutingConfig None "log stdout"]
                      "r1" 1 "frr" None None a opts eq_refl))
  end.
Defined.

Lemma fold_set_strings kwargs : forall d0,
  (forall k v, (k, v) ∈ kwargs -> k ∈ daemons -> exists s, v = VStr s) ->
  (forall p, p ∈ daemons -> exists s, PyDict.get p d0 = Some (VStr s)) ->
  forall p, p ∈ daemons ->
    exists s,
      PyDict.get p (fold_left (fun d '(k, v) => PyDict.set k v d) kwargs d0)
      = Some (VStr s).
Proof.
  induction kwargs as [|[k v] kwargs IH]; intros d0 Hkw Hd0 p Hp; simpl.
  - by apply Hd0.
  - apply IH; [| |done].
    + intros k' v' Hin. apply Hkw. by apply list_elem_of_further.
    + intros q Hq. destruct (decide (k = q)) as [->|Hne].
      * rewrite get_set_eq. destruct (Hkw q v) as [s ->];
          [apply list_elem_of_here | done | by eauto].
      * rewrite get_set_ne by done. by apply Hd0.
Qed.

(** X18: with the keyword arguments of the constructor merged into the
    default options, [DockerRouter.start] on a built router does not raise,
    provided every argument named after a daemon is a string; arguments of
    other names are of no account. *)
Theorem DockerRouter_start_with_kwargs (ipToMac : string -> string)
    (ops : list Build.op) (name : string) (idx : Z) (software : string)
    (med agent : option string) (r : DockerP4Router.t)
    (kwargs : PyDict.t string pyval) :
  Build.run ipToMac ops (DockerP4Router.init name idx software med agent)
  = Some r ->
  (forall k v, (k, v) ∈ kwargs -> k ∈ daemons -> exists s, v = VStr s) ->
  is_Some (start (daemonsOptions kwargs) (DockerP4Router.router r)).
Proof.
  intros Hrun Hkw.
  pose proof (built_daemon_keys _ _ _ _ _ _ _ _ Hrun) as Hkeys.
  set (d := DockerP4Router.router r) in *.
  assert (forall p, p ∈ daemons ->
            exists s, PyDict.get p (daemonsOptions kwargs) = Some (VStr s))
    as Hopts.
  { apply fold_set_strings; [done|]. intros p Hp. unfold daemons in Hp.
    repeat (apply elem_of_cons in Hp as [->|Hp]); [by eauto..|].
    by apply elem_of_nil in Hp. }
  destruct (proj2 (configDaemons_is_Some _ d) Hopts) as [c Hc].
  destruct (start_protocols_enabled (daemonsOptions kwargs) d daemons)
    as (ll & Hll & _).
  { intros p Hp. destruct (Hopts p Hp) as [s Hs]. rewrite Hs. eauto. }
  { intros p Hp. apply get_is_Some_keys. by rewrite Hkeys. }
  unfold start, start_protocols. rewrite Hc, Hkeys, Hll. simpl. eauto.
Qed.

Lemma DockerRouter_start_with_kwargs_witness :
  exists r,
    Build.run Spec.ipToMac_sample
      [Build.AddIntf (mkIntf 1 "r1-eth0") None;
       Build.AddRoutingConfig (Some "ospfd") "router ospf"]
      (DockerP4Router.init "r1" 1 "frr" None None) = Some r /\
    is_Some (start (daemonsOptions [("ospfd", VStr "yes"); ("cpu_shares", VInt 4)])
               (DockerP4Router.router r)).
Proof.
  eexists. split; [vm_compute; reflexivity|].
  match goal with
  | |- context [DockerP4Router.router ?a] =>
      refine (DockerRouter_start_with_kwargs Spec.ipToMac_sample
                [Build.AddIntf (mkIntf 1 "r1-eth0") None;
                 Build.AddRoutingConfig (Some "ospfd") "router ospf"]
                "r1" 1 "frr" None None a
                [("ospfd", VStr "yes"); ("cpu_shares", VInt 4)] eq_refl _)
  end.
  intros k v Hin Hk.
  apply elem_of_cons in Hin as [[= -> ->]|Hin]; [by eauto|].
  apply list_elem_of_singleton in Hin as [= -> ->].
  unfold daemons in Hk.
  repeat (apply elem_of_cons in Hk as [Hk|Hk]; [done|]).
  by apply elem_of_nil in Hk.
Defined.
End DaemonFacts.

(** ** The switch agent *)
Section AgentFacts.
Import DockerP4Router.

Lemma reads_only_reads sh n : forall tr,
  exists outs,
    Props.reads sh n tr
    = tr ++ map (fun o => ("cat /rt_mediator_init_succ", o)) outs /\
    length outs = n.
Proof.
  induction n as [|n IH]; intros tr; simpl.
  - exists []. by rewrite app_nil_r.
  - destruct (IH (tr ++ [("cat /rt_mediator_init_succ",
                          sh tr "cat /rt_mediator_init_succ")]))
      as (outs & Houts & Hlen).
    exists (sh tr "cat /rt_mediator_init_succ" :: outs).
    rewrite Houts, <- app_assoc. simpl. by rewrite Hlen.
Qed.

Lemma ready_S sh tr n :
  Props.ready sh tr (S n)
  = Props.ready sh (tr ++ [("cat /rt_mediator_init_succ",
                            sh tr "cat /rt_mediator_init_succ")]) n.
Proof. done. Qed.

(** The wait, read by read: it is left after the first read that answers
    [1], and it is still turning when none of the reads that the bound
    allows does. *)
Lemma mediator_wait_reads fuel sh : forall tr,
  (forall k, (k < fuel)%nat -> Props.ready sh tr k = true ->
     (forall j, (j < k)%nat -> Props.ready sh tr j = false) ->
     mediator_wait fuel sh tr
     = Done (Props.reads sh k tr ++ [("cat /rt_mediator_init_succ", "1")])) /\
  ((forall k, (k < fuel)%nat -> Props.ready sh tr k = false) ->
   mediator_wait fuel sh tr = Spinning (Props.reads sh fuel tr)).
Proof.
  induction fuel as [|fuel IH]; intros tr.
  - split; [intros k Hk; lia | done].
  - destruct (IH (tr ++ [("cat /rt_mediator_init_succ",
                          sh tr "cat /rt_mediator_init_succ")]))
      as [IHd IHs].
    split.
    + intros k Hk Hready Hfirst. simpl. destruct k as [|k].
      * unfold Props.ready in Hready. simpl in Hready.
        apply bool_decide_eq_true in Hready.
        rewrite decide_False by (by intros Hne; apply Hne).
        by rewrite Hready.
      * assert (Props.ready sh tr 0 = false) as H0 by (apply Hfirst; lia).
        unfold Props.ready in H0. simpl in H0.
        apply bool_decide_eq_false in H0.
        rewrite decide_True by done.
        apply IHd; [lia | by rewrite <- ready_S |].
        intros j Hj. rewrite <- ready_S. apply Hfirst. lia.
    + intros Hnone. simpl.
      assert (Props.ready sh tr 0 = false) as H0 by (apply Hnone; lia).
      unfold Props.ready in H0. simpl in H0.
      apply bool_decide_eq_false in H0.
      rewrite decide_True by done.
      apply IHs. intros k Hk. rewrite <- ready_S. apply Hnone. lia.
Qed.

(** X19: with a route mediator and a switch agent configured, the switch
    agent is launched exactly when a read of the mediator's readiness file
    answers [1] within the bound on the reads: its launch follows the
    first such read at once, and before it only the mediator's launch and
    the earlier reads are sent.  While the reads answer anything else,
    only reads are sent and no switch agent is launched.  This is the
    agents' part of [start]; the commands of the parent's [start] follow
    it. *)
Theorem switch_agent_after_mediator_ready (debug : bool) (fuel : nat)
    (sh : shell) (r : DockerP4Router.t) (tr : trace) (m a : string) :
  let tr1 := tr ++ [(mediator_cmd debug r, sh tr (mediator_cmd debug r))] in
  rt_mediator r = Some m ->
  switch_agent r = Some a ->
  (forall k, (k < fuel)%nat -> Props.ready sh tr1 k = true ->
     (forall j, (j < k)%nat -> Props.ready sh tr1 j = false) ->
     start_agents debug fuel sh r tr
     = Done (Props.reads sh k tr1
             ++ [("cat /rt_mediator_init_succ", "1");
                 (agent_cmd debug r,
                  sh (Props.reads sh k tr1
                      ++ [("cat /rt_mediator_init_succ", "1")])
                     (agent_cmd debug r))])) /\
  ((forall k, (k < fuel)%nat -> Props.ready sh tr1 k = false) ->
   start_agents debug fuel sh r tr = Spinning (Props.reads sh fuel tr1)) /\
  (forall n, exists outs,
     Props.reads sh n tr1
     = tr1 ++ map (fun o => ("cat /rt_mediator_init_succ", o)) outs /\
     length outs = n) /\
  Props.is_agent_launch (mediator_cmd debug r) = false /\
  Props.is_agent_launch "cat /rt_mediator_init_succ" = false /\
  Props.is_agent_launch (agent_cmd debug r) = true.
Proof.
  intros tr1 Hm Ha.
  destruct (mediator_wait_reads fuel sh tr1) as [Hdone Hspin].
  split; [|split; [|split; [|split; [|split]]]].
  - intros k Hk Hready Hfirst. unfold start_agents. rewrite Hm, Ha.
    unfold cmd at 1. fold tr1. rewrite (Hdone k Hk Hready Hfirst).
    unfold cmd. simpl. by rewrite <- app_assoc.
  - intros Hnone. unfold start_agents. rewrite Hm.
    unfold cmd at 1. fold tr1. by rewrite (Hspin Hnone).
  - intros n. apply reads_only_reads.
  - by destruct debug.
  - done.
  - by destruct debug.
Qed.

Lemma switch_agent_after_mediator_ready_witness :
  let r := init "r1" 1 "frr" (Some "./rt_mediator") (Some "./switch_agent") in
  let sh : shell := fun tr c =>
    if decide (c = "cat /rt_mediator_init_succ")
    then (if decide (length tr = 3%nat) then "1" else "0")
    else "" in
  rt_mediator r = Some "./rt_mediator" /\
  switch_agent r = Some "./switch_agent" /\
  Props.ready sh [(mediator_cmd false r, "")] 2 = true /\
  start_agents false 5 sh r []
  = Done [(mediator_cmd false r, "");
          ("cat /rt_mediator_init_succ", "0");
          ("cat /rt_mediator_init_succ", "0");
          ("cat /rt_mediator_init_succ", "1");
          (agent_cmd false r, "")].
Proof.
  intros r sh. split; [reflexivity|]. split; [reflexivity|].
  split; [reflexivity|].
  destruct (switch_agent_after_mediator_ready false 5 sh r []
              "./rt_mediator" "./switch_agent" eq_refl eq_refl)
    as (Hdone & _).
  rewrite (Hdone 2%nat); [reflexivity | lia | reflexivity |].
  intros j Hj. destruct j as [|[|j]]; [reflexivity | reflexivity | lia].
Defined.
End AgentFacts.

(** ** Volume specifications *)
Section VolumeFacts.
Import Docker.

Lemma split_colon_length s : length (split_colon s) = S (Props.colons s).
Proof.
  induction s as [|c s IH]; simpl; [done|].
  case_decide; simpl; [by rewrite IH|].
  destruct (split_colon s); simpl in *; done.
Qed.

Lemma split_colon_app a rest :
  Props.colons a = 0%nat ->
  split_colon (a +:+ String colon rest) = a :: split_colon rest.
Proof.
  induction a as [|c a IH]; intros Hno.
  - change ("" +:+ String colon rest) with (String colon rest). simpl.
    repeat case_decide; done.
  - change (String c a +:+ String colon rest)
      with (String c (a +:+ String colon rest)).
    simpl in Hno. simpl. case_decide; [done|]. by rewrite IH.
Qed.

(** X20: [_get_volume_mount_name] returns [None] exactly for a
    specification with fewer than two colons. *)
Theorem get_volume_mount_name_None_iff (volume_str : string) :
  _get_volume_mount_name volume_str = None
  <-> (Props.colons volume_str < 2)%nat.
Proof.
  unfold _get_volume_mount_name. cbv zeta.
  pose proof (split_colon_length volume_str) as Hlen.
  destruct (Nat.ltb_spec (length (split_colon volume_str)) 3) as [Hlt|Hge].
  - split; [lia | done].
  - split; [|lia]. intros Hnone. apply lookup_ge_None in Hnone. lia.
Qed.

(** X21: of a specification [host:mount:mode], whose host and mount parts
    hold no colon, [_get_volume_mount_name] returns the mount part,
    whatever follows the second colon. *)
Theorem get_volume_mount_name_second_field (host mount mode : string) :
  Props.colons host = 0%nat ->
  Props.colons mount = 0%nat ->
  _get_volume_mount_name (host +:+ ":" +:+ mount +:+ ":" +:+ mode)
  = Some mount.
Proof.
  intros Hhost Hmount. unfold _get_volume_mount_name. cbv zeta.
  change (host +:+ ":" +:+ mount +:+ ":" +:+ mode)
    with (host +:+ String colon (mount +:+ String colon mode)).
  rewrite (split_colon_app host _ Hhost), (split_colon_app mount _ Hmount).
  pose proof (split_colon_length mode) as Hlen.
  destruct (split_colon mode); simpl in *; done.
Qed.

Lemma get_volume_mount_name_second_field_witness :
  Props.colons "/srv/data" = 0%nat /\
  Props.colons "/mnt/vol" = 0%nat /\
  _get_volume_mount_name ("/srv/data" +:+ ":" +:+ "/mnt/vol" +:+ ":" +:+ "rw")
  = Some "/mnt/vol".
Proof.
  split; [reflexivity|]. split; [reflexivity|].
  exact (get_volume_mount_name_second_field "/srv/data" "/mnt/vol" "rw"
           eq_refl eq_refl).
Defined.
End VolumeFacts.
